(** * AI Proofread Plugin: a shallow embedding of the configuration loader,
      the action-entry builder and the proofreading orchestrator.

    The development follows the C sources module by module:
    - [GLib]         the few GLib string helpers the plugin calls;
    - [Json]         the json-glib values the plugin reads and writes;
    - [MConfig]      m-config.c (prompts, API key, selected model);
    - [MUiActions]   m-ui-actions.c (EUI action entries and XML);
    - [MExtension]   m-msg-composer-extension.c (configuration gate);
    - [MProofreader] m-proofreader.c (the asynchronous workflow), run on a
                     small model of the GLib main loop;
    - [Trace]        observations on the events of the workflow;
    - [Spec]         the vocabulary of the specification.
    The proofs follow the definitions, module by module.

    Conventions.  A [gchar *] is an [option string] ([None] is NULL); a
    [guint] or [gint] is a [Z] with its wrap-around written out; a
    [JsonObject] is the ordered list of its members.  [g_debug] output is
    not modelled; [g_warning] and the criticals of [g_return_if_fail] are. *)

From Stdlib Require Import ZArith List String Ascii Bool Lia DecimalString.
Import ListNotations.
Open Scope string_scope.
Open Scope Z_scope.

(* ===================================================================== *)
(** ** GLib helpers *)
(* ===================================================================== *)

Module GLib.

(** Messages written through GLib's logging macros. *)
Inductive LogRecord : Type :=
| LogWarning (msg : string)      (* g_warning *)
| LogCritical (msg : string).    (* g_return_if_fail and friends *)

Definition guint_modulus : Z := 2 ^ 32.

(** Conversion of a mathematical integer to [guint]. *)
Definition to_guint (z : Z) : Z := z mod guint_modulus.

(** Conversion of a mathematical integer to [gint] (two's complement). *)
Definition to_gint (z : Z) : Z :=
  let r := z mod guint_modulus in
  if r <? 2 ^ 31 then r else r - guint_modulus.

Definition nul : ascii := "000"%char.
Definition newline : ascii := "010"%char.
Definition space : ascii := " "%char.

(** The bytes of a buffer seen as a C string: everything before the
    first NUL byte. *)
Fixpoint c_str (s : string) : string :=
  match s with
  | EmptyString => EmptyString
  | String c s' => if Ascii.eqb c nul then EmptyString else String c (c_str s')
  end.

(** Splitting at every occurrence of a one-byte delimiter; the result
    always has one more piece than there are delimiters. *)
Fixpoint split_pieces (d : ascii) (s : string) : list string :=
  match s with
  | EmptyString => [EmptyString]
  | String c s' =>
      if Ascii.eqb c d then EmptyString :: split_pieces d s'
      else match split_pieces d s' with
           | piece :: pieces => String c piece :: pieces
           | [] => [String c EmptyString]
           end
  end.

(** [g_strsplit (s, d, -1)] for a one-byte delimiter [d]: the empty
    string gives the empty vector, any other string its pieces. *)
Definition g_strsplit (s : string) (d : ascii) : list string :=
  match s with
  | EmptyString => []
  | _ => split_pieces d s
  end.

(** [g_strv_length], a [guint]. *)
Definition g_strv_length (v : list string) : Z :=
  to_guint (Z.of_nat (List.length v)).

(** [g_strcmp0]: NULL sorts before every string. *)
Definition g_strcmp0 (a b : option string) : Z :=
  match a, b with
  | None, None => 0
  | None, Some _ => -1
  | Some _, None => 1
  | Some x, Some y =>
      if String.eqb x y then 0 else if String.ltb x y then -1 else 1
  end.

Definition g_strdup (s : option string) : option string := s.

(** What [%s] prints for a [gchar *] (glibc prints a NULL argument as
    the text (null)). *)
Definition fmt_s (s : option string) : string :=
  match s with
  | Some x => x
  | None => "(null)"
  end.

(** What [%u] prints for a [guint]. *)
Definition fmt_u (n : Z) : string :=
  NilEmpty.string_of_uint (N.to_uint (Z.to_N n)).

End GLib.

(* ===================================================================== *)
(** ** json-glib values *)
(* ===================================================================== *)

Module Json.

#[local] Set Warnings "-register-all".

(** A JSON node.  An object keeps its members in insertion order, as
    json-glib does. *)
Inductive JsonNode : Type :=
| JNull
| JBool (b : bool)
| JInt (i : Z)
| JDouble (bits : Z)
| JString (s : string)
| JArray (elements : list JsonNode)
| JObject (members : list (string * JsonNode)).

Definition JsonArray : Type := list JsonNode.
Definition JsonObject : Type := list (string * JsonNode).

(** The outcome of [json_parser_load_from_file] followed by
    [json_parser_get_root]: an error, or a root that is NULL for an
    empty document. *)
Inductive ParseResult : Type :=
| ParseError (message : string)
| ParseOk (root : option JsonNode).

Definition JSON_NODE_HOLDS_ARRAY (root : option JsonNode) : bool :=
  match root with
  | Some (JArray _) => true
  | _ => false
  end.

Definition JSON_NODE_HOLDS_OBJECT (root : option JsonNode) : bool :=
  match root with
  | Some (JObject _) => true
  | _ => false
  end.

Definition json_node_get_array (root : option JsonNode) : option JsonArray :=
  match root with
  | Some (JArray a) => Some a
  | _ => None
  end.

Definition json_node_get_object (root : option JsonNode) : option JsonObject :=
  match root with
  | Some (JObject o) => Some o
  | _ => None
  end.

Definition json_array_new : JsonArray := [].

(** [json_array_get_length], a [guint]. *)
Definition json_array_get_length (a : JsonArray) : Z :=
  GLib.to_guint (Z.of_nat (List.length a)).

(** [json_array_get_object_element]: NULL unless the element is an
    object. *)
Definition json_array_get_object_element (a : JsonArray) (i : nat)
  : option JsonObject :=
  match nth_error a i with
  | Some (JObject o) => Some o
  | _ => None
  end.

Fixpoint json_object_get_member (o : JsonObject) (name : string)
  : option JsonNode :=
  match o with
  | [] => None
  | (k, v) :: rest =>
      if String.eqb k name then Some v else json_object_get_member rest name
  end.

Definition json_object_has_member (o : JsonObject) (name : string) : bool :=
  match json_object_get_member o name with
  | Some _ => true
  | None => false
  end.

(** [json_object_remove_member] drops the member from the ordered
    member list. *)
Fixpoint json_object_remove_member (o : JsonObject) (name : string)
  : JsonObject :=
  match o with
  | [] => []
  | (k, v) :: rest =>
      if String.eqb k name then rest
      else (k, v) :: json_object_remove_member rest name
  end.

(** [json_object_set_member]: an existing member keeps its place and
    gets the new node, a new member goes to the end. *)
Fixpoint json_object_set_member (o : JsonObject) (name : string)
  (node : JsonNode) : JsonObject :=
  match o with
  | [] => [(name, node)]
  | (k, v) :: rest =>
      if String.eqb k name then (k, node) :: rest
      else (k, v) :: json_object_set_member rest name node
  end.

Definition json_object_set_string_member (o : JsonObject) (name : string)
  (value : string) : JsonObject :=
  json_object_set_member o name (JString value).

(** [json_object_get_string_member]: NULL for a NULL object, a missing
    member and a member that is not a string. *)
Definition json_object_get_string_member (o : option JsonObject)
  (name : string) : option string :=
  match o with
  | None => None
  | Some obj =>
      match json_object_get_member obj name with
      | Some (JString s) => Some s
      | _ => None
      end
  end.

(** [json_object_get_members]: the member names in order. *)
Definition json_object_get_members (o : JsonObject) : list string :=
  map fst o.

Definition json_node_copy (n : JsonNode) : JsonNode := n.

End Json.

(* ===================================================================== *)
(** ** m-config.c *)
(* ===================================================================== *)

Module MConfig.
Import GLib Json.

(** m-config.h *)
Definition M_CONFIG_DEFAULT_MODEL : string := "gpt-4o".

(** The outcome of [g_file_get_contents]. *)
Inductive ReadResult : Type :=
| ReadError (message : string)
| ReadOk (content : string).

(** [m_config_load_prompts], given what the JSON parser makes of
    prompts.json. *)
Definition m_config_load_prompts (file : ParseResult)
  : option JsonArray * list LogRecord :=
  match file with
  | ParseOk root =>
      if JSON_NODE_HOLDS_ARRAY root
      then (json_node_get_array root, [])
      else (Some json_array_new,
            [LogWarning "Prompts file root is not an array, using empty prompts list"])
  | ParseError message =>
      (Some json_array_new,
       [LogWarning ("Error loading prompts: " ++ message)])
  end.

(** [tokens[i]] of a NULL-terminated string vector. *)
Definition token (tokens : list string) (i : nat) : option string :=
  nth_error tokens i.

(** [parse_authinfo_line] *)
Definition parse_authinfo_line (line : option string) : option string :=
  match line with
  | None => None
  | Some EmptyString => None
  | Some l =>
      let tokens := g_strsplit l space in
      let token_count := to_gint (g_strv_length tokens) in
      if (6 <=? token_count)
         && (g_strcmp0 (token tokens 0) (Some "machine") =? 0)
         && (g_strcmp0 (token tokens 1) (Some "api.openai.com") =? 0)
         && (g_strcmp0 (token tokens 2) (Some "login") =? 0)
         && (g_strcmp0 (token tokens 3) (Some "apikey") =? 0)
         && (g_strcmp0 (token tokens 4) (Some "password") =? 0)
      then g_strdup (token tokens 5)
      else None
  end.

(** The loop of [m_config_load_api_key] over the lines: stop at the
    first line that yields a key. *)
Fixpoint scan_authinfo_lines (lines : list string) : option string :=
  match lines with
  | [] => None
  | line :: rest =>
      match parse_authinfo_line (Some line) with
      | Some api_key => Some api_key
      | None => scan_authinfo_lines rest
      end
  end.

(** The lines [m_config_load_api_key] iterates over. *)
Definition authinfo_lines (content : string) : list string :=
  g_strsplit (c_str content) newline.

(** [m_config_load_api_key], given what reading ~/.authinfo returns. *)
Definition m_config_load_api_key (file : ReadResult)
  : option string * list LogRecord :=
  match file with
  | ReadOk content => (scan_authinfo_lines (authinfo_lines content), [])
  | ReadError message =>
      (None, [LogWarning ("Error loading authinfo: " ++ message)])
  end.

(** [m_config_load_model], given what the JSON parser makes of
    config.json. *)
Definition m_config_load_model (file : ParseResult) : option string :=
  let model :=
    match file with
    | ParseOk root =>
        if JSON_NODE_HOLDS_OBJECT root then
          match json_node_get_object root with
          | Some obj =>
              if json_object_has_member obj "model"
              then g_strdup (json_object_get_string_member (Some obj) "model")
              else None
          | None => None
          end
        else None
    | ParseError _ => None
    end in
  match model with
  | Some m => Some m
  | None => g_strdup (Some M_CONFIG_DEFAULT_MODEL)
  end.

(** The directory of config.json and what the file system answers
    during [m_config_save_model]. *)
Record SaveEnv : Type := {
  config_dir : string;            (* g_path_get_dirname (config_path) *)
  mkdir_status : Z;               (* g_mkdir_with_parents *)
  write_error : option string     (* json_generator_to_file *)
}.

(** The JsonBuilder loop of [m_config_save_model]: every member of
    [config_obj] is set, in order, on a fresh object. *)
Definition build_root (config_obj : JsonObject) : JsonObject :=
  fold_left
    (fun built member_name =>
       match json_object_get_member config_obj member_name with
       | Some member_node =>
           json_object_set_member built member_name (json_node_copy member_node)
       | None => built
       end)
    (json_object_get_members config_obj) [].

(** [m_config_save_model].  The state is what the JSON parser makes of
    config.json; a successful [json_generator_to_file] leaves a file
    that parses back to the generated root. *)
Definition m_config_save_model (model : option string) (env : SaveEnv)
  (file : ParseResult) : bool * ParseResult * list LogRecord :=
  match model with
  | None => (false, file, [LogCritical "m_config_save_model: assertion 'model != NULL' failed"])
  | Some m =>
      if negb (mkdir_status env =? 0)
      then (false, file,
            [LogWarning ("Failed to create config directory: " ++ config_dir env)])
      else
        let existing :=
          match file with
          | ParseOk existing_root =>
              if JSON_NODE_HOLDS_OBJECT existing_root
              then json_node_get_object existing_root
              else None
          | ParseError _ => None
          end in
        let config_obj :=
          match existing with
          | Some obj => obj
          | None => []
          end in
        let config_obj :=
          if json_object_has_member config_obj "model"
          then json_object_remove_member config_obj "model"
          else config_obj in
        let config_obj := json_object_set_string_member config_obj "model" m in
        let root := JObject (build_root config_obj) in
        match write_error env with
        | Some message =>
            (false, file, [LogWarning ("Failed to save config: " ++ message)])
        | None => (true, ParseOk (Some root), [])
        end
  end.

End MConfig.

(* ===================================================================== *)
(** ** m-ui-actions.c *)
(* ===================================================================== *)

Module MUiActions.
Import GLib Json MConfig.

(** The callbacks an action entry can carry. *)
Inductive ActionCallback : Type :=
| action_proofread_cb
| action_dropdown_cb
| action_select_model_cb.

(** Evolution's [EUIActionEntry], field by field. *)
Record EUIActionEntry : Type := {
  name : option string;
  icon_name : option string;
  label : option string;
  accel : option string;
  tooltip : option string;
  activate : option ActionCallback;
  parameter_type : option string;
  state : option string;
  change_state : option ActionCallback
}.

(** An entry of a [g_new0] array: every field NULL. *)
Definition zero_entry : EUIActionEntry :=
  {| name := None; icon_name := None; label := None; accel := None;
     tooltip := None; activate := None; parameter_type := None;
     state := None; change_state := None |}.

Record MUIActionContext : Type := {
  ctx_prompts : option JsonArray;
  ctx_api_key : option string;
  ctx_model : option string;
  ctx_models : list (option string)     (* GList of gchar * *)
}.

Record MUIActionEntries : Type := {
  entries : list EUIActionEntry;
  count : Z;
  total_count : Z;
  eui_xml : option string
}.

(** [m_ui_action_context_new] *)
Definition m_ui_action_context_new (prompts : option JsonArray)
  (api_key model : option string) (models : list (option string))
  : MUIActionContext :=
  {| ctx_prompts := prompts;
     ctx_api_key := g_strdup api_key;
     ctx_model := g_strdup (match model with
                            | Some m => Some m
                            | None => Some M_CONFIG_DEFAULT_MODEL
                            end);
     ctx_models := map g_strdup models |}.

(** [g_new0 (EUIActionEntry, n)] *)
Definition g_new0_entries (n : Z) : list EUIActionEntry :=
  repeat zero_entry (Z.to_nat n).

(** [arr[idx] = v].  A write past the end of the array is undefined in
    C; the model leaves the array as it is. *)
Fixpoint store {A : Type} (arr : list A) (idx : nat) (v : A) : list A :=
  match arr, idx with
  | [], _ => []
  | _ :: rest, O => v :: rest
  | x :: rest, S i => x :: store rest i v
  end.

(** [create_prompt_entry] *)
Definition create_prompt_entry (prompt : option JsonObject) : EUIActionEntry :=
  let name := json_object_get_string_member prompt "name" in
  let prompt_text := json_object_get_string_member prompt "prompt" in
  {| name := Some ("ai-proofread-" ++ fmt_s name);
     icon_name := Some "tools-check-spelling";
     label := g_strdup name;
     accel := None;
     tooltip := g_strdup prompt_text;
     activate := Some action_proofread_cb;
     parameter_type := None; state := None; change_state := None |}.

(** [create_menu_entry] *)
Definition create_menu_entry : EUIActionEntry :=
  {| name := Some "ai-menu";
     icon_name := None;
     label := Some "AI";
     accel := None;
     tooltip := Some "AI tools";
     activate := None;
     parameter_type := None; state := None; change_state := None |}.

(** [create_dropdown_entry] *)
Definition create_dropdown_entry : EUIActionEntry :=
  {| name := Some "ai-proofread-dropdown";
     icon_name := Some "tools-check-spelling";
     label := Some "AI _Proofread";
     accel := None;
     tooltip := Some "AI Proofread";
     activate := Some action_dropdown_cb;
     parameter_type := None; state := None; change_state := None |}.

(** [create_model_menu_entry] *)
Definition create_model_menu_entry (current_model : option string)
  : EUIActionEntry :=
  let label :=
    "Model (" ++ fmt_s (match current_model with
                        | Some m => Some m
                        | None => Some M_CONFIG_DEFAULT_MODEL
                        end) ++ ")" in
  {| name := Some "ai-model-menu";
     icon_name := None;
     label := Some label;
     accel := None;
     tooltip := Some "Select AI model";
     activate := None;
     parameter_type := None; state := None; change_state := None |}.

(** [create_model_entry] *)
Definition create_model_entry (model_id : option string) (is_current : bool)
  : EUIActionEntry :=
  let label :=
    if is_current then Some ("✓ " ++ fmt_s model_id) else g_strdup model_id in
  {| name := Some ("ai-model-" ++ fmt_s model_id);
     icon_name := None;
     label := label;
     accel := None;
     tooltip := Some ("Use " ++ fmt_s model_id ++ " model");
     activate := Some action_select_model_cb;
     parameter_type := None; state := None; change_state := None |}.

(** One round of the loop of [validate_entries] on [entries[i]]. *)
Definition validate_entry (i : Z) (e : EUIActionEntry)
  : EUIActionEntry * list LogRecord :=
  let '(name', warnings) :=
    match name e with
    | Some n => (Some n, [])
    | None =>
        let fallback := "ai-proofread-missing-" ++ fmt_u i in
        (Some fallback,
         [LogWarning ("Found null action name for entry " ++ fmt_u i
                      ++ ", using fallback '" ++ fallback ++ "'")])
    end in
  let label' := match label e with
                | Some l => Some l
                | None => Some "(no label)"
                end in
  let tooltip' := match tooltip e with
                  | Some t => Some t
                  | None => Some ""
                  end in
  ({| name := name'; icon_name := icon_name e; label := label';
      accel := accel e; tooltip := tooltip'; activate := activate e;
      parameter_type := parameter_type e; state := state e;
      change_state := change_state e |}, warnings).

(** [validate_entries]: the loop [for (i = 0; i < count; i++)] walking
    the array from index [i]. *)
Fixpoint validate_from (i count : Z) (arr : list EUIActionEntry)
  : list EUIActionEntry * list LogRecord :=
  match arr with
  | [] => ([], [])
  | e :: rest =>
      if i <? count then
        let '(e', w) := validate_entry i e in
        let '(rest', w') := validate_from (to_guint (i + 1)) count rest in
        (e' :: rest', (w ++ w')%list)
      else (arr, [])
  end.

Definition validate_entries (arr : list EUIActionEntry) (count : Z)
  : list EUIActionEntry * list LogRecord :=
  validate_from 0 count arr.

(** The element loop shared by [build_eui_xml], [action_dropdown_cb]
    and [m_ui_build_action_entries]: the indices 0 .. n_prompts - 1. *)
Definition prompt_indices (n_prompts : Z) : list nat :=
  seq 0 (Z.to_nat n_prompts).

(** [build_eui_xml] *)
Definition build_eui_xml (prompts : JsonArray) (models : list (option string))
  (current_model : option string) : string :=
  let xml :=
    "<eui><menu id='main-menu'><placeholder id='custom-menus'>"
    ++ "<submenu action='ai-menu'><placeholder id='ai-menu-holder'>" in
  let n_prompts := json_array_get_length prompts in
  let xml :=
    fold_left
      (fun xml i =>
         let prompt := json_array_get_object_element prompts i in
         let name := json_object_get_string_member prompt "name" in
         let action_name := "ai-proofread-" ++ fmt_s name in
         xml ++ "<item action='" ++ action_name ++ "'/>")
      (prompt_indices n_prompts) xml in
  let xml := xml ++ "<separator/>" in
  let xml := xml ++ "<submenu action='ai-model-menu'>" in
  let xml :=
    fold_left
      (fun xml model_id =>
         let action_name := "ai-model-" ++ fmt_s model_id in
         xml ++ "<item action='" ++ action_name ++ "'/>")
      models xml in
  let xml := xml ++ "</submenu>" in
  let xml := xml ++ "</placeholder></submenu></placeholder></menu>" in
  let xml := xml ++ "<toolbar id='main-toolbar-with-headerbar'><item action='ai-proofread-dropdown'/></toolbar>" in
  let xml := xml ++ "<toolbar id='main-toolbar-without-headerbar'><item action='ai-proofread-dropdown'/></toolbar>" in
  xml ++ "</eui>".

(** [g_list_length], a [guint]. *)
Definition g_list_length {A : Type} (l : list A) : Z :=
  to_guint (Z.of_nat (List.length l)).

(** [result->entries[idx++] = e] *)
Definition push_entry (st : list EUIActionEntry * Z) (e : EUIActionEntry)
  : list EUIActionEntry * Z :=
  (store (fst st) (Z.to_nat (snd st)) e, to_guint (snd st + 1)).

(** [m_ui_build_action_entries] *)
Definition m_ui_build_action_entries (prompts : option JsonArray)
  (action_context : MUIActionContext)
  : option MUIActionEntries * list LogRecord :=
  match prompts with
  | None => (None, [])
  | Some prompts =>
      let n_prompts := json_array_get_length prompts in
      if n_prompts =? 0 then (None, [])
      else
        let n_models := g_list_length (ctx_models action_context) in
        let total := to_guint (n_prompts + 3 + n_models) in
        let st := (g_new0_entries total, 0) in
        let st :=
          fold_left
            (fun st i =>
               let prompt := json_array_get_object_element prompts i in
               push_entry st (create_prompt_entry prompt))
            (prompt_indices n_prompts) st in
        let st := push_entry st create_menu_entry in
        let st := push_entry st create_dropdown_entry in
        let st := push_entry st (create_model_menu_entry (ctx_model action_context)) in
        let st :=
          fold_left
            (fun st model_id =>
               let is_current :=
                 g_strcmp0 model_id (ctx_model action_context) =? 0 in
               push_entry st (create_model_entry model_id is_current))
            (ctx_models action_context) st in
        let '(validated, warnings) := validate_entries (fst st) total in
        (Some {| entries := validated;
                 count := n_prompts;
                 total_count := total;
                 eui_xml := Some (build_eui_xml prompts
                                    (ctx_models action_context)
                                    (ctx_model action_context)) |},
         warnings)
  end.

End MUiActions.

(* ===================================================================== *)
(** ** m-msg-composer-extension.c *)
(* ===================================================================== *)

Module MExtension.
Import GLib Json MUiActions.

Record MMsgComposerExtensionPrivate : Type := {
  prompts : option JsonArray;
  chatgpt_api_key : option string;
  model : option string;
  models : list (option string)
}.

(** [validate_configuration] *)
Definition validate_configuration (priv : MMsgComposerExtensionPrivate)
  : bool * list LogRecord :=
  if match prompts priv with
     | None => true
     | Some p => json_array_get_length p =? 0
     end
  then (false, [LogWarning "No prompts configured, skipping UI creation"])
  else
    match chatgpt_api_key priv with
    | None => (false, [LogWarning "No API key configured, skipping UI creation"])
    | Some _ => (true, [])
    end.

(** [m_msg_composer_extension_add_ui].  The first component is the
    entry array handed to [m_ui_register_actions], if any. *)
Definition m_msg_composer_extension_add_ui (priv : MMsgComposerExtensionPrivate)
  : option (list EUIActionEntry) * list LogRecord :=
  let '(valid, log) := validate_configuration priv in
  if negb valid then (None, log)
  else
    let ui_context :=
      m_ui_action_context_new (prompts priv) (chatgpt_api_key priv)
        (model priv) (models priv) in
    let '(action_entries, log') :=
      m_ui_build_action_entries (prompts priv) ui_context in
    match action_entries with
    | None =>
        (None, (log ++ log'
                ++ [LogWarning "No action entries built, skipping UI registration"])%list)
    | Some built => (Some (firstn (Z.to_nat (total_count built)) (entries built)),
                     (log ++ log')%list)
    end.

End MExtension.

(* ===================================================================== *)
(** ** m-proofreader.c *)
(* ===================================================================== *)

Module MProofreader.
Import GLib Json.

Definition PROOFREAD_WAIT_DELAY_MS : Z := 800.

Definition G_SOURCE_REMOVE : bool := false.

(** A GObject instance (editor, composer window, dialog). *)
Definition Widget : Type := positive.

Record MProofreadContext : Type := {
  cnt_editor : option Widget;
  prompt_id : option string;
  prompts : option JsonArray;
  api_key : option string;
  model : option string;
  composer : option Widget;
  wait_dialog : option Widget;
  wait_timeout_id : Z
}.

(** What the workflow does to the world outside this module. *)
Inductive Event : Type :=
| EvLog (record : LogRecord)
| EvGetContent (editor : Widget)            (* e_content_editor_get_content *)
| EvTimeoutAdd (id interval : Z)            (* g_timeout_add *)
| EvSourceRemove (id : Z)                   (* g_source_remove *)
| EvWaitDialogShow (dialog : Widget) (message : string)
                                            (* gtk_widget_show_all (wait dialog) *)
| EvWidgetDestroy (widget : Widget)         (* gtk_widget_destroy *)
| EvTaskRun (content : string)              (* g_task_run_in_thread *)
| EvAlertSubmit (sink : option Widget) (tag message : string)
                                            (* e_alert_submit *)
| EvDialogRun (dialog : Widget)             (* gtk_dialog_run (message dialog) *)
| EvInsertContent (editor : option Widget) (text : string)
                                            (* e_content_editor_insert_content *)
| EvContextFree.                            (* g_free (context) *)

(** A timeout source attached to the main context. *)
Record TimeoutSource : Type := {
  source_id : Z;
  interval : Z;
  due : Z
}.

(** The UI thread's world around one proofreading context. *)
Record St : Type := {
  ctx : MProofreadContext;
  task : option string;            (* content held by the queued GTask *)
  timeouts : list TimeoutSource;   (* sources whose user data is [ctx] *)
  now : Z;                         (* main-loop clock, in ms *)
  next_source_id : positive;
  windows : list Widget;           (* live GtkWindow instances *)
  next_widget : positive;
  notice_open_ms : Z               (* how long the user leaves a modal notice open *)
}.

(** The part of the world that exists before a context is created. *)
Record World : Type := {
  w_now : Z;
  w_next_source_id : positive;
  w_windows : list Widget;
  w_next_widget : positive;
  w_notice_open_ms : Z
}.

(** *** A state monad that also collects the events *)

Definition M (A : Type) : Type := St -> A * St * list Event.

Definition ret {A : Type} (a : A) : M A := fun st => (a, st, []).

Definition bind {A B : Type} (m : M A) (k : A -> M B) : M B :=
  fun st =>
    let '(a, st1, evs1) := m st in
    let '(b, st2, evs2) := k a st1 in
    (b, st2, (evs1 ++ evs2)%list).

Definition get : M St := fun st => (st, st, []).
Definition put (st : St) : M unit := fun _ => (tt, st, []).
Definition emit (e : Event) : M unit := fun st => (tt, st, [e]).

Notation "x <- m ;; k" := (bind m (fun x => k))
  (at level 61, m at next level, right associativity).
Notation "m ;; k" := (bind m (fun _ => k))
  (at level 61, right associativity).

Definition set_ctx (c : MProofreadContext) : M unit :=
  st <- get ;;
  put {| ctx := c; task := task st; timeouts := timeouts st; now := now st;
         next_source_id := next_source_id st; windows := windows st;
         next_widget := next_widget st; notice_open_ms := notice_open_ms st |}.

Definition set_task (t : option string) : M unit :=
  st <- get ;;
  put {| ctx := ctx st; task := t; timeouts := timeouts st; now := now st;
         next_source_id := next_source_id st; windows := windows st;
         next_widget := next_widget st; notice_open_ms := notice_open_ms st |}.

Definition set_timeouts (l : list TimeoutSource) : M unit :=
  st <- get ;;
  put {| ctx := ctx st; task := task st; timeouts := l; now := now st;
         next_source_id := next_source_id st; windows := windows st;
         next_widget := next_widget st; notice_open_ms := notice_open_ms st |}.

Definition set_now (t : Z) : M unit :=
  st <- get ;;
  put {| ctx := ctx st; task := task st; timeouts := timeouts st; now := t;
         next_source_id := next_source_id st; windows := windows st;
         next_widget := next_widget st; notice_open_ms := notice_open_ms st |}.

Definition set_wait (dialog : option Widget) (id : Z) : M unit :=
  st <- get ;;
  let c := ctx st in
  set_ctx {| cnt_editor := cnt_editor c; prompt_id := prompt_id c;
             prompts := prompts c; api_key := api_key c; model := model c;
             composer := composer c;
             wait_dialog := dialog; wait_timeout_id := id |}.

(** *** GLib and GTK as the workflow uses them *)

(** [g_timeout_add]: a fresh non-zero id, due one interval from now. *)
Definition g_timeout_add (ms : Z) : M Z :=
  st <- get ;;
  let id := Z.pos (next_source_id st) in
  put {| ctx := ctx st; task := task st;
         timeouts := (timeouts st
                      ++ [{| source_id := id; interval := ms;
                             due := now st + ms |}])%list;
         now := now st;
         next_source_id := Pos.succ (next_source_id st);
         windows := windows st; next_widget := next_widget st;
         notice_open_ms := notice_open_ms st |} ;;
  emit (EvTimeoutAdd id ms) ;;
  ret id.

Definition source_attached (id : Z) (l : list TimeoutSource) : bool :=
  existsb (fun s => source_id s =? id) l.

Definition detach (id : Z) (l : list TimeoutSource) : list TimeoutSource :=
  filter (fun s => negb (source_id s =? id)) l.

(** [g_source_remove]: detaches the source; an unknown id is reported
    as a critical and nothing is detached. *)
Definition g_source_remove (id : Z) : M bool :=
  st <- get ;;
  emit (EvSourceRemove id) ;;
  if source_attached id (timeouts st)
  then set_timeouts (detach id (timeouts st)) ;; ret true
  else emit (EvLog (LogCritical "Source ID was not found when attempting to remove it")) ;;
       ret false.

(** A fresh window: [gtk_dialog_new], [gtk_message_dialog_new]. *)
Definition new_window : M Widget :=
  st <- get ;;
  let w := next_widget st in
  put {| ctx := ctx st; task := task st; timeouts := timeouts st;
         now := now st; next_source_id := next_source_id st;
         windows := w :: windows st;
         next_widget := Pos.succ (next_widget st);
         notice_open_ms := notice_open_ms st |} ;;
  ret w.

Definition gtk_widget_destroy (w : Widget) : M unit :=
  st <- get ;;
  put {| ctx := ctx st; task := task st; timeouts := timeouts st;
         now := now st; next_source_id := next_source_id st;
         windows := filter (fun x => negb (Pos.eqb x w)) (windows st);
         next_widget := next_widget st;
         notice_open_ms := notice_open_ms st |} ;;
  emit (EvWidgetDestroy w).

(** [GTK_IS_WINDOW (w)] for a non-NULL [w]. *)
Definition GTK_IS_WINDOW (w : Widget) (st : St) : bool :=
  existsb (Pos.eqb w) (windows st).

(** *** The wait indicator *)

(** [proofreader_wait_indicator_show] *)
Definition proofreader_wait_indicator_show : M bool :=
  st <- get ;;
  let context := ctx st in
  match composer context with
  | None => ret G_SOURCE_REMOVE
  | Some c =>
      if negb (GTK_IS_WINDOW c st) then ret G_SOURCE_REMOVE
      else
        dialog <- new_window ;;
        let message :=
          "Proofreading with "
          ++ fmt_s (match model context with
                    | Some m => Some m
                    | None => Some "AI"
                    end)
          ++ " may take a little longer. Please wait..." in
        emit (EvWaitDialogShow dialog message) ;;
        set_wait (Some dialog) 0 ;;
        ret G_SOURCE_REMOVE
  end.

(** [proofreader_wait_indicator_schedule] *)
Definition proofreader_wait_indicator_schedule : M unit :=
  st <- get ;;
  let context := ctx st in
  if negb (wait_timeout_id context =? 0)
     || match wait_dialog context with Some _ => true | None => false end
  then ret tt
  else
    id <- g_timeout_add PROOFREAD_WAIT_DELAY_MS ;;
    set_wait (wait_dialog context) id.

(** [proofreader_wait_indicator_clear] *)
Definition proofreader_wait_indicator_clear : M unit :=
  st <- get ;;
  (if negb (wait_timeout_id (ctx st) =? 0)
   then g_source_remove (wait_timeout_id (ctx st)) ;;
        set_wait (wait_dialog (ctx st)) 0
   else ret tt) ;;
  st <- get ;;
  match wait_dialog (ctx st) with
  | Some dialog =>
      gtk_widget_destroy dialog ;;
      set_wait None (wait_timeout_id (ctx st))
  | None => ret tt
  end.

(** *** The main loop *)

(** Dispatch of the timeout sources that were found due: each one
    still attached runs [proofreader_wait_indicator_show] and is
    detached when the callback answers [G_SOURCE_REMOVE]. *)
Fixpoint dispatch_sources (ready : list TimeoutSource) : M unit :=
  match ready with
  | [] => ret tt
  | s :: rest =>
      st <- get ;;
      (if source_attached (source_id s) (timeouts st) then
         keep <- proofreader_wait_indicator_show ;;
         if keep then ret tt
         else st' <- get ;;
              set_timeouts (detach (source_id s) (timeouts st'))
       else ret tt) ;;
      dispatch_sources rest
  end.

(** The main loop runs until the clock reads [t]: every timeout due by
    then is dispatched, in the order the sources were attached. *)
Definition main_loop_run_until (t : Z) : M unit :=
  st <- get ;;
  dispatch_sources (filter (fun s => due s <=? t) (timeouts st)) ;;
  set_now (Z.max (now st) t).

(** *** Outcome handlers *)

(** [show_error_alert] *)
Definition show_error_alert (composer : option Widget) (error_message : string)
  : M unit :=
  emit (EvAlertSubmit composer "ai:error-proofreading" error_message).

(** [show_no_response_dialog]: [gtk_dialog_run] spins a nested main
    loop until the user closes the notice. *)
Definition show_no_response_dialog (composer : option Widget) : M unit :=
  dialog <- new_window ;;
  emit (EvDialogRun dialog) ;;
  st <- get ;;
  main_loop_run_until (now st + notice_open_ms st) ;;
  gtk_widget_destroy dialog.

(** [insert_proofread_content] *)
Definition insert_proofread_content (cnt_editor : option Widget)
  (content : string) : M unit :=
  emit (EvInsertContent cnt_editor content).

(** [m_proofreader_context_free] on a non-NULL context. *)
Definition m_proofreader_context_free : M unit :=
  proofreader_wait_indicator_clear ;;
  emit EvContextFree.

(** What [g_task_propagate_pointer] hands to the completion callback. *)
Inductive TaskResult : Type :=
| TaskError (message : string)
| TaskPointer (proofread_text : option string).

(** [proofread_task_completed] *)
Definition proofread_task_completed (result : TaskResult) : M unit :=
  proofreader_wait_indicator_clear ;;
  st <- get ;;
  let context := ctx st in
  match result with
  | TaskError message =>
      emit (EvLog (LogWarning ("ChatGPT API error: " ++ message))) ;;
      show_error_alert (composer context) message
  | TaskPointer None =>
      show_no_response_dialog (composer context)
  | TaskPointer (Some proofread_text) =>
      insert_proofread_content (cnt_editor context) proofread_text
  end ;;
  m_proofreader_context_free.

(** [start_proofread_task] *)
Definition start_proofread_task (original_content : string) : M unit :=
  set_task (g_strdup (Some original_content)) ;;
  proofreader_wait_indicator_schedule ;;
  emit (EvTaskRun original_content).

(** What [e_content_editor_get_content_finish] returns: an error, and
    a content hash (NULL, or holding the plain text if there is any). *)
Record ContentResult : Type := {
  cr_error : option string;
  cr_hash : option (option string)
}.

(** [m_proofreader_content_ready_cb] *)
Definition m_proofreader_content_ready_cb (result : ContentResult) : M unit :=
  match cr_error result with
  | Some message =>
      emit (EvLog (LogWarning ("Error getting content: " ++ message))) ;;
      m_proofreader_context_free
  | None =>
      match cr_hash result with
      | None =>
          emit (EvLog (LogWarning "No content hash returned")) ;;
          m_proofreader_context_free
      | Some content_hash =>
          let content := content_hash in
          handed_off <-
            match content with
            | Some text => start_proofread_task text ;; ret true
            | None => ret false
            end ;;
          if negb handed_off then m_proofreader_context_free else ret tt
      end
  end.

(** [m_proofreader_context_new] *)
Definition m_proofreader_context_new (cnt_editor : option Widget)
  (prompt_id : option string) (prompts : option JsonArray)
  (api_key model : option string) (composer : option Widget)
  : MProofreadContext :=
  {| cnt_editor := cnt_editor;
     prompt_id := g_strdup prompt_id;
     prompts := prompts;
     api_key := g_strdup api_key;
     model := g_strdup model;
     composer := composer;
     wait_dialog := None;
     wait_timeout_id := 0 |}.

(** The arguments of [m_proofreader_start]. *)
Record StartArgs : Type := {
  a_cnt_editor : option Widget;
  a_prompt_id : option string;
  a_prompts : option JsonArray;
  a_api_key : option string;
  a_model : option string;
  a_composer : option Widget
}.

Definition return_if_fail_warning (expr : string) : list Event :=
  [EvLog (LogCritical ("m_proofreader_start: assertion '" ++ expr ++ "' failed"))].

(** [m_proofreader_start]: the context handed to the content request,
    if the request is made, and the events. *)
Definition m_proofreader_start (args : StartArgs) (w : World)
  : option St * list Event :=
  match a_cnt_editor args with
  | None => (None, return_if_fail_warning "cnt_editor != NULL")
  | Some editor =>
  match a_prompt_id args with
  | None => (None, return_if_fail_warning "prompt_id != NULL")
  | Some _ =>
  match a_prompts args with
  | None => (None, return_if_fail_warning "prompts != NULL")
  | Some _ =>
  match a_api_key args with
  | None => (None, return_if_fail_warning "api_key != NULL")
  | Some _ =>
      let context :=
        m_proofreader_context_new (a_cnt_editor args) (a_prompt_id args)
          (a_prompts args) (a_api_key args) (a_model args) (a_composer args) in
      (Some {| ctx := context; task := None; timeouts := [];
               now := w_now w; next_source_id := w_next_source_id w;
               windows := w_windows w; next_widget := w_next_widget w;
               notice_open_ms := w_notice_open_ms w |},
       [EvGetContent editor])
  end end end end.

Section Remote.

(** The Remote Transform Client of m-chatgpt-api.h: the proofread
    text and the error it sets, for the content, prompt id, prompts,
    API key and model it is given. *)
Variable m_chatgpt_proofread :
  string -> option string -> option JsonArray -> option string ->
  option string -> option string * option string.

(** [proofread_task_thread], on the worker. *)
Definition proofread_task_thread (content : string)
  (context : MProofreadContext) : TaskResult :=
  let '(proofread_text, error) :=
    m_chatgpt_proofread content (prompt_id context) (prompts context)
      (api_key context) (model context) in
  match error with
  | Some message => TaskError message
  | None => TaskPointer proofread_text
  end.

(** One whole invocation on the UI thread: the start, the content
    callback and, when a task was handed to the worker, the main loop
    running for [request_ms] until the completion callback is
    dispatched. *)
Definition invocation (w : World) (args : StartArgs)
  (content : ContentResult) (request_ms : Z) : list Event * option St :=
  match m_proofreader_start args w with
  | (None, evs) => (evs, None)
  | (Some st0, evs0) =>
      let '(_, st1, evs1) := m_proofreader_content_ready_cb content st0 in
      match task st1 with
      | None => ((evs0 ++ evs1)%list, Some st1)
      | Some text =>
          let result := proofread_task_thread text (ctx st1) in
          let '(_, st2, evs2) :=
            main_loop_run_until (now st1 + request_ms) st1 in
          let '(_, st3, evs3) := proofread_task_completed result st2 in
          ((evs0 ++ evs1 ++ evs2 ++ evs3)%list, Some st3)
      end
  end.

End Remote.

End MProofreader.

(* ===================================================================== *)
(** ** Observations on event traces *)
(* ===================================================================== *)

Module Trace.
Import GLib MProofreader.

Definition is_alert (e : Event) : bool :=
  match e with EvAlertSubmit _ _ _ => true | _ => false end.

Definition is_insert (e : Event) : bool :=
  match e with EvInsertContent _ _ => true | _ => false end.

Definition is_notice (e : Event) : bool :=
  match e with EvDialogRun _ => true | _ => false end.

Definition is_task_run (e : Event) : bool :=
  match e with EvTaskRun _ => true | _ => false end.

Definition is_timeout_add (e : Event) : bool :=
  match e with EvTimeoutAdd _ _ => true | _ => false end.

Definition is_source_remove (e : Event) : bool :=
  match e with EvSourceRemove _ => true | _ => false end.

Definition is_wait_show (e : Event) : bool :=
  match e with EvWaitDialogShow _ _ => true | _ => false end.

Definition is_get_content (e : Event) : bool :=
  match e with EvGetContent _ => true | _ => false end.

Definition is_context_free (e : Event) : bool :=
  match e with EvContextFree => true | _ => false end.

(** The three outcome branches of the completion callback. *)
Definition is_outcome (e : Event) : bool :=
  is_alert e || is_notice e || is_insert e.

(** Anything the user can see. *)
Definition is_user_visible (e : Event) : bool :=
  is_outcome e || is_wait_show e.

Definition count (p : Event -> bool) (t : list Event) : nat :=
  List.length (filter p t).

Definition occurs (p : Event -> bool) (t : list Event) : bool :=
  existsb p t.

Definition mem (w : Widget) (l : list Widget) : bool :=
  existsb (Pos.eqb w) l.

Definition drop (w : Widget) (l : list Widget) : list Widget :=
  filter (fun x => negb (Pos.eqb x w)) l.

(** How often a wait dialog that was shown is destroyed; [waits] are
    the wait dialogs shown so far. *)
Fixpoint wait_destroys (waits : list Widget) (t : list Event) : nat :=
  match t with
  | [] => O
  | EvWaitDialogShow d _ :: rest => wait_destroys (d :: waits) rest
  | EvWidgetDestroy d :: rest =>
      if mem d waits then S (wait_destroys waits rest)
      else wait_destroys waits rest
  | _ :: rest => wait_destroys waits rest
  end.

(** The wait dialogs still on screen after the trace. *)
Fixpoint waits_left (waits : list Widget) (t : list Event) : list Widget :=
  match t with
  | [] => waits
  | EvWaitDialogShow d _ :: rest => waits_left (d :: waits) rest
  | EvWidgetDestroy d :: rest => waits_left (drop d waits) rest
  | _ :: rest => waits_left waits rest
  end.

(** No cancellation of the timer and no destruction of the wait dialog
    comes after an outcome event. *)
Fixpoint teardown_first (waits : list Widget) (outcome_seen : bool)
  (t : list Event) : bool :=
  match t with
  | [] => true
  | EvWaitDialogShow d _ :: rest => teardown_first (d :: waits) outcome_seen rest
  | EvSourceRemove _ :: rest =>
      negb outcome_seen && teardown_first waits outcome_seen rest
  | EvWidgetDestroy d :: rest =>
      (if mem d waits then negb outcome_seen else true)
      && teardown_first waits outcome_seen rest
  | e :: rest => teardown_first waits (outcome_seen || is_outcome e) rest
  end.

(** The wait dialog and an outcome display (the alert, which stays, or
    the modal notice while it runs) are never on screen together;
    [waits] and [notices] are the dialogs on screen, [alerted] says
    whether an alert was submitted. *)
Fixpoint exclusive (waits notices : list Widget) (alerted : bool)
  (t : list Event) : bool :=
  match t with
  | [] => true
  | EvWaitDialogShow d _ :: rest =>
      match notices with [] => negb alerted | _ => false end
      && exclusive (d :: waits) notices alerted rest
  | EvDialogRun d :: rest =>
      match waits with [] => true | _ => false end
      && exclusive waits (d :: notices) alerted rest
  | EvAlertSubmit _ _ _ :: rest =>
      match waits with [] => true | _ => false end
      && exclusive waits notices true rest
  | EvWidgetDestroy d :: rest =>
      exclusive (drop d waits) (drop d notices) alerted rest
  | _ :: rest => exclusive waits notices alerted rest
  end.

(** How many calls of [g_source_remove] found no source to remove: each
    such call is followed by GLib's critical. *)
Fixpoint failed_removals (t : list Event) : nat :=
  match t with
  | [] => O
  | EvSourceRemove _ :: rest =>
      match rest with
      | EvLog (LogCritical _) :: _ => S (failed_removals rest)
      | _ => failed_removals rest
      end
  | _ :: rest => failed_removals rest
  end.

(** The trace of a monadic action. *)
Definition events {A : Type} (m : M A) (st : St) : list Event :=
  snd (m st).

End Trace.

(* ===================================================================== *)
(** ** What the specification says, in the vocabulary of the model *)
(* ===================================================================== *)

Module Spec.
Import GLib Json MConfig MUiActions.

(** The five fixed tokens of the authinfo pattern. *)
Definition authinfo_prefix : list string :=
  ["machine"; "api.openai.com"; "login"; "apikey"; "password"].

(** A line carries [value] when it splits into the five fixed tokens,
    the value, and possibly further tokens. *)
Definition line_matches (line value : string) : Prop :=
  exists trailing,
    g_strsplit line space = (authinfo_prefix ++ value :: trailing)%list.

(** The number of space-separated tokens of a line. *)
Definition token_count (line : string) : nat :=
  List.length (g_strsplit line space).

(** An entry of the prompt array that is at least a JSON object. *)
Definition is_object_entry (n : JsonNode) : bool :=
  match n with
  | JObject _ => true
  | _ => false
  end.

(** A secrets file with a comment line and a key line. *)
Definition sample_authinfo : string :=
  "# mail accounts"
  ++ String newline
       ("machine api.openai.com login apikey password XYZ123"
        ++ String newline EmptyString).

(** The object behind an array element, as
    [json_array_get_object_element] hands it out. *)
Definition node_object (n : JsonNode) : option JsonObject :=
  match n with
  | JObject o => Some o
  | _ => None
  end.

(** The action names of a built entry set: one per prompt, the three
    structural actions, one per model. *)
Definition expected_names (prompts : JsonArray) (models : list (option string))
  : list (option string) :=
  (map (fun p => name (create_prompt_entry (node_object p))) prompts
   ++ [Some "ai-menu"; Some "ai-proofread-dropdown"; Some "ai-model-menu"]
   ++ map (fun m => Some ("ai-model-" ++ fmt_s m)%string) models)%list.

(** *** The orchestrator *)

Import MProofreader.

(** The content callback's input when the editor hands over [text]. *)
Definition text_ready (text : option string) : ContentResult :=
  {| cr_error := None; cr_hash := Some text |}.

(** The preconditions of [m_proofreader_start]. *)
Definition start_ok (args : StartArgs) : bool :=
  match a_cnt_editor args, a_prompt_id args, a_prompts args, a_api_key args with
  | Some _, Some _, Some _, Some _ => true
  | _, _, _, _ => false
  end.

(** The composer is a live window of the world. *)
Definition composer_is_window (w : World) (composer : option Widget) : bool :=
  match composer with
  | Some c => existsb (Pos.eqb c) (w_windows w)
  | None => false
  end.

(** The wait timer is due by the time the request completes. *)
Definition timer_fires (request_ms : Z) : bool :=
  PROOFREAD_WAIT_DELAY_MS <=? request_ms.

Definition wait_message (model : option string) : string :=
  "Proofreading with "
  ++ fmt_s (match model with
            | Some m => Some m
            | None => Some "AI"
            end)
  ++ " may take a little longer. Please wait...".

(** The wait timer fires while the composer is not a live window: the
    callback returns early and the context keeps the id of the source
    that the main loop then destroys. *)
Definition stale_timer (w : World) (args : StartArgs) (request_ms : Z) : bool :=
  timer_fires request_ms && negb (composer_is_window w (a_composer args)).

(** What happens to the wait indicator between dispatch and the
    outcome: the timer is cancelled before it fires; or it fires, the
    dialog is shown and later destroyed; or it fires without a live
    composer, shows nothing, and its stale id is removed later. *)
Definition waiting_events (w : World) (args : StartArgs) (request_ms : Z)
  : list Event :=
  let id := Z.pos (w_next_source_id w) in
  if timer_fires request_ms then
    if composer_is_window w (a_composer args)
    then [EvWaitDialogShow (w_next_widget w) (wait_message (a_model args));
          EvWidgetDestroy (w_next_widget w)]
    else [EvSourceRemove id;
          EvLog (LogCritical "Source ID was not found when attempting to remove it")]
  else [EvSourceRemove id].

(** The widget the no-response notice gets. *)
Definition notice_dialog (w : World) (args : StartArgs) (request_ms : Z)
  : Widget :=
  if timer_fires request_ms && composer_is_window w (a_composer args)
  then Pos.succ (w_next_widget w)
  else w_next_widget w.

Definition outcome_events (w : World) (args : StartArgs) (request_ms : Z)
  (result : TaskResult) : list Event :=
  match result with
  | TaskError message =>
      [EvLog (LogWarning ("ChatGPT API error: " ++ message));
       EvAlertSubmit (a_composer args) "ai:error-proofreading" message]
  | TaskPointer None =>
      [EvDialogRun (notice_dialog w args request_ms);
       EvWidgetDestroy (notice_dialog w args request_ms)]
  | TaskPointer (Some proofread_text) =>
      [EvInsertContent (a_cnt_editor args) proofread_text]
  end.

(** The events up to and including the dispatch. *)
Definition dispatch_events (w : World) (args : StartArgs) (text : string)
  : list Event :=
  (match a_cnt_editor args with
   | Some editor => [EvGetContent editor]
   | None => []
   end
   ++ [EvTimeoutAdd (Z.pos (w_next_source_id w)) PROOFREAD_WAIT_DELAY_MS;
       EvTaskRun text])%list.

Section Remote.
Variable m_chatgpt_proofread :
  string -> option string -> option JsonArray -> option string ->
  option string -> option string * option string.

(** What the worker returns for the arguments of the invocation. *)
Definition remote_result (args : StartArgs) (text : string) : TaskResult :=
  proofread_task_thread m_chatgpt_proofread text
    (m_proofreader_context_new (a_cnt_editor args) (a_prompt_id args)
       (a_prompts args) (a_api_key args) (a_model args) (a_composer args)).

(** The trace of an invocation that dispatches [text]. *)
Definition dispatched_trace (w : World) (args : StartArgs) (text : string)
  (request_ms : Z) : list Event :=
  (dispatch_events w args text
   ++ waiting_events w args request_ms
   ++ outcome_events w args request_ms (remote_result args text)
   ++ [EvContextFree])%list.


End Remote.

(** A world with one composer window, and arguments that pass the
    preconditions. *)
Definition sample_world : World :=
  {| w_now := 0; w_next_source_id := 1%positive; w_windows := [7%positive];
     w_next_widget := 100%positive; w_notice_open_ms := 5000 |}.

Definition sample_args : StartArgs :=
  {| a_cnt_editor := Some 3%positive;
     a_prompt_id := Some "ai-proofread-fix";
     a_prompts := Some [];
     a_api_key := Some "sk-test";
     a_model := Some "gpt-4o";
     a_composer := Some 7%positive |}.

(** The same arguments without a composer. *)
Definition headless_args : StartArgs :=
  {| a_cnt_editor := Some 3%positive;
     a_prompt_id := Some "ai-proofread-fix";
     a_prompts := Some [];
     a_api_key := Some "sk-test";
     a_model := Some "gpt-4o";
     a_composer := None |}.

(** The same arguments without a prompt id. *)
Definition no_prompt_args : StartArgs :=
  {| a_cnt_editor := Some 3%positive;
     a_prompt_id := None;
     a_prompts := Some [];
     a_api_key := Some "sk-test";
     a_model := Some "gpt-4o";
     a_composer := Some 7%positive |}.

(** The world after the user has closed the composer window. *)
Definition closed_world : World :=
  {| w_now := 0; w_next_source_id := 1%positive; w_windows := [];
     w_next_widget := 100%positive; w_notice_open_ms := 5000 |}.


(** Remote calls that answer with a text, with an error, with nothing. *)
Definition remote_text (_ : string) (_ : option string) (_ : option JsonArray)
  (_ _ : option string) : option string * option string :=
  (Some "Fixed text.", None).

Definition remote_error (_ : string) (_ : option string) (_ : option JsonArray)
  (_ _ : option string) : option string * option string :=
  (None, Some "HTTP 401").

Definition remote_silent (_ : string) (_ : option string) (_ : option JsonArray)
  (_ _ : option string) : option string * option string :=
  (None, None).

(** A prompt array with one well-formed prompt. *)
Definition one_prompt : JsonArray :=
  [JObject [("name", JString "fix"); ("prompt", JString "Fix the grammar.")]].

End Spec.

(* ===================================================================== *)
(** ** m-ui-actions.c: the callbacks and the registration *)
(* ===================================================================== *)

Module MUiCallbacks.
Import GLib Json MConfig MUiActions MProofreader.

(** [g_str_has_prefix (s, p)] *)
Fixpoint g_str_has_prefix (s p : string) : bool :=
  match p, s with
  | EmptyString, _ => true
  | String a p', String b s' => Ascii.eqb a b && g_str_has_prefix s' p'
  | String _ _, EmptyString => false
  end.

(** [s + n]: the string past its first [n] bytes. *)
Fixpoint skip_bytes (n : nat) (s : string) : string :=
  match n, s with
  | O, _ => s
  | S n', String _ s' => skip_bytes n' s'
  | S _, EmptyString => EmptyString
  end.

(** The [user_data] of an action callback: some object, which may or may
    not be a message composer. *)
Record UserData : Type := {
  ud_object : Widget;
  ud_is_msg_composer : bool
}.

(** A menu item of the dropdown: its label, the composer stored on it
    and the duplicated action name it hands to its activate handler. *)
Record MenuItem : Type := {
  mi_label : option string;
  mi_composer : Widget;
  mi_user_data : option string
}.

(** [m_ui_action_context_set_model], on the context and on config.json. *)
Definition m_ui_action_context_set_model (context : option MUIActionContext)
  (model : option string) (env : SaveEnv) (file : ParseResult)
  : option MUIActionContext * ParseResult * list LogRecord :=
  match context with
  | None =>
      (None, file,
       [LogCritical "m_ui_action_context_set_model: assertion 'context != NULL' failed"])
  | Some c =>
      match model with
      | None =>
          (Some c, file,
           [LogCritical "m_ui_action_context_set_model: assertion 'model != NULL' failed"])
      | Some _ =>
          let c' := {| ctx_prompts := ctx_prompts c;
                       ctx_api_key := ctx_api_key c;
                       ctx_model := g_strdup model;
                       ctx_models := ctx_models c |} in
          let '(_, file', log) := m_config_save_model model env file in
          (Some c', file', log)
      end
  end.

Section Composer.

(** [e_html_editor_get_content_editor (e_msg_composer_get_editor (c))] *)
Variable content_editor_of : Widget -> option Widget.

(** [get_composer_from_user_data]: the composer and its content editor,
    or nothing (FALSE). *)
Definition get_composer_from_user_data (user_data : option UserData)
  : option (Widget * option Widget) :=
  match user_data with
  | None => None
  | Some u =>
      if negb (ud_is_msg_composer u) then None
      else Some (ud_object u, content_editor_of (ud_object u))
  end.

(** [action_proofread_cb]: the arguments [m_proofreader_start] is called
    with, if it is called. *)
Definition action_proofread_cb (g_action_context : option MUIActionContext)
  (action_name : option string) (user_data : option UserData)
  : option StartArgs * list LogRecord :=
  match g_action_context with
  | None => (None, [LogWarning "No action context available"])
  | Some ctx =>
      match action_name with
      | None => (None, [])
      | Some _ =>
          match get_composer_from_user_data user_data with
          | None => (None, [])
          | Some (composer, cnt_editor) =>
              (Some {| a_cnt_editor := cnt_editor;
                       a_prompt_id := action_name;
                       a_prompts := ctx_prompts ctx;
                       a_api_key := ctx_api_key ctx;
                       a_model := ctx_model ctx;
                       a_composer := Some composer |}, [])
          end
      end
  end.

(** [menu_item_activate_cb]: [prompt_id] is the item's user data and
    [composer] the object data stored on the item. *)
Definition menu_item_activate_cb (g_action_context : option MUIActionContext)
  (prompt_id : option string) (composer : option Widget) : option StartArgs :=
  match prompt_id, g_action_context with
  | Some _, Some ctx =>
      match composer with
      | None => None
      | Some c =>
          Some {| a_cnt_editor := content_editor_of c;
                  a_prompt_id := prompt_id;
                  a_prompts := ctx_prompts ctx;
                  a_api_key := ctx_api_key ctx;
                  a_model := ctx_model ctx;
                  a_composer := Some c |}
      end
  | _, _ => None
  end.

(** [action_dropdown_cb]: the items of the popup menu, if one pops up. *)
Definition action_dropdown_cb (g_action_context : option MUIActionContext)
  (user_data : option UserData) : option (list MenuItem) * list LogRecord :=
  match g_action_context with
  | None => (None, [LogWarning "No action context available"])
  | Some ctx =>
      match get_composer_from_user_data user_data with
      | None => (None, [])
      | Some (composer, _) =>
          let prompts := match ctx_prompts ctx with
                         | Some p => p
                         | None => []
                         end in
          let n_prompts := json_array_get_length prompts in
          let log := match ctx_prompts ctx with
                     | Some _ => []
                     | None => [LogCritical "json_array_get_length: assertion 'array != NULL' failed"]
                     end in
          (Some
             (map
                (fun i =>
                   let prompt := json_array_get_object_element prompts i in
                   let name := json_object_get_string_member prompt "name" in
                   let action_name := "ai-proofread-" ++ fmt_s name in
                   {| mi_label := name;
                      mi_composer := composer;
                      mi_user_data := g_strdup (Some action_name) |})
                (prompt_indices n_prompts)), log)
      end
  end.

End Composer.

(** [action_select_model_cb], on the global context and on config.json. *)
Definition action_select_model_cb (g_action_context : option MUIActionContext)
  (action_name : option string) (env : SaveEnv) (file : ParseResult)
  : option MUIActionContext * ParseResult * list LogRecord :=
  match g_action_context with
  | None => (None, file, [LogWarning "No action context available"])
  | Some ctx =>
      match action_name with
      | None => (Some ctx, file, [])
      | Some n =>
          if g_str_has_prefix n "ai-model-" then
            let model_id := skip_bytes (String.length "ai-model-") n in
            m_ui_action_context_set_model (Some ctx) (Some model_id) env file
          else (Some ctx, file, [])
      end
  end.


End MUiCallbacks.

(* ===================================================================== *)
(** ** m-msg-composer-extension.c: initialisation *)
(* ===================================================================== *)

Module MExtensionInit.
Import GLib Json MConfig MUiActions MExtension.

Section Remote.

(** [m_chatgpt_fetch_models] of m-chatgpt-api.h: the list of model ids
    and the error it sets, for the API key it is given. *)
Variable m_chatgpt_fetch_models :
  option string -> list (option string) * option string.

(** [m_msg_composer_extension_init], given what the three configuration
    files hold: the private data, the log, and the API keys the model
    list was fetched with. *)
Definition m_msg_composer_extension_init (prompts_file : ParseResult)
  (authinfo : ReadResult) (config_file : ParseResult)
  : MMsgComposerExtensionPrivate * list LogRecord * list (option string) :=
  let '(prompts, log1) := m_config_load_prompts prompts_file in
  let '(chatgpt_api_key, log2) := m_config_load_api_key authinfo in
  let model := m_config_load_model config_file in
  match chatgpt_api_key with
  | Some _ =>
      let '(models, error) := m_chatgpt_fetch_models chatgpt_api_key in
      ({| prompts := prompts; chatgpt_api_key := chatgpt_api_key;
          model := model; models := models |},
       (log1 ++ log2
        ++ match error with
           | Some message => [LogWarning ("Failed to fetch models: " ++ message)]
           | None => []
           end)%list,
       [chatgpt_api_key])
  | None =>
      ({| prompts := prompts; chatgpt_api_key := chatgpt_api_key;
          model := model; models := [] |},
       (log1 ++ log2)%list, [])
  end.

(** The extension coming to life on a composer: [init], then
    [constructed], which adds the UI. The result is the entry array
    handed to the UI manager, if any. *)
Definition extension_startup (prompts_file : ParseResult)
  (authinfo : ReadResult) (config_file : ParseResult)
  : option (list EUIActionEntry) :=
  let '(priv, _, _) :=
    m_msg_composer_extension_init prompts_file authinfo config_file in
  fst (m_msg_composer_extension_add_ui priv).

End Remote.

End MExtensionInit.

(* ===================================================================== *)
(** ** The earlier snapshots kept in the repository *)
(* ===================================================================== *)

Module Legacy.
Import GLib Json MConfig MProofreader.

(** [load_prompts] of the first m-msg-composer-extension.c: the array
    stays NULL until the final return replaces it. *)
Definition load_prompts_first (file : ParseResult)
  : option JsonArray * list LogRecord :=
  let '(prompts, log) :=
    match file with
    | ParseOk root =>
        let prompts :=
          if JSON_NODE_HOLDS_ARRAY root then json_node_get_array root else None in
        (prompts,
         match prompts with
         | Some _ => []
         | None => [LogCritical "json_array_get_length: assertion 'array != NULL' failed"]
         end)
    | ParseError message =>
        (None, [LogWarning ("Error loading prompts: " ++ message)])
    end in
  (match prompts with
   | Some p => Some p
   | None => Some json_array_new
   end, log).

(** The loop of [load_api_key] of m-msg-composer-extension.c, with the
    line test and the token test written in the loop body. *)
Fixpoint load_api_key_lines (lines : list string) : option string :=
  match lines with
  | [] => None
  | line :: rest =>
      match line with
      | EmptyString => load_api_key_lines rest
      | _ =>
          let tokens := g_strsplit line space in
          let token_count := to_gint (g_strv_length tokens) in
          if (6 <=? token_count)
             && (g_strcmp0 (token tokens 0) (Some "machine") =? 0)
             && (g_strcmp0 (token tokens 1) (Some "api.openai.com") =? 0)
             && (g_strcmp0 (token tokens 2) (Some "login") =? 0)
             && (g_strcmp0 (token tokens 3) (Some "apikey") =? 0)
             && (g_strcmp0 (token tokens 4) (Some "password") =? 0)
          then g_strdup (token tokens 5)
          else load_api_key_lines rest
      end
  end.

(** [load_api_key] of m-msg-composer-extension.c. *)
Definition load_api_key (file : ReadResult) : option string * list LogRecord :=
  match file with
  | ReadOk content =>
      (load_api_key_lines (g_strsplit (c_str content) newline), [])
  | ReadError message =>
      (None, [LogWarning ("Error loading authinfo: " ++ message)])
  end.

(** The context of the synchronous m-proofreader.c. *)
Record SyncContext : Type := {
  s_cnt_editor : option Widget;
  s_prompt_id : option string;
  s_prompts : option JsonArray;
  s_api_key : option string;
  s_composer : option Widget
}.

(** What the synchronous workflow does: a remote call made on the UI
    thread, or one of the events of the workflow. *)
Inductive SyncEvent : Type :=
| SyncRemoteCall (content : string)
| SyncUi (e : Event).

Section Remote.

(** The [m_chatgpt_proofread] of that snapshot, which takes no model. *)
Variable m_chatgpt_proofread :
  string -> option string -> option JsonArray -> option string ->
  option string * option string.

(** [process_proofread_result] of the synchronous m-proofreader.c; the
    notice gets the widget [dialog]. *)
Definition process_proofread_result (context : SyncContext)
  (original_content : string) (dialog : Widget) : bool * list SyncEvent :=
  let '(proofread_text, error) :=
    m_chatgpt_proofread original_content (s_prompt_id context)
      (s_prompts context) (s_api_key context) in
  match error with
  | Some message =>
      (false,
       [SyncRemoteCall original_content;
        SyncUi (EvLog (LogWarning ("ChatGPT API error: " ++ message)));
        SyncUi (EvAlertSubmit (s_composer context) "ai:error-proofreading" message)])
  | None =>
      match proofread_text with
      | None =>
          (false,
           [SyncRemoteCall original_content;
            SyncUi (EvDialogRun dialog); SyncUi (EvWidgetDestroy dialog)])
      | Some text =>
          (true,
           [SyncRemoteCall original_content;
            SyncUi (EvInsertContent (s_cnt_editor context) text)])
      end
  end.

(** [m_proofreader_content_ready_cb] of the synchronous m-proofreader.c. *)
Definition sync_content_ready_cb (context : SyncContext)
  (result : ContentResult) (dialog : Widget) : list SyncEvent :=
  match cr_error result with
  | Some message =>
      [SyncUi (EvLog (LogWarning ("Error getting content: " ++ message)));
       SyncUi EvContextFree]
  | None =>
      match cr_hash result with
      | None =>
          [SyncUi (EvLog (LogWarning "No content hash returned"));
           SyncUi EvContextFree]
      | Some content =>
          (match content with
           | Some text => snd (process_proofread_result context text dialog)
           | None => []
           end ++ [SyncUi EvContextFree])%list
      end
  end.

End Remote.

End Legacy.

(* ===================================================================== *)
(** ** Vocabulary for the properties of the code beyond the specification *)
(* ===================================================================== *)

Module Props.
Import GLib Json MConfig MUiActions MProofreader.

(** An entry has a name, a label and a tooltip. *)
Definition is_complete (e : EUIActionEntry) : bool :=
  match name e, label e, tooltip e with
  | Some _, Some _, Some _ => true
  | _, _, _ => false
  end.

Definition has_no_name (e : EUIActionEntry) : bool :=
  match name e with
  | None => true
  | Some _ => false
  end.

(** What the validation makes of an entry that has a name. *)
Definition backfill (e : EUIActionEntry) : EUIActionEntry :=
  fst (validate_entry 0 e).

(** The text a prompt contributes to its action name. *)
Definition prompt_key (p : JsonNode) : string :=
  fmt_s (json_object_get_string_member (Spec.node_object p) "name").

(** The label of the entry of model [m] when [current] is selected. *)
Definition model_label (current m : option string) : option string :=
  if g_strcmp0 m current =? 0 then Some ("✓ " ++ fmt_s m)
  else match m with
       | Some s => Some s
       | None => Some "(no label)"
       end.

(** The member names of the root object of a file are distinct (no
    condition on a file without a root object). *)
Definition distinct_members (file : ParseResult) : Prop :=
  match file with
  | ParseOk (Some (JObject o)) => NoDup (json_object_get_members o)
  | _ => True
  end.

(** The members of the root object of a file, none when the root is not
    an object. *)
Definition root_members (file : ParseResult) : JsonObject :=
  match file with
  | ParseOk (Some (JObject o)) => o
  | _ => []
  end.

(** The members of an object other than "model". *)
Definition other_members (o : JsonObject) : JsonObject :=
  filter (fun kv => negb (String.eqb (fst kv) "model")) o.


(** A logged warning. *)
Definition is_warning (e : Event) : bool :=
  match e with
  | EvLog (LogWarning _) => true
  | _ => false
  end.

(** What a workflow reports: its outcome, its warnings, and the release
    of its context. *)
Definition is_report (e : Event) : bool :=
  Trace.is_outcome e || is_warning e || Trace.is_context_free e.

(** The UI events of a synchronous run. *)
Definition sync_ui_events (t : list Legacy.SyncEvent) : list Event :=
  flat_map (fun e => match e with
                     | Legacy.SyncUi u => [u]
                     | Legacy.SyncRemoteCall _ => []
                     end) t.

(** The context the synchronous [m_proofreader_context_new] makes of
    the arguments of [m_proofreader_start]. *)
Definition sync_context_of (args : StartArgs) : Legacy.SyncContext :=
  {| Legacy.s_cnt_editor := a_cnt_editor args;
     Legacy.s_prompt_id := g_strdup (a_prompt_id args);
     Legacy.s_prompts := a_prompts args;
     Legacy.s_api_key := g_strdup (a_api_key args);
     Legacy.s_composer := a_composer args |}.

(** A remote call that takes a model and ignores it. *)
Definition with_model
  (oracle : string -> option string -> option JsonArray -> option string ->
            option string * option string)
  (content : string) (prompt_id : option string) (prompts : option JsonArray)
  (api_key _ : option string) : option string * option string :=
  oracle content prompt_id prompts api_key.

(** The EUI item that refers to the action [action_name], and the
    fixed parts of the EUI definition around the items. *)
Definition eui_item (action_name : option string) : string :=
  "<item action='" ++ fmt_s action_name ++ "'/>".

Definition eui_items (action_names : list (option string)) : string :=
  fold_right (fun n rest => eui_item n ++ rest) "" action_names.

Definition eui_menu_open : string :=
  "<eui><menu id='main-menu'><placeholder id='custom-menus'>"
  ++ "<submenu action='ai-menu'><placeholder id='ai-menu-holder'>".

Definition eui_model_menu_open : string :=
  "<separator/><submenu action='ai-model-menu'>".

Definition eui_close : string :=
  "</submenu></placeholder></submenu></placeholder></menu>"
  ++ "<toolbar id='main-toolbar-with-headerbar'><item action='ai-proofread-dropdown'/></toolbar>"
  ++ "<toolbar id='main-toolbar-without-headerbar'><item action='ai-proofread-dropdown'/></toolbar>"
  ++ "</eui>".

(** The texts a synchronous run sends to the remote client, and the
    texts handed to the worker in a trace. *)
Definition sync_calls (t : list Legacy.SyncEvent) : list string :=
  flat_map (fun e => match e with
                     | Legacy.SyncRemoteCall content => [content]
                     | Legacy.SyncUi _ => []
                     end) t.

Definition task_texts (t : list Event) : list string :=
  flat_map (fun e => match e with
                     | EvTaskRun content => [content]
                     | _ => []
                     end) t.

(** Every window of the world is older than the next widget. *)
Definition windows_fresh (w : World) : Prop :=
  forall x, In x (w_windows w) -> (x < w_next_widget w)%positive.

(** The entries [m_ui_build_action_entries] writes into its array,
    before validation. *)
Definition raw_entries (prompts : JsonArray) (action_context : MUIActionContext)
  : list EUIActionEntry :=
  (map (fun p => create_prompt_entry (Spec.node_object p)) prompts
   ++ [create_menu_entry; create_dropdown_entry;
       create_model_menu_entry (ctx_model action_context)]
   ++ map (fun model_id =>
             create_model_entry model_id
               (g_strcmp0 model_id (ctx_model action_context) =? 0))
        (ctx_models action_context))%list.

(** A model listing that fails. *)
Definition fetch_fails (_ : option string) : list (option string) * option string :=
  ([], Some "HTTP 503").

(** A composer handed to a callback as user data, and its content editor. *)
Definition sample_user_data : MUiCallbacks.UserData :=
  {| MUiCallbacks.ud_object := 7%positive;
     MUiCallbacks.ud_is_msg_composer := true |}.

Definition sample_editor_of (_ : Widget) : option Widget := Some 3%positive.

(** A configuration file with a theme, a model and a retry count. *)
Definition sample_config : ParseResult :=
  ParseOk (Some (JObject [("theme", JString "dark");
                          ("model", JString "gpt-4o");
                          ("retries", JInt 3)])).

Definition ok_env : SaveEnv :=
  {| config_dir := "/home/user/.config/evolution/ai-proofread";
     mkdir_status := 0; write_error := None |}.


(** A context with two models, the second one selected. *)
Definition sample_context : MUIActionContext :=
  m_ui_action_context_new (Some Spec.one_prompt) (Some "sk-test")
    (Some "gpt-4o-mini") [Some "gpt-4o"; Some "gpt-4o-mini"].

End Props.

(* ===================================================================== *)
(** ** Proofs: GLib and json-glib helpers *)
(* ===================================================================== *)

Import GLib Json.

Lemma to_guint_small (z : Z) : 0 <= z < guint_modulus -> to_guint z = z.
Proof. intros H. unfold to_guint. apply Z.mod_small. exact H. Qed.

Lemma to_gint_small (z : Z) : 0 <= z < 2 ^ 31 -> to_gint z = z.
Proof.
  intros H. unfold to_gint, guint_modulus.
  rewrite Z.mod_small by (change (2 ^ 32) with 4294967296; change (2 ^ 31) with 2147483648 in H; lia).
  destruct (z <? 2 ^ 31) eqn:E; [reflexivity | apply Z.ltb_ge in E; lia].
Qed.

Lemma g_strcmp0_zero (x y : string) :
  (g_strcmp0 (Some x) (Some y) =? 0) = String.eqb x y.
Proof.
  unfold g_strcmp0. destruct (String.eqb x y); [reflexivity |].
  destruct (String.ltb x y); reflexivity.
Qed.

Lemma split_pieces_nonempty (d : ascii) (s : string) : split_pieces d s <> [].
Proof.
  destruct s as [| c s]; simpl; [discriminate |].
  destruct (Ascii.eqb c d); [discriminate |].
  destruct (split_pieces d s); discriminate.
Qed.

(** The pieces, joined again by the delimiter, are the string. *)
Lemma split_pieces_concat (d : ascii) (s : string) :
  String.concat (String d EmptyString) (split_pieces d s) = s.
Proof.
  induction s as [| c s IH]; simpl; [reflexivity |].
  destruct (Ascii.eqb c d) eqn:E.
  - apply Ascii.eqb_eq in E. subst c.
    pose proof (split_pieces_nonempty d s) as Hne.
    simpl. destruct (split_pieces d s) as [| p ps]; [contradiction |].
    simpl in *. rewrite IH. reflexivity.
  - pose proof (split_pieces_nonempty d s) as Hne.
    destruct (split_pieces d s) as [| p ps]; [contradiction |].
    simpl in *. destruct ps; simpl in *; rewrite <- IH; reflexivity.
Qed.

Lemma split_pieces_length (d : ascii) (s : string) :
  (List.length (split_pieces d s) <= S (String.length s))%nat.
Proof.
  induction s as [| c s IH]; simpl; [lia |].
  destruct (Ascii.eqb c d); simpl; [lia |].
  destruct (split_pieces d s); simpl in *; lia.
Qed.

Lemma split_pieces_piece_length (d : ascii) (s piece : string) :
  In piece (split_pieces d s) -> (String.length piece <= String.length s)%nat.
Proof.
  revert piece. induction s as [| c s IH]; simpl; intros piece H.
  - destruct H as [<- | []]. simpl. lia.
  - destruct (Ascii.eqb c d).
    + destruct H as [<- | H]; [simpl; lia |]. specialize (IH _ H). lia.
    + destruct (split_pieces d s) as [| p ps].
      * destruct H as [<- | []]. simpl. lia.
      * destruct H as [<- | H].
        -- simpl. specialize (IH p (or_introl eq_refl)). lia.
        -- specialize (IH piece (or_intror H)). lia.
Qed.

Lemma c_str_length (s : string) :
  (String.length (c_str s) <= String.length s)%nat.
Proof.
  induction s as [| c s IH]; simpl; [lia |].
  destruct (Ascii.eqb c nul); simpl; lia.
Qed.

Lemma g_strsplit_length (d : ascii) (s : string) :
  (List.length (g_strsplit s d) <= S (String.length s))%nat.
Proof.
  destruct s as [| c s]; [simpl; lia |].
  unfold g_strsplit. apply split_pieces_length.
Qed.

Lemma g_strsplit_piece_length (d : ascii) (s piece : string) :
  In piece (g_strsplit s d) -> (String.length piece <= String.length s)%nat.
Proof.
  destruct s as [| c s]; [intros [] |].
  unfold g_strsplit. apply split_pieces_piece_length.
Qed.

Lemma get_member_set_same (o : JsonObject) (k : string) (v : JsonNode) :
  json_object_get_member (json_object_set_member o k v) k = Some v.
Proof.
  induction o as [| [k' v'] o IH]; simpl.
  - rewrite String.eqb_refl. reflexivity.
  - destruct (String.eqb k' k) eqn:E; simpl; rewrite E; [reflexivity | exact IH].
Qed.

Lemma get_member_set_other (o : JsonObject) (k k' : string) (v : JsonNode) :
  k <> k' ->
  json_object_get_member (json_object_set_member o k v) k'
  = json_object_get_member o k'.
Proof.
  intros Hne. induction o as [| [k0 v0] o IH]; simpl.
  - apply String.eqb_neq in Hne. rewrite Hne. reflexivity.
  - destruct (String.eqb k0 k) eqn:E; simpl.
    + apply String.eqb_eq in E. subst k0.
      apply String.eqb_neq in Hne. rewrite Hne. reflexivity.
    + destruct (String.eqb k0 k'); [reflexivity | exact IH].
Qed.

Lemma get_member_remove_other (o : JsonObject) (k k' : string) :
  k <> k' ->
  json_object_get_member (json_object_remove_member o k) k'
  = json_object_get_member o k'.
Proof.
  intros Hne. induction o as [| [k0 v0] o IH]; simpl; [reflexivity |].
  destruct (String.eqb k0 k) eqn:E; simpl.
  - apply String.eqb_eq in E. subst k0.
    apply String.eqb_neq in Hne. rewrite Hne. reflexivity.
  - destruct (String.eqb k0 k'); [reflexivity | exact IH].
Qed.

Lemma get_member_in_members (o : JsonObject) (k : string) (v : JsonNode) :
  json_object_get_member o k = Some v ->
  existsb (String.eqb k) (json_object_get_members o) = true.
Proof.
  induction o as [| [k0 v0] o IH]; simpl; [discriminate |].
  rewrite (String.eqb_sym k k0).
  destruct (String.eqb k0 k); [reflexivity | exact IH].
Qed.

(* ===================================================================== *)
(** ** Proofs: m-config.c *)
(* ===================================================================== *)

Import MConfig Spec.

(** The builder loop, started from any object [built]: a member named in
    the list is taken from [o], any other stays as it was. *)
Lemma build_fold_get (o : JsonObject) (k : string) (names : list string) :
  forall built,
    json_object_get_member
      (fold_left
         (fun built member_name =>
            match json_object_get_member o member_name with
            | Some member_node =>
                json_object_set_member built member_name (json_node_copy member_node)
            | None => built
            end) names built) k
    = if existsb (String.eqb k) names
      then match json_object_get_member o k with
           | Some v => Some v
           | None => json_object_get_member built k
           end
      else json_object_get_member built k.
Proof.
  induction names as [| a names IH]; intros built; simpl; [reflexivity |].
  rewrite IH. destruct (String.eqb k a) eqn:E; simpl.
  - apply String.eqb_eq in E. subst a.
    destruct (json_object_get_member o k) as [v |] eqn:G.
    + unfold json_node_copy. rewrite get_member_set_same.
      destruct (existsb (String.eqb k) names); reflexivity.
    + destruct (existsb (String.eqb k) names); reflexivity.
  - assert (Hne : a <> k) by (intros ->; rewrite String.eqb_refl in E; discriminate).
    destruct (json_object_get_member o a) as [va |].
    + rewrite (get_member_set_other built a k _ Hne). reflexivity.
    + reflexivity.
Qed.

(** The generated root has the members of the object it was built from. *)
Lemma build_root_get (o : JsonObject) (k : string) :
  json_object_get_member (build_root o) k = json_object_get_member o k.
Proof.
  unfold build_root. rewrite build_fold_get. simpl.
  destruct (json_object_get_member o k) as [v |] eqn:G.
  - rewrite (get_member_in_members o k v G). reflexivity.
  - destruct (existsb (String.eqb k) (json_object_get_members o)); reflexivity.
Qed.

(** The object [m_config_save_model] writes, member by member. *)
Lemma saved_object_get (o : JsonObject) (m k : string) :
  json_object_get_member
    (build_root
       (json_object_set_string_member
          (if json_object_has_member o "model"
           then json_object_remove_member o "model"
           else o) "model" m)) k
  = if String.eqb "model" k then Some (JString m)
    else json_object_get_member o k.
Proof.
  rewrite build_root_get. unfold json_object_set_string_member.
  destruct (String.eqb "model" k) eqn:E.
  - apply String.eqb_eq in E. subst k. apply get_member_set_same.
  - apply String.eqb_neq in E. rewrite get_member_set_other by exact E.
    destruct (json_object_has_member o "model");
      [apply get_member_remove_other; exact E | reflexivity].
Qed.

(** What a successful save leaves in config.json. *)
Lemma save_model_success (m : string) (env : SaveEnv) (file file' : ParseResult)
  (log : list LogRecord) :
  m_config_save_model (Some m) env file = (true, file', log) ->
  exists saved,
    file' = ParseOk (Some (JObject saved))
    /\ json_object_get_member saved "model" = Some (JString m)
    /\ forall o, file = ParseOk (Some (JObject o)) ->
                 forall k, k <> "model" ->
                           json_object_get_member saved k = json_object_get_member o k.
Proof.
  unfold m_config_save_model.
  destruct (negb (mkdir_status env =? 0)); [discriminate |].
  destruct (write_error env); [discriminate |].
  intros H. injection H as <- _.
  eexists. split; [reflexivity |]. split.
  - rewrite saved_object_get. reflexivity.
  - intros o -> k Hk. simpl. rewrite saved_object_get.
    destruct (String.eqb "model" k) eqn:E; [| reflexivity].
    apply String.eqb_eq in E. congruence.
Qed.

(** C4. Saving a model and loading it again is a round trip: after a
    successful [m_config_save_model m], [m_config_load_model] returns [m]
    (in particular for gpt-4o-mini); and when config.json held an object
    before, every member other than "model" is in the saved object with
    the node it had (and no other member is added). *)
Theorem C4_save_load_roundtrip (m : string) (env : SaveEnv)
  (file file' : ParseResult) (log : list LogRecord) :
  m_config_save_model (Some m) env file = (true, file', log) ->
  m_config_load_model file' = Some m
  /\ forall o, file = ParseOk (Some (JObject o)) ->
       exists saved,
         file' = ParseOk (Some (JObject saved))
         /\ forall k, k <> "model" ->
              json_object_get_member saved k = json_object_get_member o k.
Proof.
  intros H. destruct (save_model_success m env file file' log H)
    as (saved & -> & Hmodel & Hkeep).
  split.
  - unfold m_config_load_model. simpl.
    unfold json_object_has_member, json_object_get_string_member.
    rewrite Hmodel. reflexivity.
  - intros o Ho. exists saved. split; [reflexivity |]. apply Hkeep. exact Ho.
Qed.

Lemma C4_witness :
  let before :=
    ParseOk (Some (JObject [("theme", JString "dark");
                            ("model", JString "gpt-4o");
                            ("retries", JInt 3)])) in
  let after :=
    ParseOk (Some (JObject [("theme", JString "dark"); ("retries", JInt 3);
                            ("model", JString "gpt-4o-mini")])) in
  m_config_save_model (Some "gpt-4o-mini")
    {| config_dir := "/home/user/.config/evolution/ai-proofread";
       mkdir_status := 0; write_error := None |} before = (true, after, [])
  /\ m_config_load_model after = Some "gpt-4o-mini"
  /\ forall o, before = ParseOk (Some (JObject o)) ->
       exists saved,
         after = ParseOk (Some (JObject saved))
         /\ forall k, k <> "model" ->
              json_object_get_member saved k = json_object_get_member o k.
Proof.
  intros before after.
  assert (H : m_config_save_model (Some "gpt-4o-mini")
                {| config_dir := "/home/user/.config/evolution/ai-proofread";
                   mkdir_status := 0; write_error := None |} before
              = (true, after, [])) by reflexivity.
  split; [exact H |].
  exact (C4_save_load_roundtrip "gpt-4o-mini"
           {| config_dir := "/home/user/.config/evolution/ai-proofread";
              mkdir_status := 0; write_error := None |} before after [] H).
Defined.

(** C8, as the code has it. [m_config_load_prompts] always hands its
    caller an array, never NULL and never an error: the empty array when
    the file cannot be loaded (missing, unreadable, malformed JSON) or
    its root is not an array, with one warning; and the root array
    itself, with every entry as it is in the file, when the root is an
    array. *)
Theorem C8_load_prompts_total (file : ParseResult) :
  exists prompts log,
    m_config_load_prompts file = (Some prompts, log)
    /\ match file with
       | ParseError _ => prompts = [] /\ List.length log = 1%nat
       | ParseOk (Some (JArray root)) => prompts = root /\ log = []
       | ParseOk _ => prompts = [] /\ List.length log = 1%nat
       end.
Proof.
  destruct file as [message | [root |]]; simpl.
  - eexists _, _. split; [reflexivity |]. split; reflexivity.
  - destruct root; simpl; eexists _, _; (split; [reflexivity |]); split; reflexivity.
  - eexists _, _. split; [reflexivity |]. split; reflexivity.
Qed.

(** C8, where the specification goes beyond the code: an array whose
    only entry is the number 42 is returned with that entry in it and
    without a warning; the malformed entry is not skipped. *)
Lemma C8_counterexample :
  let file := ParseOk (Some (JArray [JInt 42])) in
  m_config_load_prompts file = (Some [JInt 42], [])
  /\ forallb is_object_entry [JInt 42] = false.
Proof. split; reflexivity. Qed.

(** [parse_authinfo_line] on a non-empty line, in terms of its tokens. *)
Lemma parse_authinfo_line_tokens (line : string) :
  line <> EmptyString ->
  Z.of_nat (String.length line) < 2 ^ 31 - 1 ->
  parse_authinfo_line (Some line)
  = match g_strsplit line space with
    | t0 :: t1 :: t2 :: t3 :: t4 :: t5 :: _ =>
        if String.eqb t0 "machine" && String.eqb t1 "api.openai.com"
           && String.eqb t2 "login" && String.eqb t3 "apikey"
           && String.eqb t4 "password"
        then Some t5 else None
    | _ => None
    end.
Proof.
  intros Hne Hlen.
  pose proof (g_strsplit_length space line) as Hcount.
  assert (Hz : 0 <= Z.of_nat (List.length (g_strsplit line space)) < 2 ^ 31) by lia.
  destruct line as [| c s]; [contradiction |].
  unfold parse_authinfo_line, g_strv_length.
  rewrite to_guint_small
    by (unfold guint_modulus; change (2 ^ 32) with 4294967296;
        change (2 ^ 31) with 2147483648 in Hz; lia).
  rewrite to_gint_small by exact Hz.
  remember (g_strsplit (String c s) space) as tokens eqn:Htok.
  clear Htok Hcount Hz.
  destruct tokens as [| t0 [| t1 [| t2 [| t3 [| t4 [| t5 rest]]]]]];
    try reflexivity.
  replace (6 <=? Z.of_nat (List.length (t0 :: t1 :: t2 :: t3 :: t4 :: t5 :: rest)))
    with true by (symmetry; apply Z.leb_le; simpl List.length; lia).
  unfold token. cbn [nth_error].
  rewrite !g_strcmp0_zero. reflexivity.
Qed.

(** A line yields a key exactly when it matches the pattern, and the
    key is its sixth token. *)
Lemma parse_authinfo_line_matches (line value : string) :
  Z.of_nat (String.length line) < 2 ^ 31 - 1 ->
  parse_authinfo_line (Some line) = Some value <-> line_matches line value.
Proof.
  intros Hlen. destruct line as [| c s].
  - simpl. split; [discriminate |]. intros [trailing H]. discriminate H.
  - rewrite parse_authinfo_line_tokens by (try discriminate; exact Hlen).
    unfold line_matches, authinfo_prefix.
    remember (g_strsplit (String c s) space) as tokens eqn:Htok. clear Htok.
    destruct tokens as [| t0 [| t1 [| t2 [| t3 [| t4 [| t5 rest]]]]]];
      try (split; [discriminate | intros [trailing H]; discriminate H]).
    destruct (String.eqb_spec t0 "machine") as [-> | N0]; simpl;
      [| split; [discriminate | intros [tr H]; injection H; intros; congruence]].
    destruct (String.eqb_spec t1 "api.openai.com") as [-> | N1]; simpl;
      [| split; [discriminate | intros [tr H]; injection H; intros; congruence]].
    destruct (String.eqb_spec t2 "login") as [-> | N2]; simpl;
      [| split; [discriminate | intros [tr H]; injection H; intros; congruence]].
    destruct (String.eqb_spec t3 "apikey") as [-> | N3]; simpl;
      [| split; [discriminate | intros [tr H]; injection H; intros; congruence]].
    destruct (String.eqb_spec t4 "password") as [-> | N4]; simpl;
      [| split; [discriminate | intros [tr H]; injection H; intros; congruence]].
    split.
    + intros H. injection H as ->. exists rest. reflexivity.
    + intros [tr H]. injection H as -> _. reflexivity.
Qed.

(** A line with fewer than six tokens yields nothing. *)
Lemma parse_authinfo_line_short (line : string) :
  Z.of_nat (String.length line) < 2 ^ 31 - 1 ->
  (token_count line < 6)%nat ->
  parse_authinfo_line (Some line) = None.
Proof.
  intros Hlen Hshort. destruct line as [| c s]; [reflexivity |].
  rewrite parse_authinfo_line_tokens by (try discriminate; exact Hlen).
  unfold token_count in Hshort.
  destruct (g_strsplit (String c s) space)
    as [| t0 [| t1 [| t2 [| t3 [| t4 [| t5 rest]]]]]]; try reflexivity.
  simpl in Hshort. lia.
Qed.

(** The scan returns the key of the first line that yields one. *)
Lemma scan_authinfo_lines_some (lines : list string) (value : string) :
  scan_authinfo_lines lines = Some value <->
  exists before line after,
    lines = (before ++ line :: after)%list
    /\ parse_authinfo_line (Some line) = Some value
    /\ forall l, In l before -> parse_authinfo_line (Some l) = None.
Proof.
  induction lines as [| l lines IH]; cbn [scan_authinfo_lines].
  - split; [discriminate |].
    intros (before & line & after & H & _). destruct before; discriminate H.
  - destruct (parse_authinfo_line (Some l)) as [k |] eqn:P.
    + split.
      * intros H. injection H as ->. exists [], l, lines. repeat split; [exact P |].
        intros l' [].
      * intros (before & line & after & H & Hv & Hnone).
        destruct before as [| b before]; simpl in H;
          injection H as Hl Hrest; subst.
        -- congruence.
        -- rewrite (Hnone b (or_introl eq_refl)) in P. discriminate.
    + rewrite IH. split.
      * intros (before & line & after & -> & Hv & Hnone).
        exists (l :: before), line, after. repeat split; [exact Hv |].
        intros l' [<- | Hin]; [exact P | apply Hnone; exact Hin].
      * intros (before & line & after & H & Hv & Hnone).
        destruct before as [| b before]; simpl in H;
          injection H as Hl Hrest; subst.
        -- congruence.
        -- exists before, line, after. repeat split; [exact Hv |].
           intros l' Hin. apply Hnone. right. exact Hin.
Qed.

Lemma scan_authinfo_lines_none (lines : list string) :
  scan_authinfo_lines lines = None <->
  forall l, In l lines -> parse_authinfo_line (Some l) = None.
Proof.
  induction lines as [| l lines IH]; cbn [scan_authinfo_lines].
  - split; [intros _ l [] | reflexivity].
  - destruct (parse_authinfo_line (Some l)) as [k |] eqn:P.
    + split; [discriminate |]. intros H.
      rewrite (H l (or_introl eq_refl)) in P. discriminate.
    + rewrite IH. split.
      * intros H l' [<- | Hin]; [exact P | apply H; exact Hin].
      * intros H l' Hin. apply H. right. exact Hin.
Qed.

(** Every line of a file is shorter than the file. *)
Lemma authinfo_line_length (content line : string) :
  In line (authinfo_lines content) ->
  (String.length line <= String.length content)%nat.
Proof.
  intros H. unfold authinfo_lines in H.
  apply g_strsplit_piece_length in H.
  pose proof (c_str_length content). lia.
Qed.

(** C3, as the code has it. Over a readable secrets file (shorter than
    2^31 - 1 bytes), credential loading returns the sixth token of the
    first line whose tokens are machine, api.openai.com, login, apikey,
    password, a value, and possibly further tokens, which are ignored;
    it returns nothing exactly when no line is of that form; a line with
    fewer than six tokens yields nothing; and no warning is logged.  For
    the one-line file with value XYZ123 it returns XYZ123. *)
Theorem C3_load_api_key (content : string) :
  Z.of_nat (String.length content) < 2 ^ 31 - 1 ->
  (forall value,
      fst (m_config_load_api_key (ReadOk content)) = Some value <->
      exists before line after,
        authinfo_lines content = (before ++ line :: after)%list
        /\ line_matches line value
        /\ forall l, In l before -> forall v, ~ line_matches l v)
  /\ (fst (m_config_load_api_key (ReadOk content)) = None <->
      forall l, In l (authinfo_lines content) -> forall v, ~ line_matches l v)
  /\ (forall l, In l (authinfo_lines content) -> (token_count l < 6)%nat ->
                parse_authinfo_line (Some l) = None)
  /\ snd (m_config_load_api_key (ReadOk content)) = []
  /\ m_config_load_api_key
       (ReadOk "machine api.openai.com login apikey password XYZ123")
     = (Some "XYZ123", []).
Proof.
  intros Hlen.
  assert (Hline : forall l, In l (authinfo_lines content) ->
                            Z.of_nat (String.length l) < 2 ^ 31 - 1).
  { intros l Hin. pose proof (authinfo_line_length content l Hin). lia. }
  assert (Hnone : forall ls, (forall l, In l ls -> In l (authinfo_lines content)) ->
            ((forall l, In l ls -> parse_authinfo_line (Some l) = None) <->
             (forall l, In l ls -> forall v, ~ line_matches l v))).
  { intros ls Hsub. split.
    - intros H l Hin v Hm.
      apply parse_authinfo_line_matches in Hm; [| apply Hline, Hsub, Hin].
      rewrite (H l Hin) in Hm. discriminate.
    - intros H l Hin.
      destruct (parse_authinfo_line (Some l)) as [v |] eqn:P; [| reflexivity].
      apply parse_authinfo_line_matches in P; [| apply Hline, Hsub, Hin].
      exfalso. exact (H l Hin v P). }
  simpl. repeat split.
  - intros H. apply scan_authinfo_lines_some in H.
    destruct H as (before & line & after & Heq & Hv & Hbefore).
    exists before, line, after. split; [exact Heq |].
    assert (Hsub : forall l, In l before -> In l (authinfo_lines content)).
    { intros l Hin. rewrite Heq. apply in_or_app. left. exact Hin. }
    split.
    + apply parse_authinfo_line_matches; [| exact Hv].
      apply Hline. rewrite Heq. apply in_or_app. right. left. reflexivity.
    + apply (Hnone before Hsub). exact Hbefore.
  - intros (before & line & after & Heq & Hv & Hbefore).
    apply scan_authinfo_lines_some. exists before, line, after.
    split; [exact Heq |].
    assert (Hsub : forall l, In l before -> In l (authinfo_lines content)).
    { intros l Hin. rewrite Heq. apply in_or_app. left. exact Hin. }
    split.
    + apply parse_authinfo_line_matches; [| exact Hv].
      apply Hline. rewrite Heq. apply in_or_app. right. left. reflexivity.
    + apply (Hnone before Hsub). exact Hbefore.
  - intros H.
    apply (Hnone (authinfo_lines content) (fun l Hin => Hin)).
    apply (proj1 (scan_authinfo_lines_none (authinfo_lines content))). exact H.
  - intros H. apply (proj2 (scan_authinfo_lines_none (authinfo_lines content))).
    apply (Hnone (authinfo_lines content) (fun l Hin => Hin)). exact H.
  - intros l Hin Hshort. apply parse_authinfo_line_short; [| exact Hshort].
    apply Hline. exact Hin.
Qed.

Lemma C3_witness :
  Z.of_nat (String.length sample_authinfo) < 2 ^ 31 - 1
  /\ exists before line after,
       authinfo_lines sample_authinfo = (before ++ line :: after)%list
       /\ line_matches line "XYZ123"
       /\ forall l, In l before -> forall v, ~ line_matches l v.
Proof.
  assert (H : Z.of_nat (String.length sample_authinfo) < 2 ^ 31 - 1)
    by (vm_compute; reflexivity).
  split; [exact H |].
  apply (proj1 (proj1 (C3_load_api_key sample_authinfo H) "XYZ123")).
  reflexivity.
Defined.

(** C3, where the specification goes beyond the code: the only line of
    this file has seven tokens, not the exact six of the pattern, and its
    sixth token is returned as the key all the same. *)
Lemma C3_counterexample :
  let content := "machine api.openai.com login apikey password K extra" in
  fst (m_config_load_api_key (ReadOk content)) = Some "K"
  /\ map token_count (authinfo_lines content) = [7%nat].
Proof. split; reflexivity. Qed.

(* ===================================================================== *)
(** ** Proofs: m-ui-actions.c and the configuration gate *)
(* ===================================================================== *)

Import MUiActions.

Lemma store_app_length {A : Type} (pre rest : list A) (x v : A) :
  store (pre ++ x :: rest)%list (List.length pre) v = (pre ++ v :: rest)%list.
Proof. induction pre as [| p pre IH]; simpl; [reflexivity | rewrite IH; reflexivity]. Qed.

(** Pushing the entries made from a list [xs] into an array that still
    has room for them fills the next [length xs] slots in order. *)
Lemma push_fold {X : Type} (f : X -> EUIActionEntry) (xs : list X) :
  forall (pre : list EUIActionEntry) (k : nat),
    Z.of_nat (List.length pre + List.length xs) < guint_modulus ->
    fold_left (fun st x => push_entry st (f x)) xs
      ((pre ++ repeat zero_entry (List.length xs + k))%list,
       Z.of_nat (List.length pre))
    = ((pre ++ map f xs ++ repeat zero_entry k)%list,
       Z.of_nat (List.length pre + List.length xs)).
Proof.
  induction xs as [| x xs IH]; intros pre k Hroom.
  - simpl. rewrite Nat.add_0_r. reflexivity.
  - cbn [fold_left List.length map]. unfold push_entry at 2. cbn [fst snd].
    rewrite Nat2Z.id. cbn [Nat.add repeat]. rewrite store_app_length.
    rewrite to_guint_small by (cbn [List.length] in Hroom; lia).
    replace (pre ++ f x :: repeat zero_entry (List.length xs + k))%list
      with ((pre ++ [f x]) ++ repeat zero_entry (List.length xs + k))%list
      by (rewrite <- app_assoc; reflexivity).
    replace (Z.of_nat (List.length pre) + 1)
      with (Z.of_nat (List.length (pre ++ [f x])%list))
      by (rewrite length_app; simpl; lia).
    rewrite IH by (rewrite length_app; cbn [List.length] in *; lia).
    rewrite <- app_assoc. cbn [app]. f_equal. f_equal.
    rewrite length_app. simpl. lia.
Qed.

(** Reading the array by index over all its indices reads its elements. *)
Lemma map_indices {B : Type} (g : option JsonObject -> B) (a : JsonArray) :
  map (fun i => g (json_array_get_object_element a i)) (seq 0 (List.length a))
  = map (fun p => g (node_object p)) a.
Proof.
  induction a as [| p a IH]; [reflexivity |].
  cbn [List.length seq map]. rewrite <- seq_shift, map_map.
  rewrite <- IH. reflexivity.
Qed.

Lemma validate_from_length (count : Z) (arr : list EUIActionEntry) :
  forall i, List.length (fst (validate_from i count arr)) = List.length arr.
Proof.
  induction arr as [| e arr IH]; intros i; cbn [validate_from]; [reflexivity |].
  destruct (i <? count); [| reflexivity].
  destruct (validate_entry i e) as [e' w].
  specialize (IH (to_guint (i + 1))).
  destruct (validate_from (to_guint (i + 1)) count arr) as [rest' w'].
  simpl in *. rewrite IH. reflexivity.
Qed.

(** Entries that already have a name keep it, and no warning is logged. *)
Lemma validate_from_named (count : Z) (arr : list EUIActionEntry) :
  Forall (fun e => name e <> None) arr ->
  forall i,
    map name (fst (validate_from i count arr)) = map name arr
    /\ snd (validate_from i count arr) = [].
Proof.
  induction 1 as [| e arr He Harr IH]; intros i; cbn [validate_from];
    [split; reflexivity |].
  destruct (i <? count); [| split; reflexivity].
  unfold validate_entry. destruct (name e) as [n |] eqn:Hn; [| contradiction].
  destruct (IH (to_guint (i + 1))) as [IHn IHw].
  destruct (validate_from (to_guint (i + 1)) count arr) as [rest' w'].
  simpl in *. rewrite IHn, IHw, Hn. split; reflexivity.
Qed.

(** The array [m_ui_build_action_entries] has filled before validation. *)
Lemma build_fill (prompts : JsonArray) (action_context : MUIActionContext) :
  Z.of_nat (List.length prompts) + 3
  + Z.of_nat (List.length (ctx_models action_context)) < guint_modulus ->
  let filled :=
    (map (fun p => create_prompt_entry (node_object p)) prompts
     ++ [create_menu_entry; create_dropdown_entry;
         create_model_menu_entry (ctx_model action_context)]
     ++ map (fun model_id =>
               create_model_entry model_id
                 (g_strcmp0 model_id (ctx_model action_context) =? 0))
          (ctx_models action_context))%list in
  fst
    (fold_left
       (fun st model_id =>
          push_entry st
            (create_model_entry model_id
               (g_strcmp0 model_id (ctx_model action_context) =? 0)))
       (ctx_models action_context)
       (push_entry
          (push_entry
             (push_entry
                (fold_left
                   (fun st i =>
                      push_entry st
                        (create_prompt_entry
                           (json_array_get_object_element prompts i)))
                   (seq 0 (List.length prompts))
                   (repeat zero_entry
                      (List.length prompts
                       + (3 + List.length (ctx_models action_context))), 0))
                create_menu_entry)
             create_dropdown_entry)
          (create_model_menu_entry (ctx_model action_context))))
  = filled.
Proof.
  intros Hroom filled.
  set (models := ctx_models action_context) in *.
  set (current := ctx_model action_context) in *.
  set (fp := fun i => create_prompt_entry (json_array_get_object_element prompts i)).
  set (fm := fun model_id =>
               create_model_entry model_id (g_strcmp0 model_id current =? 0)).
  set (P := map fp (seq 0 (List.length prompts))).
  set (M3 := [create_menu_entry; create_dropdown_entry;
              create_model_menu_entry current]).
  assert (HP : List.length P = List.length prompts)
    by (unfold P; rewrite length_map, length_seq; reflexivity).
  assert (E1 :
    fold_left (fun st i => push_entry st (fp i)) (seq 0 (List.length prompts))
      (repeat zero_entry (List.length prompts + (3 + List.length models)), 0)
    = ((P ++ repeat zero_entry (3 + List.length models))%list,
       Z.of_nat (List.length prompts))).
  { pose proof (push_fold fp (seq 0 (List.length prompts)) []
                  (3 + List.length models)) as H1.
    rewrite length_seq in H1. apply H1. simpl. lia. }
  assert (E2 :
    push_entry
      (push_entry
         (push_entry
            ((P ++ repeat zero_entry (3 + List.length models))%list,
             Z.of_nat (List.length prompts))
            create_menu_entry)
         create_dropdown_entry)
      (create_model_menu_entry current)
    = ((P ++ M3 ++ repeat zero_entry (List.length models))%list,
       Z.of_nat (List.length prompts + 3))).
  { pose proof (push_fold (fun e => e) M3 P (List.length models)) as H2.
    rewrite map_id, HP in H2. apply H2. unfold M3. simpl. lia. }
  assert (E3 :
    fold_left (fun st model_id => push_entry st (fm model_id)) models
      ((P ++ M3 ++ repeat zero_entry (List.length models))%list,
       Z.of_nat (List.length prompts + 3))
    = (((P ++ M3) ++ map fm models ++ [])%list,
       Z.of_nat (List.length prompts + 3 + List.length models))).
  { pose proof (push_fold fm models (P ++ M3)%list 0) as H3.
    rewrite length_app, HP, Nat.add_0_r, <- app_assoc in H3.
    apply H3. unfold M3. simpl. lia. }
  change (fold_left _ (seq 0 (List.length prompts)) _)
    with (fold_left (fun st i => push_entry st (fp i))
            (seq 0 (List.length prompts))
            (repeat zero_entry
               (List.length prompts + (3 + List.length models)), 0)).
  rewrite E1, E2.
  change (fold_left _ models _)
    with (fold_left (fun st model_id => push_entry st (fm model_id)) models
            ((P ++ M3 ++ repeat zero_entry (List.length models))%list,
             Z.of_nat (List.length prompts + 3))).
  rewrite E3. cbn [fst].
  unfold filled, P, fp. rewrite map_indices, app_nil_r, <- app_assoc.
  reflexivity.
Qed.

Lemma expected_names_length (prompts : JsonArray) (models : list (option string)) :
  List.length (expected_names prompts models)
  = (List.length prompts + List.length models + 3)%nat.
Proof.
  unfold expected_names. rewrite !length_app, !length_map. simpl. lia.
Qed.

(** C1, as the code has it. For a prompt array of length N >= 1 (its
    entries well-formed or not) and M available models, with N + M + 3
    below 2^32, [m_ui_build_action_entries] builds exactly N + M + 3
    action entries: one per prompt, one per model and three structural
    ones (the container menu ai-menu, the trigger ai-proofread-dropdown
    and the model submenu ai-model-menu); [total_count] is N + M + 3 and
    [count] is N. No warning is logged. *)
Theorem C1_action_entry_count (prompts : JsonArray)
  (action_context : MUIActionContext) :
  prompts <> [] ->
  Z.of_nat (List.length prompts) + 3
  + Z.of_nat (List.length (ctx_models action_context)) < 2 ^ 32 ->
  exists built,
    m_ui_build_action_entries (Some prompts) action_context = (Some built, [])
    /\ List.length (entries built)
       = (List.length prompts + List.length (ctx_models action_context) + 3)%nat
    /\ total_count built
       = Z.of_nat (List.length prompts
                   + List.length (ctx_models action_context) + 3)
    /\ MUiActions.count built = Z.of_nat (List.length prompts)
    /\ map name (entries built)
       = expected_names prompts (ctx_models action_context).
Proof.
  intros Hne Hroom. change (2 ^ 32) with guint_modulus in Hroom.
  assert (Hmod : guint_modulus = 4294967296) by reflexivity.
  unfold m_ui_build_action_entries, json_array_get_length, g_list_length,
    prompt_indices, g_new0_entries.
  set (N := List.length prompts) in *.
  set (M := List.length (ctx_models action_context)) in *.
  assert (HN : (0 < N)%nat)
    by (unfold N; destruct prompts; [contradiction | simpl; lia]).
  rewrite (to_guint_small (Z.of_nat N)) by lia.
  rewrite (to_guint_small (Z.of_nat M)) by lia.
  rewrite (to_guint_small (Z.of_nat N + 3 + Z.of_nat M)) by lia.
  replace (Z.of_nat N =? 0) with false by (symmetry; apply Z.eqb_neq; lia).
  rewrite Nat2Z.id.
  replace (Z.to_nat (Z.of_nat N + 3 + Z.of_nat M)) with (N + (3 + M))%nat by lia.
  pose proof (build_fill prompts action_context Hroom) as Hfill.
  cbv zeta in Hfill. fold N M in Hfill.
  unfold validate_entries.
  match goal with
  | |- context [validate_from 0 ?c (fst ?filled_state)] =>
      change (fst filled_state) with
        (fst
           (fold_left
              (fun st model_id =>
                 push_entry st
                   (create_model_entry model_id
                      (g_strcmp0 model_id (ctx_model action_context) =? 0)))
              (ctx_models action_context)
              (push_entry
                 (push_entry
                    (push_entry
                       (fold_left
                          (fun st i =>
                             push_entry st
                               (create_prompt_entry
                                  (json_array_get_object_element prompts i)))
                          (seq 0 N)
                          (repeat zero_entry (N + (3 + M)), 0))
                       create_menu_entry)
                    create_dropdown_entry)
                 (create_model_menu_entry (ctx_model action_context)))))
  end.
  rewrite Hfill.
  set (filled :=
         (map (fun p => create_prompt_entry (node_object p)) prompts
          ++ [create_menu_entry; create_dropdown_entry;
              create_model_menu_entry (ctx_model action_context)]
          ++ map (fun model_id =>
                    create_model_entry model_id
                      (g_strcmp0 model_id (ctx_model action_context) =? 0))
               (ctx_models action_context))%list).
  assert (Hnamed : Forall (fun e => name e <> None) filled).
  { unfold filled. apply Forall_app. split.
    - apply Forall_forall. intros e He. apply in_map_iff in He.
      destruct He as (p & <- & _). discriminate.
    - apply Forall_app. split.
      + repeat constructor; discriminate.
      + apply Forall_forall. intros e He. apply in_map_iff in He.
        destruct He as (m & <- & _). discriminate. }
  assert (Hnames : map name filled = expected_names prompts (ctx_models action_context)).
  { unfold filled, expected_names. rewrite !map_app, !map_map. reflexivity. }
  destruct (validate_from_named (Z.of_nat N + 3 + Z.of_nat M) filled Hnamed 0)
    as [Hvn Hvw].
  pose proof (validate_from_length (Z.of_nat N + 3 + Z.of_nat M) filled 0) as Hvl.
  destruct (validate_from 0 (Z.of_nat N + 3 + Z.of_nat M) filled)
    as [validated warnings].
  cbn [fst snd] in *. subst warnings.
  eexists. split; [reflexivity |]. cbn [entries total_count MUiActions.count].
  repeat split.
  - rewrite <- (length_map name), Hvn, Hnames. apply expected_names_length.
  - lia.
  - rewrite Hvn. exact Hnames.
Qed.

Lemma C1_witness :
  let action_context :=
    m_ui_action_context_new (Some one_prompt) (Some "sk-test") (Some "gpt-4o")
      [Some "gpt-4o"; Some "gpt-4o-mini"] in
  one_prompt <> []
  /\ Z.of_nat (List.length one_prompt) + 3
     + Z.of_nat (List.length (ctx_models action_context)) < 2 ^ 32
  /\ exists built,
       m_ui_build_action_entries (Some one_prompt) action_context
       = (Some built, [])
       /\ List.length (entries built)
          = (List.length one_prompt
             + List.length (ctx_models action_context) + 3)%nat
       /\ total_count built
          = Z.of_nat (List.length one_prompt
                      + List.length (ctx_models action_context) + 3)
       /\ MUiActions.count built = Z.of_nat (List.length one_prompt)
       /\ map name (entries built)
          = expected_names one_prompt (ctx_models action_context).
Proof.
  intros action_context.
  assert (H1 : one_prompt <> []) by discriminate.
  assert (H2 : Z.of_nat (List.length one_prompt) + 3
               + Z.of_nat (List.length (ctx_models action_context)) < 2 ^ 32)
    by (vm_compute; reflexivity).
  split; [exact H1 |]. split; [exact H2 |].
  exact (C1_action_entry_count one_prompt action_context H1 H2).
Defined.

(** C1, where the specification differs from the code: one prompt and no
    model give four action entries, not 1 + 0 + 2; and no prompt gives no
    entry set at all, not 0 + M + 2 entries. *)
Lemma C1_counterexample :
  let no_models := m_ui_action_context_new (Some one_prompt) (Some "sk-test") None [] in
  option_map (fun built => (List.length (entries built), total_count built))
    (fst (m_ui_build_action_entries (Some one_prompt) no_models))
  = Some (4%nat, 4)
  /\ (4 <> List.length one_prompt + List.length (ctx_models no_models) + 2)%nat
  /\ fst (m_ui_build_action_entries (Some []) no_models) = None.
Proof. repeat split. vm_compute. discriminate. Qed.

(** C10. Without prompts (a NULL array or an array of length 0)
    [m_ui_build_action_entries] returns NULL whatever the action context
    and its models are, and [m_msg_composer_extension_add_ui] registers
    no action at all, whatever the API key, the model and the models. *)
Theorem C10_no_prompts_no_actions (action_context : MUIActionContext)
  (api_key model : option string) (models : list (option string)) :
  m_ui_build_action_entries None action_context = (None, [])
  /\ m_ui_build_action_entries (Some []) action_context = (None, [])
  /\ fst (MExtension.validate_configuration
            {| MExtension.prompts := None;
               MExtension.chatgpt_api_key := api_key;
               MExtension.model := model;
               MExtension.models := models |}) = false
  /\ fst (MExtension.validate_configuration
            {| MExtension.prompts := Some [];
               MExtension.chatgpt_api_key := api_key;
               MExtension.model := model;
               MExtension.models := models |}) = false
  /\ fst (MExtension.m_msg_composer_extension_add_ui
            {| MExtension.prompts := None;
               MExtension.chatgpt_api_key := api_key;
               MExtension.model := model;
               MExtension.models := models |}) = None
  /\ fst (MExtension.m_msg_composer_extension_add_ui
            {| MExtension.prompts := Some [];
               MExtension.chatgpt_api_key := api_key;
               MExtension.model := model;
               MExtension.models := models |}) = None.
Proof. repeat split. Qed.

(* ===================================================================== *)
(** ** Proofs: m-proofreader.c *)
(* ===================================================================== *)

Import MProofreader Trace.

Arguments bind {A B} m k st /.
Arguments ret {A} a st /.
Arguments get st /.
Arguments put st _ /.
Arguments emit e st /.
Arguments set_ctx c st /.
Arguments set_task t st /.
Arguments set_timeouts l st /.
Arguments set_now t st /.
Arguments set_wait dialog id st /.
Arguments g_timeout_add ms st /.
Arguments g_source_remove id st /.
Arguments new_window st /.
Arguments gtk_widget_destroy w st /.
Arguments proofreader_wait_indicator_show st /.
Arguments proofreader_wait_indicator_schedule st /.
Arguments proofreader_wait_indicator_clear st /.
Arguments main_loop_run_until t st /.
Arguments show_error_alert composer error_message st /.
Arguments show_no_response_dialog composer st /.
Arguments insert_proofread_content cnt_editor content st /.
Arguments m_proofreader_context_free st /.
Arguments proofread_task_completed result st /.
Arguments start_proofread_task original_content st /.
Arguments m_proofreader_content_ready_cb result st /.

(** Symbolic execution of the monadic code, leaving arithmetic, list
    searches and strings folded. *)
Ltac run :=
  cbn -[Z.add Z.leb Z.max Pos.eqb String.append existsb filter
        source_attached detach GTK_IS_WINDOW].

Lemma source_attached_head (id ms d : Z) (l : list TimeoutSource) :
  source_attached id ({| source_id := id; interval := ms; due := d |} :: l) = true.
Proof. unfold source_attached. simpl. rewrite Z.eqb_refl. reflexivity. Qed.

Lemma detach_only (id ms d : Z) :
  detach id [{| source_id := id; interval := ms; due := d |}] = [].
Proof. unfold detach. simpl. rewrite Z.eqb_refl. reflexivity. Qed.

Lemma source_attached_nil (id : Z) : source_attached id [] = false.
Proof. reflexivity. Qed.

Lemma due_by (t0 ms : Z) :
  (t0 + PROOFREAD_WAIT_DELAY_MS <=? t0 + ms) = timer_fires ms.
Proof.
  unfold timer_fires.
  destruct (Z.leb_spec (t0 + PROOFREAD_WAIT_DELAY_MS) (t0 + ms));
    destruct (Z.leb_spec PROOFREAD_WAIT_DELAY_MS ms); try reflexivity; lia.
Qed.

(** An invocation that gets past the preconditions and is handed a text
    dispatches it, and its trace is [dispatched_trace]; at the end no
    timeout source is attached and the context holds neither a timer id
    nor a dialog. *)
Lemma invocation_dispatched oracle (w : World) (args : StartArgs)
  (text : string) (request_ms : Z) :
  start_ok args = true ->
  exists st,
    invocation oracle w args (text_ready (Some text)) request_ms
    = (dispatched_trace oracle w args text request_ms, Some st)
    /\ timeouts st = []
    /\ wait_dialog (ctx st) = None
    /\ wait_timeout_id (ctx st) = 0.
Proof.
  destruct args as [[editor |] [pid |] [prm |] [key |] mdl comp];
    try discriminate.
  intros _. destruct w as [t0 sid wins wid open_ms].
  unfold dispatched_trace, dispatch_events, waiting_events, outcome_events,
    notice_dialog, remote_result, composer_is_window, m_proofreader_context_new.
  unfold invocation, m_proofreader_start, text_ready, proofread_task_thread,
    wait_message, g_strdup.
  run. cbn [filter due]. rewrite due_by.
  match goal with
  | |- context [oracle ?a ?b ?c ?d ?e] =>
      destruct (oracle a b c d e) as [[proofread_text |] [message |]]
  end.
  all: destruct (timer_fires request_ms);
    cbn [dispatch_sources]; run; rewrite ?source_attached_head; run;
    [ destruct comp as [c |];
      [ unfold GTK_IS_WINDOW; cbn [windows];
        destruct (existsb (Pos.eqb c) wins) | ] | ];
    run; rewrite ?detach_only; run; rewrite ?source_attached_nil; run;
    eexists; (split; [reflexivity |]); repeat split; reflexivity.
Qed.

Lemma pos_succ_eqb (p : positive) : Pos.eqb (Pos.succ p) p = false.
Proof. apply Pos.eqb_neq. lia. Qed.

Lemma pos_eqb_succ (p : positive) : Pos.eqb p (Pos.succ p) = false.
Proof. apply Pos.eqb_neq. lia. Qed.

(** Case analysis on the three ways the wait indicator can go and the
    three outcomes, followed by evaluation of the observation. *)
Ltac trace_cases w args request_ms result :=
  unfold dispatched_trace, dispatch_events, waiting_events, outcome_events,
    notice_dialog;
  destruct (a_cnt_editor args);
  destruct (timer_fires request_ms);
  destruct (composer_is_window w (a_composer args));
  destruct result as [? | [? |]];
  cbn -[Pos.eqb];
  rewrite ?Pos.eqb_refl, ?pos_succ_eqb, ?pos_eqb_succ;
  cbn -[Pos.eqb];
  rewrite ?Pos.eqb_refl, ?pos_succ_eqb, ?pos_eqb_succ.

(** What every dispatched trace satisfies. *)
Lemma dispatched_trace_teardown oracle (w : World) (args : StartArgs)
  (text : string) (request_ms : Z) :
  let t := dispatched_trace oracle w args text request_ms in
  (count is_source_remove t + wait_destroys [] t = 1)%nat
  /\ wait_destroys [] t = count is_wait_show t
  /\ waits_left [] t = []
  /\ teardown_first [] false t = true
  /\ exclusive [] [] false t = true
  /\ count is_outcome t = 1%nat
  /\ count is_context_free t = 1%nat
  /\ count is_task_run t = 1%nat
  /\ count is_timeout_add t = 1%nat.
Proof.
  intros t. subst t.
  trace_cases w args request_ms (remote_result oracle args text);
    repeat split; reflexivity.
Qed.

(** Only an invocation that passes the preconditions and is handed a
    text dispatches a task. *)
Lemma dispatch_inversion oracle (w : World) (args : StartArgs)
  (content : ContentResult) (request_ms : Z) :
  occurs is_task_run (fst (invocation oracle w args content request_ms)) = true ->
  start_ok args = true /\ exists text, content = text_ready (Some text).
Proof.
  destruct args as [[editor |] [pid |] [prm |] [key |] mdl comp];
    try (intros H; discriminate H).
  destruct content as [[message |] [[text |] |]];
    try (intros H; discriminate H).
  intros _. split; [reflexivity |]. exists text. reflexivity.
Qed.

(** C7. A call of [m_proofreader_start] without a prompt id, without the
    prompts or without the API key fails on the spot: the whole
    invocation consists of one logged critical; no content is requested,
    no task is dispatched, nothing is shown to the user and no context
    exists afterwards. *)
Theorem C7_start_preconditions oracle (w : World) (args : StartArgs)
  (content : ContentResult) (request_ms : Z) :
  a_prompt_id args = None \/ a_prompts args = None \/ a_api_key args = None ->
  let t := fst (invocation oracle w args content request_ms) in
  (exists message, t = [EvLog (LogCritical message)])
  /\ snd (invocation oracle w args content request_ms) = None
  /\ occurs is_get_content t = false
  /\ occurs is_task_run t = false
  /\ occurs is_user_visible t = false.
Proof.
  intros H.
  destruct args as [[editor |] [pid |] [prm |] [key |] mdl comp];
    cbn in H; try (destruct H as [H | [H | H]]; discriminate H);
    cbn; (split; [eexists; reflexivity |]); repeat split.
Qed.

Lemma C7_witness :
  (a_prompt_id no_prompt_args = None
   \/ a_prompts no_prompt_args = None
   \/ a_api_key no_prompt_args = None)
  /\ occurs is_get_content
       (fst (invocation remote_text sample_world no_prompt_args
               (text_ready (Some "Helo wrld")) 100)) = false
  /\ occurs is_task_run
       (fst (invocation remote_text sample_world no_prompt_args
               (text_ready (Some "Helo wrld")) 100)) = false
  /\ occurs is_user_visible
       (fst (invocation remote_text sample_world no_prompt_args
               (text_ready (Some "Helo wrld")) 100)) = false.
Proof.
  assert (H : a_prompt_id no_prompt_args = None
              \/ a_prompts no_prompt_args = None
              \/ a_api_key no_prompt_args = None) by (left; reflexivity).
  split; [exact H |].
  exact (proj2 (proj2
    (C7_start_preconditions remote_text sample_world no_prompt_args
       (text_ready (Some "Helo wrld")) 100 H))).
Defined.

(** C2, as the code has it. When the content hash holds no plain text
    (the retrieved content is NULL), the invocation requests the content,
    frees its context once and does nothing else: no timer is armed, no
    task is dispatched to the Remote Transform Client, nothing is shown
    to the user. *)
Theorem C2_no_text_no_dispatch oracle (w : World) (args : StartArgs)
  (request_ms : Z) (t : list Event) (st : St) :
  invocation oracle w args (text_ready None) request_ms = (t, Some st) ->
  (exists editor, t = [EvGetContent editor; EvContextFree])
  /\ occurs is_task_run t = false
  /\ count is_timeout_add t = 0%nat
  /\ count is_context_free t = 1%nat
  /\ occurs is_user_visible t = false
  /\ task st = None
  /\ timeouts st = [].
Proof.
  destruct args as [[editor |] [pid |] [prm |] [key |] mdl comp];
    try (intros H; discriminate H).
  destruct w as [t0 sid wins wid open_ms].
  unfold invocation, m_proofreader_start, text_ready. run.
  intros H. injection H as <- <-.
  split; [eexists; reflexivity |]. repeat split.
Qed.

Lemma C2_witness :
  exists st,
    invocation remote_text sample_world sample_args (text_ready None) 100
    = ([EvGetContent 3%positive; EvContextFree], Some st)
    /\ occurs is_task_run [EvGetContent 3%positive; EvContextFree] = false
    /\ task st = None.
Proof.
  eexists. split; [reflexivity |].
  split;
    [ exact (proj1 (proj2
        (C2_no_text_no_dispatch remote_text sample_world sample_args 100
           [EvGetContent 3%positive; EvContextFree] _ eq_refl)))
    | reflexivity ].
Defined.

(** C2, where the specification differs from the code: when the
    retrieved text is the empty string, the timer is armed and the empty
    text is dispatched to the Remote Transform Client like any other
    text. *)
Lemma C2_counterexample :
  fst (invocation remote_text sample_world sample_args (text_ready (Some "")) 100)
  = [EvGetContent 3%positive; EvTimeoutAdd 1 800; EvTaskRun "";
     EvSourceRemove 1; EvInsertContent (Some 3%positive) "Fixed text.";
     EvContextFree]
  /\ occurs is_task_run
       (fst (invocation remote_text sample_world sample_args
               (text_ready (Some "")) 100)) = true.
Proof. split; reflexivity. Qed.




(** The release of the wait indicator on a dispatched trace, by what
    became of the timer. *)
Lemma dispatched_trace_release oracle (w : World) (args : StartArgs)
  (text : string) (request_ms : Z) :
  let t := dispatched_trace oracle w args text request_ms in
  (stale_timer w args request_ms = false ->
   failed_removals t = 0%nat
   /\ (count is_source_remove t + wait_destroys [] t = 1)%nat
   /\ count is_wait_show t = (if timer_fires request_ms then 1 else 0)%nat
   /\ count is_source_remove t = (if timer_fires request_ms then 0 else 1)%nat)
  /\ (stale_timer w args request_ms = true ->
      failed_removals t = 1%nat
      /\ count is_source_remove t = 1%nat
      /\ count is_wait_show t = 0%nat
      /\ wait_destroys [] t = 0%nat).
Proof.
  intros t. subst t. unfold stale_timer.
  trace_cases w args request_ms (remote_result oracle args text);
    split; intros H; try discriminate H; repeat split; reflexivity.
Qed.

(** Where the stale id is released again: right after the dispatch, the
    completion calls [g_source_remove] on the id of the timer that has
    fired, and GLib answers with its critical. *)
Lemma dispatched_trace_stale oracle (w : World) (args : StartArgs)
  (text : string) (request_ms : Z) :
  stale_timer w args request_ms = true ->
  exists before after,
    dispatched_trace oracle w args text request_ms
    = (before
       ++ EvSourceRemove (Z.pos (w_next_source_id w))
          :: EvLog (LogCritical "Source ID was not found when attempting to remove it")
          :: after)%list
    /\ In (EvTimeoutAdd (Z.pos (w_next_source_id w)) 800) before
    /\ count is_source_remove before = 0%nat.
Proof.
  unfold stale_timer. intros H. apply andb_prop in H. destruct H as [Hf Hc].
  apply negb_true_iff in Hc.
  exists (dispatch_events w args text).
  exists (outcome_events w args request_ms (remote_result oracle args text)
          ++ [EvContextFree])%list.
  unfold dispatched_trace, waiting_events. rewrite Hf, Hc. split; [reflexivity |].
  unfold dispatch_events.
  destruct (a_cnt_editor args); cbn; (split; [tauto | reflexivity]).
Qed.

(** C6. The wait indicator is released exactly once on every completion
    of a dispatched request but one kind.  On every completion no
    teardown comes after an outcome event (alert, no-response notice,
    insertion), the wait dialog is never on screen together with the
    alert or the notice, the wait dialog is destroyed as often as it was
    shown, and at the end no wait dialog is on screen, no timeout source
    is attached and the context holds neither a timer id nor a dialog.
    When the timer was cancelled before it was due, or fired with the
    composer a live window, there is exactly one teardown action and it
    succeeds: the one [g_source_remove] hits the pending source, or the
    one dialog shown is destroyed.  When the timer fired while the
    composer was not a live window, the callback has left the id of the
    destroyed source in the context, and the completion releases it a
    second time: its one [g_source_remove] is called on the id of the
    timer that has fired and fails with GLib's critical. *)
Theorem C6_wait_indicator_teardown oracle (w : World) (args : StartArgs)
  (content : ContentResult) (request_ms : Z) :
  occurs is_task_run (fst (invocation oracle w args content request_ms)) = true ->
  let t := fst (invocation oracle w args content request_ms) in
  teardown_first [] false t = true
  /\ exclusive [] [] false t = true
  /\ wait_destroys [] t = count is_wait_show t
  /\ waits_left [] t = []
  /\ (exists st,
        snd (invocation oracle w args content request_ms) = Some st
        /\ timeouts st = []
        /\ wait_dialog (ctx st) = None
        /\ wait_timeout_id (ctx st) = 0)
  /\ (stale_timer w args request_ms = false ->
      failed_removals t = 0%nat
      /\ (count is_source_remove t + wait_destroys [] t = 1)%nat
      /\ count is_wait_show t = (if timer_fires request_ms then 1 else 0)%nat
      /\ count is_source_remove t = (if timer_fires request_ms then 0 else 1)%nat)
  /\ (stale_timer w args request_ms = true ->
      failed_removals t = 1%nat
      /\ count is_source_remove t = 1%nat
      /\ count is_wait_show t = 0%nat
      /\ exists before after,
           t = (before
                ++ EvSourceRemove (Z.pos (w_next_source_id w))
                   :: EvLog (LogCritical
                               "Source ID was not found when attempting to remove it")
                   :: after)%list
           /\ In (EvTimeoutAdd (Z.pos (w_next_source_id w)) 800) before
           /\ count is_source_remove before = 0%nat).
Proof.
  intros H. apply dispatch_inversion in H. destruct H as [Hok [text ->]].
  destruct (invocation_dispatched oracle w args text request_ms Hok)
    as (st & Hrun & Hto & Hdlg & Hid).
  rewrite Hrun. cbn [fst snd].
  destruct (dispatched_trace_teardown oracle w args text request_ms)
    as (_ & H2 & H3 & H4 & H5 & _).
  destruct (dispatched_trace_release oracle w args text request_ms)
    as (Hgood & Hstale).
  split; [exact H4 |]. split; [exact H5 |]. split; [exact H2 |].
  split; [exact H3 |].
  split; [exists st; repeat split; assumption |].
  split; [exact Hgood |].
  intros Hs. destruct (Hstale Hs) as (F1 & F2 & F3 & _).
  split; [exact F1 |]. split; [exact F2 |]. split; [exact F3 |].
  exact (dispatched_trace_stale oracle w args text request_ms Hs).
Qed.

Lemma C6_witness :
  occurs is_task_run
    (fst (invocation remote_text closed_world sample_args
            (text_ready (Some "Helo wrld")) 1000)) = true
  /\ stale_timer closed_world sample_args 1000 = true
  /\ failed_removals
       (fst (invocation remote_text closed_world sample_args
               (text_ready (Some "Helo wrld")) 1000)) = 1%nat
  /\ count is_source_remove
       (fst (invocation remote_text closed_world sample_args
               (text_ready (Some "Helo wrld")) 1000)) = 1%nat
  /\ count is_wait_show
       (fst (invocation remote_text closed_world sample_args
               (text_ready (Some "Helo wrld")) 1000)) = 0%nat.
Proof.
  split; [reflexivity |]. split; [reflexivity |].
  destruct (proj2 (proj2 (proj2 (proj2 (proj2 (proj2
    (C6_wait_indicator_teardown remote_text closed_world sample_args
       (text_ready (Some "Helo wrld")) 1000 eq_refl)))))) eq_refl)
    as (F1 & F2 & F3 & _).
  split; [exact F1 |]. split; [exact F2 | exact F3].
Defined.

(** The timer callback never asks to be called again. *)
Lemma wait_indicator_show_one_shot (st : St) :
  fst (fst (proofreader_wait_indicator_show st)) = G_SOURCE_REMOVE.
Proof.
  destruct st as [c tk tos t0 sid wins wid open_ms].
  destruct c as [ed pid prm key mdl [comp |] dlg tid]; run; [| reflexivity].
  destruct (GTK_IS_WINDOW _ _); reflexivity.
Qed.

(** C9, as the code has it. Every dispatched request arms one one-shot
    timer of 800 ms right before the task is handed to the worker. When
    the request completes in under 800 ms the wait indicator is never
    shown. When it takes more than 800 ms and the composer is a live
    window when the timer fires, the wait indicator is shown before the
    completion: before any outcome and before the context is freed. *)
Theorem C9_wait_timer oracle (w : World) (args : StartArgs)
  (content : ContentResult) (request_ms : Z) :
  occurs is_task_run (fst (invocation oracle w args content request_ms)) = true ->
  let t := fst (invocation oracle w args content request_ms) in
  (exists before id text after,
      t = (before ++ EvTimeoutAdd id 800 :: EvTaskRun text :: after)%list
      /\ count is_timeout_add t = 1%nat)
  /\ (forall st, fst (fst (proofreader_wait_indicator_show st)) = G_SOURCE_REMOVE)
  /\ (request_ms < 800 -> count is_wait_show t = 0%nat)
  /\ (800 < request_ms ->
      composer_is_window w (a_composer args) = true ->
      exists before dialog message after,
        t = (before ++ EvWaitDialogShow dialog message :: after)%list
        /\ count is_outcome before = 0%nat
        /\ count is_context_free before = 0%nat
        /\ count is_outcome after = 1%nat
        /\ count is_context_free after = 1%nat).
Proof.
  intros H. apply dispatch_inversion in H. destruct H as [Hok [text ->]].
  destruct (invocation_dispatched oracle w args text request_ms Hok)
    as (st & Hrun & _).
  rewrite Hrun. cbn [fst].
  split; [| split; [exact wait_indicator_show_one_shot | split]].
  - unfold start_ok in Hok.
    destruct (a_cnt_editor args) as [editor |] eqn:Hed; [| discriminate].
    exists [EvGetContent editor], (Z.pos (w_next_source_id w)), text.
    eexists. split.
    + unfold dispatched_trace, dispatch_events. rewrite Hed.
      rewrite <- app_assoc. reflexivity.
    + apply (dispatched_trace_teardown oracle w args text request_ms).
  - intros Hfast.
    assert (Hno : timer_fires request_ms = false)
      by (unfold timer_fires, PROOFREAD_WAIT_DELAY_MS; apply Z.leb_gt; lia).
    unfold dispatched_trace, dispatch_events, waiting_events, outcome_events.
    rewrite Hno.
    destruct (a_cnt_editor args);
      destruct (remote_result oracle args text) as [? | [? |]]; reflexivity.
  - intros Hslow Hwin.
    assert (Hyes : timer_fires request_ms = true)
      by (unfold timer_fires, PROOFREAD_WAIT_DELAY_MS; apply Z.leb_le; lia).
    exists (dispatch_events w args text), (w_next_widget w),
      (wait_message (a_model args)).
    eexists. split.
    + unfold dispatched_trace, waiting_events. rewrite Hyes, Hwin.
      cbn [app]. reflexivity.
    + unfold dispatch_events, outcome_events.
      destruct (a_cnt_editor args);
        destruct (remote_result oracle args text) as [? | [? |]];
        repeat split.
Qed.

Lemma C9_witness :
  occurs is_task_run
    (fst (invocation remote_text sample_world sample_args
            (text_ready (Some "Helo wrld")) 1000)) = true
  /\ 800 < 1000
  /\ composer_is_window sample_world (a_composer sample_args) = true
  /\ exists before dialog message after,
       fst (invocation remote_text sample_world sample_args
              (text_ready (Some "Helo wrld")) 1000)
       = (before ++ EvWaitDialogShow dialog message :: after)%list
       /\ count is_outcome before = 0%nat
       /\ count is_context_free before = 0%nat
       /\ count is_outcome after = 1%nat
       /\ count is_context_free after = 1%nat.
Proof.
  assert (Hslow : 800 < 1000) by lia.
  split; [reflexivity |]. split; [exact Hslow |]. split; [reflexivity |].
  exact (proj2 (proj2 (proj2
    (C9_wait_timer remote_text sample_world sample_args
       (text_ready (Some "Helo wrld")) 1000 eq_refl))) Hslow eq_refl).
Defined.

(** C9, where the specification differs from the code: a request that
    takes 1000 ms is dispatched and completes without the wait indicator
    ever being shown, both when the composer window is gone by the time
    the timer fires and when there is no composer at all. *)
Lemma C9_counterexample :
  let closed := {| w_now := 0; w_next_source_id := 1%positive; w_windows := [];
                   w_next_widget := 100%positive; w_notice_open_ms := 5000 |} in
  800 < 1000
  /\ occurs is_task_run
       (fst (invocation remote_text closed sample_args
               (text_ready (Some "Helo wrld")) 1000)) = true
  /\ count is_wait_show
       (fst (invocation remote_text closed sample_args
               (text_ready (Some "Helo wrld")) 1000)) = 0%nat
  /\ occurs is_task_run
       (fst (invocation remote_text sample_world headless_args
               (text_ready (Some "Helo wrld")) 1000)) = true
  /\ count is_wait_show
       (fst (invocation remote_text sample_world headless_args
               (text_ready (Some "Helo wrld")) 1000)) = 0%nat.
Proof. repeat split. Qed.

(** When the timer fires without a live composer its id stays in the
    context, and the completion removes a source that no longer exists. *)
Remark stale_timer_id_removed :
  fst (invocation remote_text sample_world headless_args
         (text_ready (Some "Helo wrld")) 1000)
  = [EvGetContent 3%positive; EvTimeoutAdd 1 800; EvTaskRun "Helo wrld";
     EvSourceRemove 1;
     EvLog (LogCritical "Source ID was not found when attempting to remove it");
     EvInsertContent (Some 3%positive) "Fixed text."; EvContextFree].
Proof. reflexivity. Qed.

(* ===================================================================== *)
(** ** Further properties: m-config.c *)
(* ===================================================================== *)

Import Props.

Lemma get_member_none (o : JsonObject) (k : string) :
  ~ In k (json_object_get_members o) -> json_object_get_member o k = None.
Proof.
  induction o as [| [k0 v0] o IH]; simpl; intros H; [reflexivity |].
  destruct (String.eqb_spec k0 k) as [-> | Hne]; [exfalso; apply H; left; reflexivity |].
  apply IH. intros Hin. apply H. right. exact Hin.
Qed.

Lemma get_member_app_fresh (pre suf : JsonObject) (k : string) :
  ~ In k (json_object_get_members pre) ->
  json_object_get_member (pre ++ suf)%list k = json_object_get_member suf k.
Proof.
  induction pre as [| [k0 v0] pre IH]; simpl; intros H; [reflexivity |].
  destruct (String.eqb_spec k0 k) as [-> | Hne]; [exfalso; apply H; left; reflexivity |].
  apply IH. intros Hin. apply H. right. exact Hin.
Qed.

Lemma set_member_fresh (o : JsonObject) (k : string) (v : JsonNode) :
  ~ In k (json_object_get_members o) ->
  json_object_set_member o k v = (o ++ [(k, v)])%list.
Proof.
  induction o as [| [k0 v0] o IH]; simpl; intros H; [reflexivity |].
  destruct (String.eqb_spec k0 k) as [-> | Hne]; [exfalso; apply H; left; reflexivity |].
  rewrite IH; [reflexivity |]. intros Hin. apply H. right. exact Hin.
Qed.

(** The builder loop copies an object with distinct member names as it is. *)
Lemma build_fold_distinct (o suf : JsonObject) :
  forall pre,
    o = (pre ++ suf)%list ->
    NoDup (json_object_get_members o) ->
    fold_left
      (fun built member_name =>
         match json_object_get_member o member_name with
         | Some member_node =>
             json_object_set_member built member_name (json_node_copy member_node)
         | None => built
         end) (json_object_get_members suf) pre
    = o.
Proof.
  induction suf as [| [k v] suf IH]; intros pre Ho Hnd.
  - simpl. rewrite app_nil_r in Ho. symmetry. exact Ho.
  - assert (Hk : ~ In k (json_object_get_members pre)).
    { subst o. unfold json_object_get_members in *. rewrite map_app in Hnd.
      simpl in Hnd. apply NoDup_remove_2 in Hnd. intros Hin. apply Hnd.
      apply in_or_app. left. exact Hin. }
    cbn [json_object_get_members map fst fold_left].
    assert (Hget : json_object_get_member o k = Some v).
    { subst o. rewrite get_member_app_fresh by exact Hk. simpl.
      rewrite String.eqb_refl. reflexivity. }
    rewrite Hget. unfold json_node_copy. rewrite set_member_fresh by exact Hk.
    apply (IH (pre ++ [(k, v)])%list); [| exact Hnd].
    rewrite <- app_assoc. exact Ho.
Qed.

Lemma build_root_distinct (o : JsonObject) :
  NoDup (json_object_get_members o) -> build_root o = o.
Proof. intros H. unfold build_root. apply (build_fold_distinct o o []); [reflexivity | exact H]. Qed.

Lemma other_members_names (o : JsonObject) :
  ~ In "model" (json_object_get_members (other_members o)).
Proof.
  unfold other_members, json_object_get_members. intros H.
  apply in_map_iff in H. destruct H as ([k v] & Hk & Hin). simpl in Hk. subst k.
  apply filter_In in Hin. destruct Hin as [_ Hf]. simpl in Hf. discriminate Hf.
Qed.

Lemma other_members_distinct (o : JsonObject) :
  NoDup (json_object_get_members o) ->
  NoDup (json_object_get_members (other_members o)).
Proof.
  unfold other_members, json_object_get_members.
  induction o as [| [k v] o IH]; simpl; intros H; [constructor |].
  inversion H as [| ? ? Hk Hrest]; subst.
  destruct (String.eqb k "model"); simpl; [apply IH; exact Hrest |].
  constructor; [| apply IH; exact Hrest].
  intros Hin. apply Hk. apply in_map_iff in Hin.
  destruct Hin as (kv & Hkv & Hin). apply filter_In in Hin.
  apply in_map_iff. exists kv. split; [exact Hkv | apply Hin].
Qed.

(** Removing "model" from an object with distinct member names leaves
    the other members, in order. *)
Lemma remove_model_distinct (o : JsonObject) :
  NoDup (json_object_get_members o) ->
  (if json_object_has_member o "model"
   then json_object_remove_member o "model" else o) = other_members o.
Proof.
  unfold json_object_has_member, other_members, json_object_get_members.
  induction o as [| [k v] o IH]; simpl; intros H; [reflexivity |].
  inversion H as [| ? ? Hk Hrest]; subst.
  destruct (String.eqb_spec k "model") as [-> | Hne]; simpl.
  - specialize (IH Hrest).
    rewrite (get_member_none o "model" Hk) in IH. exact IH.
  - specialize (IH Hrest).
    destruct (json_object_get_member o "model"); f_equal; exact IH.
Qed.

(** The root a save generates from an object with distinct member names. *)
Lemma saved_root_distinct (o : JsonObject) (m : string) :
  NoDup (json_object_get_members o) ->
  build_root
    (json_object_set_string_member
       (if json_object_has_member o "model"
        then json_object_remove_member o "model" else o) "model" m)
  = (other_members o ++ [("model", JString m)])%list.
Proof.
  intros H. rewrite remove_model_distinct by exact H.
  unfold json_object_set_string_member.
  rewrite set_member_fresh by apply other_members_names.
  apply build_root_distinct.
  unfold json_object_get_members. rewrite map_app. simpl.
  apply NoDup_app.
  - apply other_members_distinct. exact H.
  - repeat constructor. intros [].
  - intros a Ha [<- | []]. exact (other_members_names o Ha).
Qed.

(** A successful save had a directory and a writable file, and logged
    nothing. *)
Lemma save_model_inv (m : string) (env : SaveEnv) (file file' : ParseResult)
  (log : list LogRecord) :
  m_config_save_model (Some m) env file = (true, file', log) ->
  mkdir_status env = 0 /\ write_error env = None /\ log = [].
Proof.
  unfold m_config_save_model.
  destruct (Z.eqb_spec (mkdir_status env) 0) as [Hm | Hm]; simpl; [| discriminate].
  destruct (write_error env); [discriminate |].
  intros H. injection H as _ <-. repeat split. exact Hm.
Qed.

(** What a save writes when nothing fails. *)
Lemma save_model_ok (m : string) (env : SaveEnv) (file : ParseResult) :
  mkdir_status env = 0 -> write_error env = None ->
  distinct_members file ->
  m_config_save_model (Some m) env file
  = (true,
     ParseOk (Some (JObject (other_members (root_members file)
                             ++ [("model", JString m)])%list)), []).
Proof.
  intros Hm Hw Hd. unfold m_config_save_model. rewrite Hm, Hw. simpl.
  do 5 f_equal.
  destruct file as [message | [[] |]]; simpl in *;
    try (apply (saved_root_distinct [] m); constructor).
  apply saved_root_distinct. exact Hd.
Qed.

Lemma saved_file_distinct (file : ParseResult) (m : string) :
  distinct_members file ->
  distinct_members
    (ParseOk (Some (JObject (other_members (root_members file)
                             ++ [("model", JString m)])%list))).
Proof.
  intros Hd. simpl. unfold json_object_get_members. rewrite map_app. simpl.
  apply NoDup_app.
  - apply other_members_distinct.
    destruct file as [? | [[] |]]; simpl in *; try constructor. exact Hd.
  - repeat constructor. intros [].
  - intros a Ha [<- | []]. exact (other_members_names _ Ha).
Qed.

Lemma sample_config_distinct : distinct_members sample_config.
Proof. simpl. repeat constructor; simpl; intuition discriminate. Qed.



(** When the member names of config.json are distinct (or it holds no
    object), a successful save writes the members other than "model" in
    their order followed by the new "model" member. *)
Theorem save_model_shape (m : string) (env : SaveEnv)
  (file file' : ParseResult) (log : list LogRecord) :
  distinct_members file ->
  m_config_save_model (Some m) env file = (true, file', log) ->
  file' = ParseOk (Some (JObject (other_members (root_members file)
                                  ++ [("model", JString m)])%list)).
Proof.
  intros Hd H. destruct (save_model_inv m env file file' log H) as (Hm & Hw & _).
  rewrite (save_model_ok m env file Hm Hw Hd) in H.
  injection H as <- _. reflexivity.
Qed.

Lemma save_model_shape_witness :
  distinct_members sample_config
  /\ m_config_save_model (Some "gpt-4o-mini") ok_env sample_config
     = (true,
        ParseOk (Some (JObject [("theme", JString "dark"); ("retries", JInt 3);
                                ("model", JString "gpt-4o-mini")])), [])
  /\ ParseOk (Some (JObject [("theme", JString "dark"); ("retries", JInt 3);
                             ("model", JString "gpt-4o-mini")]))
     = ParseOk (Some (JObject (other_members (root_members sample_config)
                               ++ [("model", JString "gpt-4o-mini")])%list)).
Proof.
  split; [exact sample_config_distinct |]. split; [reflexivity |].
  exact (save_model_shape "gpt-4o-mini" ok_env sample_config _ []
           sample_config_distinct eq_refl).
Defined.

Lemma other_members_idem (o : JsonObject) (kv : string * JsonNode) :
  fst kv = "model" ->
  other_members (other_members o ++ [kv])%list = other_members o.
Proof.
  intros Hk. unfold other_members. rewrite filter_app. simpl. rewrite Hk. simpl.
  rewrite app_nil_r. induction o as [| [k v] o IH]; simpl; [reflexivity |].
  destruct (String.eqb k "model") eqn:E; simpl; [exact IH |].
  rewrite E. simpl. rewrite IH. reflexivity.
Qed.

(** The last save wins: when the member names of config.json are
    distinct, saving a second model after a first one leaves exactly the
    file that saving the second model alone would have left, and loading
    returns the second model; saving the same model twice changes
    nothing. *)
Theorem save_model_last_wins (m1 m2 : string) (env1 env2 : SaveEnv)
  (file file1 file2 : ParseResult) (log1 log2 : list LogRecord) :
  distinct_members file ->
  m_config_save_model (Some m1) env1 file = (true, file1, log1) ->
  m_config_save_model (Some m2) env2 file1 = (true, file2, log2) ->
  m_config_save_model (Some m2) env2 file = (true, file2, log2)
  /\ m_config_load_model file2 = Some m2
  /\ (m1 = m2 -> file2 = file1).
Proof.
  intros Hd H1 H2.
  destruct (save_model_inv m1 env1 file file1 log1 H1) as (A1 & B1 & _).
  destruct (save_model_inv m2 env2 file1 file2 log2 H2) as (A2 & B2 & ->).
  rewrite (save_model_ok m1 env1 file A1 B1 Hd) in H1. injection H1 as <-.
  rewrite (save_model_ok m2 env2 _ A2 B2 (saved_file_distinct file m1 Hd)) in H2.
  injection H2 as <-.
  cbn [root_members]. rewrite other_members_idem by reflexivity.
  split; [apply save_model_ok; assumption |]. split.
  - unfold m_config_load_model. simpl.
    unfold json_object_has_member, json_object_get_string_member.
    rewrite get_member_app_fresh by apply other_members_names.
    simpl. reflexivity.
  - intros ->. reflexivity.
Qed.

Lemma save_model_last_wins_witness :
  distinct_members sample_config
  /\ m_config_load_model
       (ParseOk (Some (JObject [("theme", JString "dark"); ("retries", JInt 3);
                                ("model", JString "gpt-4.1")])))
     = Some "gpt-4.1".
Proof.
  split; [exact sample_config_distinct |].
  exact (proj1 (proj2
    (save_model_last_wins "gpt-4o-mini" "gpt-4.1" ok_env ok_env sample_config
       _ _ [] [] sample_config_distinct eq_refl eq_refl))).
Defined.











(** A token count that passes the test of the loaders is the count of a
    vector with at least six strings. *)
Lemma token_count_six (tokens : list string) :
  (6 <=? to_gint (g_strv_length tokens)) = true ->
  exists t0 t1 t2 t3 t4 t5 rest, tokens = t0 :: t1 :: t2 :: t3 :: t4 :: t5 :: rest.
Proof.
  intros H. apply Z.leb_le in H.
  assert (Hlen : (6 <= List.length tokens)%nat).
  { unfold to_gint, g_strv_length, to_guint, guint_modulus in H.
    cbv zeta in H.
    change (2 ^ 32) with 4294967296 in H. change (2 ^ 31) with 2147483648 in H.
    assert (Hb : 0 <= Z.of_nat (List.length tokens) mod 4294967296 < 4294967296)
      by (apply Z.mod_pos_bound; lia).
    assert (Hle : Z.of_nat (List.length tokens) mod 4294967296
                  <= Z.of_nat (List.length tokens))
      by (apply Z.mod_le; lia).
    rewrite Z.mod_mod in H by lia.
    destruct (Z.of_nat (List.length tokens) mod 4294967296 <? 2147483648); lia. }
  destruct tokens as [| t0 [| t1 [| t2 [| t3 [| t4 [| t5 rest]]]]]];
    simpl in Hlen; try lia.
  repeat eexists.
Qed.

(** The loop of the first [load_api_key] and the loop of
    [m_config_load_api_key] return the same key. *)
Lemma load_api_key_lines_scan (lines : list string) :
  Legacy.load_api_key_lines lines = scan_authinfo_lines lines.
Proof.
  induction lines as [| line lines IH]; [reflexivity |].
  cbn [Legacy.load_api_key_lines scan_authinfo_lines]. unfold parse_authinfo_line.
  destruct line as [| c s]; [exact IH |].
  match goal with |- context [if ?b then _ else _] => destruct b eqn:E end;
    [| exact IH].
  repeat (apply andb_prop in E; destruct E as [E _]).
  apply token_count_six in E. destruct E as (t0 & t1 & t2 & t3 & t4 & t5 & rest & ->).
  reflexivity.
Qed.

(** The [load_api_key] of the first m-msg-composer-extension.c and
    [m_config_load_api_key], which replaced it, return the same key and
    log the same warning for every secrets file. *)
Theorem legacy_load_api_key_agrees (file : ReadResult) :
  Legacy.load_api_key file = m_config_load_api_key file.
Proof.
  destruct file as [message | content]; [reflexivity |].
  unfold Legacy.load_api_key, m_config_load_api_key, authinfo_lines.
  rewrite load_api_key_lines_scan. reflexivity.
Qed.

(* ===================================================================== *)
(** ** Further properties: m-ui-actions.c *)
(* ===================================================================== *)

Lemma validate_entry_complete (i : Z) (e : EUIActionEntry) :
  is_complete (fst (validate_entry i e)) = true.
Proof.
  unfold validate_entry, is_complete.
  destruct (name e), (label e), (tooltip e); reflexivity.
Qed.

Lemma validate_entry_fix (i : Z) (e : EUIActionEntry) :
  is_complete e = true -> validate_entry i e = (e, []).
Proof.
  unfold validate_entry, is_complete. destruct e as [n ic l a t act pt s cs].
  simpl. destruct n, l, t; try discriminate. reflexivity.
Qed.

Lemma validate_entry_warnings (i : Z) (e : EUIActionEntry) :
  List.length (snd (validate_entry i e)) = if has_no_name e then 1%nat else 0%nat.
Proof. unfold validate_entry, has_no_name. destruct (name e); reflexivity. Qed.

(** The validation loop over an array that [count] covers: every entry
    comes out complete, with one warning for each entry without a name. *)
Lemma validate_from_covered (count : Z) (arr : list EUIActionEntry) :
  count < guint_modulus ->
  forall i,
    0 <= i -> i + Z.of_nat (List.length arr) <= count ->
    forallb is_complete (fst (validate_from i count arr)) = true
    /\ List.length (snd (validate_from i count arr))
       = List.length (filter has_no_name arr).
Proof.
  intros Hc. induction arr as [| e arr IH]; intros i Hi Hlen;
    cbn [validate_from]; [split; reflexivity |].
  cbn [List.length] in Hlen.
  replace (i <? count) with true by (symmetry; apply Z.ltb_lt; lia).
  pose proof (validate_entry_complete i e) as He.
  pose proof (validate_entry_warnings i e) as Hw.
  destruct (validate_entry i e) as [e' w].
  rewrite to_guint_small by lia.
  destruct (IH (i + 1)) as [IHc IHw]; [lia | lia |].
  destruct (validate_from (i + 1) count arr) as [rest' w'].
  cbn [fst snd] in *. split.
  - cbn [forallb]. rewrite He, IHc. reflexivity.
  - rewrite length_app, Hw, IHw. cbn [filter].
    destruct (has_no_name e); reflexivity.
Qed.

Lemma validate_from_fix (count : Z) (arr : list EUIActionEntry) :
  forallb is_complete arr = true ->
  forall i, validate_from i count arr = (arr, []).
Proof.
  induction arr as [| e arr IH]; intros H i; cbn [validate_from]; [reflexivity |].
  cbn [forallb] in H. apply andb_prop in H. destruct H as [He Harr].
  destruct (i <? count); [| reflexivity].
  rewrite (validate_entry_fix i e He), (IH Harr). reflexivity.
Qed.




(** [validate_entries] changes nothing that is already complete: on an
    array whose entries all have a name, a label and a tooltip it returns
    the array as it is and logs nothing, whatever [count] is; so
    validating twice is validating once. *)
Theorem validate_entries_idempotent (arr : list EUIActionEntry) (count : Z) :
  (forallb is_complete arr = true -> validate_entries arr count = (arr, []))
  /\ (Z.of_nat (List.length arr) <= count < 2 ^ 32 ->
      validate_entries (fst (validate_entries arr count)) count
      = (fst (validate_entries arr count), [])).
Proof.
  split.
  - intros H. apply validate_from_fix. exact H.
  - intros [Hlen Hc]. change (2 ^ 32) with guint_modulus in Hc.
    apply validate_from_fix.
    apply (validate_from_covered count arr Hc 0); lia.
Qed.

Lemma validate_entries_idempotent_witness :
  Z.of_nat (List.length [zero_entry; create_menu_entry]) <= 2 < 2 ^ 32
  /\ validate_entries (fst (validate_entries [zero_entry; create_menu_entry] 2)) 2
     = (fst (validate_entries [zero_entry; create_menu_entry] 2), []).
Proof.
  assert (H : Z.of_nat (List.length [zero_entry; create_menu_entry]) <= 2 < 2 ^ 32)
    by (simpl; lia).
  split; [exact H |].
  exact (proj2 (validate_entries_idempotent [zero_entry; create_menu_entry] 2) H).
Defined.

Lemma validate_entry_named (i : Z) (e : EUIActionEntry) :
  name e <> None -> validate_entry i e = (backfill e, []).
Proof.
  unfold backfill, validate_entry. destruct (name e); [reflexivity | contradiction].
Qed.

Lemma validate_from_named_map (count : Z) (arr : list EUIActionEntry) :
  count < guint_modulus ->
  Forall (fun e => name e <> None) arr ->
  forall i,
    0 <= i -> i + Z.of_nat (List.length arr) <= count ->
    validate_from i count arr = (map backfill arr, []).
Proof.
  intros Hc. induction 1 as [| e arr He Harr IH]; intros i Hi Hlen;
    cbn [validate_from]; [reflexivity |].
  cbn [List.length] in Hlen.
  replace (i <? count) with true by (symmetry; apply Z.ltb_lt; lia).
  rewrite (validate_entry_named i e He), to_guint_small by lia.
  rewrite IH by lia. reflexivity.
Qed.

Lemma raw_entries_named (prompts : JsonArray) (action_context : MUIActionContext) :
  Forall (fun e => name e <> None) (raw_entries prompts action_context).
Proof.
  unfold raw_entries. apply Forall_app. split.
  - apply Forall_forall. intros e He. apply in_map_iff in He.
    destruct He as (p & <- & _). discriminate.
  - apply Forall_app. split.
    + repeat constructor; discriminate.
    + apply Forall_forall. intros e He. apply in_map_iff in He.
      destruct He as (m & <- & _). discriminate.
Qed.

Lemma raw_entries_length (prompts : JsonArray) (action_context : MUIActionContext) :
  List.length (raw_entries prompts action_context)
  = (List.length prompts + (3 + List.length (ctx_models action_context)))%nat.
Proof. unfold raw_entries. rewrite !length_app, !length_map. reflexivity. Qed.

(** The entry set [m_ui_build_action_entries] returns for a non-empty
    prompt array, field by field. *)
Lemma build_entries_shape (prompts : JsonArray) (action_context : MUIActionContext) :
  prompts <> [] ->
  Z.of_nat (List.length prompts) + 3
  + Z.of_nat (List.length (ctx_models action_context)) < guint_modulus ->
  m_ui_build_action_entries (Some prompts) action_context
  = (Some {| entries := map backfill (raw_entries prompts action_context);
             MUiActions.count := Z.of_nat (List.length prompts);
             total_count := Z.of_nat (List.length prompts) + 3
                            + Z.of_nat (List.length (ctx_models action_context));
             eui_xml := Some (build_eui_xml prompts (ctx_models action_context)
                                (ctx_model action_context)) |}, []).
Proof.
  intros Hne Hroom.
  assert (Hmod : guint_modulus = 4294967296) by reflexivity.
  pose proof (build_fill prompts action_context Hroom) as Hfill.
  cbv zeta in Hfill. fold (raw_entries prompts action_context) in Hfill.
  pose proof (raw_entries_length prompts action_context) as Hlen.
  pose proof (raw_entries_named prompts action_context) as Hnamed.
  unfold m_ui_build_action_entries, json_array_get_length, g_list_length,
    prompt_indices, g_new0_entries, validate_entries.
  set (N := List.length prompts) in *.
  set (M := List.length (ctx_models action_context)) in *.
  assert (HN : (0 < N)%nat)
    by (unfold N; destruct prompts; [contradiction | simpl; lia]).
  rewrite (to_guint_small (Z.of_nat N)) by lia.
  rewrite (to_guint_small (Z.of_nat M)) by lia.
  rewrite (to_guint_small (Z.of_nat N + 3 + Z.of_nat M)) by lia.
  replace (Z.of_nat N =? 0) with false by (symmetry; apply Z.eqb_neq; lia).
  rewrite Nat2Z.id.
  replace (Z.to_nat (Z.of_nat N + 3 + Z.of_nat M)) with (N + (3 + M))%nat by lia.
  match goal with
  | |- context [validate_from 0 ?c (fst ?filled_state)] =>
      replace (fst filled_state) with (raw_entries prompts action_context)
        by (symmetry; exact Hfill)
  end.
  rewrite (validate_from_named_map (Z.of_nat N + 3 + Z.of_nat M)
             (raw_entries prompts action_context)) by (try assumption; lia).
  reflexivity.
Qed.

Lemma backfill_complete (e : EUIActionEntry) : is_complete (backfill e) = true.
Proof. apply validate_entry_complete. Qed.

Lemma forallb_map_true {A B : Type} (f : A -> B) (p : B -> bool) (l : list A) :
  (forall x, p (f x) = true) -> forallb p (map f l) = true.
Proof. intros H. induction l as [| x l IH]; simpl; [reflexivity | rewrite H, IH; reflexivity]. Qed.

(** Whatever the prompt array holds (objects without a name, numbers,
    nulls) and whatever the model list holds, every entry of the set
    [m_ui_build_action_entries] builds has a name, a label and a tooltip;
    nothing is skipped and no warning is logged. *)
Theorem built_entries_complete (prompts : JsonArray)
  (action_context : MUIActionContext) :
  prompts <> [] ->
  Z.of_nat (List.length prompts) + 3
  + Z.of_nat (List.length (ctx_models action_context)) < 2 ^ 32 ->
  exists built,
    m_ui_build_action_entries (Some prompts) action_context = (Some built, [])
    /\ forallb is_complete (entries built) = true
    /\ firstn (List.length prompts) (map name (entries built))
       = map (fun p => Some ("ai-proofread-" ++ prompt_key p)) prompts.
Proof.
  intros Hne Hroom. eexists. split; [apply build_entries_shape; assumption |].
  cbn [entries]. split.
  - apply forallb_map_true. exact backfill_complete.
  - unfold raw_entries. rewrite !map_app, !map_map.
    rewrite <- (length_map (fun x => name (backfill (create_prompt_entry (node_object x)))) prompts) at 1.
    rewrite firstn_app, firstn_all, Nat.sub_diag. cbn [firstn].
    rewrite app_nil_r. reflexivity.
Qed.

Lemma built_entries_complete_witness :
  [JInt 42; JNull] <> []
  /\ Z.of_nat (List.length [JInt 42; JNull]) + 3
     + Z.of_nat (List.length (ctx_models sample_context)) < 2 ^ 32
  /\ exists built,
       m_ui_build_action_entries (Some [JInt 42; JNull]) sample_context
       = (Some built, [])
       /\ forallb is_complete (entries built) = true
       /\ firstn (List.length [JInt 42; JNull]) (map name (entries built))
          = map (fun p => Some ("ai-proofread-" ++ prompt_key p)) [JInt 42; JNull].
Proof.
  assert (H1 : [JInt 42; JNull] <> []) by discriminate.
  assert (H2 : Z.of_nat (List.length [JInt 42; JNull]) + 3
               + Z.of_nat (List.length (ctx_models sample_context)) < 2 ^ 32)
    by (vm_compute; reflexivity).
  split; [exact H1 |]. split; [exact H2 |].
  exact (built_entries_complete [JInt 42; JNull] sample_context H1 H2).
Defined.

Lemma skipn_length_app {A : Type} (l1 l2 : list A) :
  skipn (List.length l1) (l1 ++ l2)%list = l2.
Proof. induction l1 as [| x l1 IH]; simpl; [reflexivity | exact IH]. Qed.

Lemma model_entry_label (current m : option string) :
  label (backfill (create_model_entry m (g_strcmp0 m current =? 0)))
  = model_label current m.
Proof.
  unfold backfill, validate_entry, create_model_entry, model_label, g_strdup.
  cbn [name label tooltip fst].
  destruct (g_strcmp0 m current =? 0); [reflexivity |]. destruct m; reflexivity.
Qed.

(** The current-model marker: in a built entry set the entries after the
    prompts and the three structural actions are the model entries, in
    the order of the model list, and the entry of a model carries the
    check mark exactly when the model is the selected one; every other
    model entry is labelled with its id. *)
Theorem built_model_labels (prompts : JsonArray)
  (action_context : MUIActionContext) :
  prompts <> [] ->
  Z.of_nat (List.length prompts) + 3
  + Z.of_nat (List.length (ctx_models action_context)) < 2 ^ 32 ->
  exists built,
    m_ui_build_action_entries (Some prompts) action_context = (Some built, [])
    /\ map label (skipn (List.length prompts + 3) (entries built))
       = map (model_label (ctx_model action_context)) (ctx_models action_context)
    /\ map name (skipn (List.length prompts + 3) (entries built))
       = map (fun m => Some ("ai-model-" ++ fmt_s m)) (ctx_models action_context).
Proof.
  intros Hne Hroom. eexists. split; [apply build_entries_shape; assumption |].
  cbn [entries]. unfold raw_entries.
  set (P := map (fun p => create_prompt_entry (node_object p)) prompts).
  set (M3 := [create_menu_entry; create_dropdown_entry;
              create_model_menu_entry (ctx_model action_context)]).
  rewrite app_assoc, map_app.
  replace (List.length prompts + 3)%nat
    with (List.length (map backfill (P ++ M3)%list))
    by (unfold P, M3; rewrite length_map, length_app, length_map; reflexivity).
  rewrite skipn_length_app, !map_map. split.
  - apply map_ext. intros m. apply model_entry_label.
  - apply map_ext. intros m. reflexivity.
Qed.

Lemma built_model_labels_witness :
  one_prompt <> []
  /\ Z.of_nat (List.length one_prompt) + 3
     + Z.of_nat (List.length (ctx_models sample_context)) < 2 ^ 32
  /\ exists built,
       m_ui_build_action_entries (Some one_prompt) sample_context = (Some built, [])
       /\ map label (skipn (List.length one_prompt + 3) (entries built))
          = [Some "gpt-4o"; Some "✓ gpt-4o-mini"].
Proof.
  assert (H1 : one_prompt <> []) by discriminate.
  assert (H2 : Z.of_nat (List.length one_prompt) + 3
               + Z.of_nat (List.length (ctx_models sample_context)) < 2 ^ 32)
    by (vm_compute; reflexivity).
  split; [exact H1 |]. split; [exact H2 |].
  destruct (built_model_labels one_prompt sample_context H1 H2)
    as (built & Hb & Hl & _).
  exists built. split; [exact Hb |]. exact Hl.
Defined.

Lemma nodup_map_injective {A B : Type} (f : A -> B) (l : list A) :
  (forall x y, f x = f y -> x = y) -> NoDup l -> NoDup (map f l).
Proof.
  intros Hinj. induction 1 as [| x l Hx Hl IH]; simpl; constructor; [| exact IH].
  intros Hin. apply in_map_iff in Hin. destruct Hin as (y & Hy & Hiny).
  apply Hinj in Hy. subst y. contradiction.
Qed.

Lemma backfill_name (e : EUIActionEntry) : name e <> None -> name (backfill e) = name e.
Proof. unfold backfill, validate_entry. destruct (name e); [reflexivity | contradiction]. Qed.

Lemma built_names (prompts : JsonArray) (action_context : MUIActionContext) :
  map name (map backfill (raw_entries prompts action_context))
  = (map (fun k => Some ("ai-proofread-" ++ k)%string) (map prompt_key prompts)
     ++ [Some "ai-menu"; Some "ai-proofread-dropdown"; Some "ai-model-menu"]
     ++ map (fun k => Some ("ai-model-" ++ k)%string)
          (map fmt_s (ctx_models action_context)))%list.
Proof. unfold raw_entries. rewrite !map_app, !map_map. reflexivity. Qed.

(** Action names are distinct when the registry allows it: if the names
    the prompts print as are distinct and none of them is dropdown, and
    the ids the models print as are distinct and none of them is menu,
    then no two entries of the built set have the same name. *)
Theorem built_names_distinct (prompts : JsonArray)
  (action_context : MUIActionContext) :
  prompts <> [] ->
  Z.of_nat (List.length prompts) + 3
  + Z.of_nat (List.length (ctx_models action_context)) < 2 ^ 32 ->
  NoDup (map prompt_key prompts) ->
  ~ In "dropdown" (map prompt_key prompts) ->
  NoDup (map fmt_s (ctx_models action_context)) ->
  ~ In "menu" (map fmt_s (ctx_models action_context)) ->
  exists built,
    m_ui_build_action_entries (Some prompts) action_context = (Some built, [])
    /\ NoDup (map name (entries built)).
Proof.
  intros Hne Hroom Hp Hdrop Hm Hmenu.
  eexists. split; [apply build_entries_shape; assumption |].
  cbn [entries]. rewrite built_names.
  set (keys := map prompt_key prompts) in *.
  set (ids := map fmt_s (ctx_models action_context)) in *.
  apply NoDup_app.
  - apply nodup_map_injective; [| exact Hp]. intros x y H. cbn in H. congruence.
  - apply NoDup_app.
    + repeat constructor; simpl; intuition discriminate.
    + apply nodup_map_injective; [| exact Hm]. intros x y H. cbn in H. congruence.
    + intros a [<- | [<- | [<- | []]]] Hin; apply in_map_iff in Hin;
        destruct Hin as (k & Hk & Hink); cbn in Hk; try discriminate Hk.
      assert (k = "menu") by congruence. subst k. exact (Hmenu Hink).
  - intros a Ha Hin. apply in_map_iff in Ha. destruct Ha as (k & <- & Hink).
    apply in_app_or in Hin. destruct Hin as [Hin | Hin].
    + destruct Hin as [H | [H | [H | []]]]; cbn in H; try discriminate H.
      assert (k = "dropdown") by congruence. subst k. exact (Hdrop Hink).
    + apply in_map_iff in Hin. destruct Hin as (j & H & _). cbn in H. discriminate H.
Qed.

Lemma built_names_distinct_witness :
  exists built,
    m_ui_build_action_entries (Some one_prompt) sample_context = (Some built, [])
    /\ NoDup (map name (entries built)).
Proof.
  apply (built_names_distinct one_prompt sample_context).
  - discriminate.
  - vm_compute. reflexivity.
  - repeat constructor. intros [].
  - simpl. intuition discriminate.
  - repeat constructor; simpl; intuition discriminate.
  - simpl. intuition discriminate.
Defined.

(* ===================================================================== *)
(** ** Further properties: the callbacks and the start of the extension *)
(* ===================================================================== *)

Import MUiCallbacks.

Lemma g_str_has_prefix_nil (s : string) : g_str_has_prefix s "" = true.
Proof. destruct s; reflexivity. Qed.

(** Selecting a model action is the inverse of building it: activating
    the action that [create_model_entry] made for the model [id] sets the
    model of the context to [id] and leaves its other fields alone; when
    the directory and the file can be written, config.json then loads as
    [id], and when they cannot, config.json is untouched although the
    context has changed.  Only model actions select a model: run on the
    name of a prompt action, the callback changes neither the context
    nor config.json and logs nothing. *)
Theorem select_model_roundtrip (ctx : MUIActionContext) (id : string)
  (is_current : bool) (env : SaveEnv) (file : ParseResult) :
  (exists file' log,
      action_select_model_cb (Some ctx)
        (name (create_model_entry (Some id) is_current)) env file
      = (Some {| ctx_prompts := ctx_prompts ctx; ctx_api_key := ctx_api_key ctx;
                 ctx_model := Some id; ctx_models := ctx_models ctx |},
         file', log)
      /\ (mkdir_status env = 0 -> write_error env = None ->
          m_config_load_model file' = Some id)
      /\ (mkdir_status env <> 0 \/ write_error env <> None -> file' = file))
  /\ (forall prompt,
        action_select_model_cb (Some ctx) (name (create_prompt_entry prompt))
          env file
        = (Some ctx, file, [])).
Proof.
  split; [| intros prompt; reflexivity].
  unfold action_select_model_cb, create_model_entry. cbn [name fmt_s].
  cbn [g_str_has_prefix String.append Ascii.eqb Bool.eqb andb String.length skip_bytes].
  rewrite g_str_has_prefix_nil.
  unfold m_ui_action_context_set_model, g_strdup.
  destruct (m_config_save_model (Some id) env file) as [[ok file'] log] eqn:E.
  exists file', log. split; [reflexivity |]. split.
  - intros Hm Hw.
    assert (Hok : ok = true).
    { revert E. unfold m_config_save_model. rewrite Hm, Hw. simpl.
      intros H. injection H as <- _ _. reflexivity. }
    subst ok.
    destruct (save_model_success id env file file' log E) as (saved & -> & Hmodel & _).
    unfold m_config_load_model. simpl.
    unfold json_object_has_member, json_object_get_string_member.
    rewrite Hmodel. reflexivity.
  - intros Hfail. revert E. unfold m_config_save_model.
    destruct (Z.eqb_spec (mkdir_status env) 0) as [Hm | Hm]; simpl.
    + destruct (write_error env) as [message |].
      * intros H. injection H as _ <- _. reflexivity.
      * destruct Hfail as [H | H]; contradiction.
    + intros H. injection H as _ <- _. reflexivity.
Qed.

Lemma select_model_roundtrip_witness :
  mkdir_status ok_env = 0
  /\ write_error ok_env = None
  /\ exists file' log,
       action_select_model_cb (Some sample_context) (Some "ai-model-gpt-4o")
         ok_env sample_config
       = (Some {| ctx_prompts := ctx_prompts sample_context;
                  ctx_api_key := ctx_api_key sample_context;
                  ctx_model := Some "gpt-4o";
                  ctx_models := ctx_models sample_context |}, file', log)
       /\ m_config_load_model file' = Some "gpt-4o".
Proof.
  split; [reflexivity |]. split; [reflexivity |].
  destruct (proj1 (select_model_roundtrip sample_context "gpt-4o" false ok_env
                     sample_config))
    as (file' & log & Hrun & Hload & _).
  exists file', log. split; [exact Hrun | exact (Hload eq_refl eq_refl)].
Defined.

(** The dropdown and the menu bar agree. For a registered context and a
    composer, [action_dropdown_cb] offers one item per prompt, in order,
    labelled with the prompt's name and carrying the name of the prompt's
    action entry; and activating an item starts the proofreading with the
    very arguments the prompt's menu action would start it with. *)
Theorem dropdown_matches_entries (content_editor_of : Widget -> option Widget)
  (ctx : MUIActionContext) (prompts : JsonArray) (user_data : UserData) :
  ctx_prompts ctx = Some prompts ->
  Z.of_nat (List.length prompts) < 2 ^ 32 ->
  ud_is_msg_composer user_data = true ->
  exists items,
    action_dropdown_cb content_editor_of (Some ctx) (Some user_data)
    = (Some items, [])
    /\ map mi_user_data items
       = map (fun p => name (create_prompt_entry (node_object p))) prompts
    /\ map mi_label items
       = map (fun p => label (create_prompt_entry (node_object p))) prompts
    /\ forall item,
         In item items ->
         menu_item_activate_cb content_editor_of (Some ctx)
           (mi_user_data item) (Some (mi_composer item))
         = fst (action_proofread_cb content_editor_of (Some ctx)
                  (mi_user_data item) (Some user_data)).
Proof.
  intros Hp Hlen Hud. unfold action_dropdown_cb, get_composer_from_user_data.
  rewrite Hud, Hp. cbn [negb]. eexists. split; [reflexivity |].
  unfold json_array_get_length, prompt_indices.
  rewrite to_guint_small by (change guint_modulus with (2 ^ 32); lia).
  rewrite Nat2Z.id. split; [| split].
  - rewrite map_map.
    exact (map_indices
             (fun o => Some ("ai-proofread-"
                             ++ fmt_s (json_object_get_string_member o "name")))
             prompts).
  - rewrite map_map.
    exact (map_indices (fun o => json_object_get_string_member o "name") prompts).
  - intros item Hin. apply in_map_iff in Hin. destruct Hin as (i & <- & _).
    unfold menu_item_activate_cb, action_proofread_cb, get_composer_from_user_data.
    rewrite Hud. reflexivity.
Qed.

Lemma dropdown_matches_entries_witness :
  ctx_prompts sample_context = Some one_prompt
  /\ Z.of_nat (List.length one_prompt) < 2 ^ 32
  /\ ud_is_msg_composer sample_user_data = true
  /\ exists items,
       action_dropdown_cb sample_editor_of (Some sample_context)
         (Some sample_user_data) = (Some items, [])
       /\ map mi_user_data items = [Some "ai-proofread-fix"].
Proof.
  assert (H2 : Z.of_nat (List.length one_prompt) < 2 ^ 32) by (vm_compute; reflexivity).
  split; [reflexivity |]. split; [exact H2 |]. split; [reflexivity |].
  destruct (dropdown_matches_entries sample_editor_of sample_context one_prompt
              sample_user_data eq_refl H2 eq_refl) as (items & Hi & Hu & _).
  exists items. split; [exact Hi | exact Hu].
Defined.



Import MExtensionInit.

(** The extension coming to life. Without a key in the secrets file the
    model list is never fetched and no UI is registered; with a prompts
    file that does not give a non-empty array no UI is registered either;
    otherwise the UI is registered with one entry per prompt, one per
    fetched model and three structural ones, all complete, also when the
    model listing failed. *)
Theorem extension_startup_registers
  (fetch : option string -> list (option string) * option string)
  (prompts_file : ParseResult) (authinfo : ReadResult) (config_file : ParseResult) :
  (fst (m_config_load_api_key authinfo) = None ->
   snd (m_msg_composer_extension_init fetch prompts_file authinfo config_file) = []
   /\ extension_startup fetch prompts_file authinfo config_file = None)
  /\ ((forall p ps, prompts_file <> ParseOk (Some (JArray (p :: ps)))) ->
      extension_startup fetch prompts_file authinfo config_file = None)
  /\ (forall p ps key,
         prompts_file = ParseOk (Some (JArray (p :: ps))) ->
         fst (m_config_load_api_key authinfo) = Some key ->
         Z.of_nat (List.length (p :: ps)) + 3
         + Z.of_nat (List.length (fst (fetch (Some key)))) < 2 ^ 32 ->
         exists registered,
           extension_startup fetch prompts_file authinfo config_file
           = Some registered
           /\ List.length registered
              = (List.length (p :: ps)
                 + List.length (fst (fetch (Some key))) + 3)%nat
           /\ forallb is_complete registered = true).
Proof.
  unfold extension_startup, m_msg_composer_extension_init.
  destruct (m_config_load_api_key authinfo) as [key log2] eqn:Ek.
  split; [| split].
  - cbn [fst]. intros ->.
    destruct (m_config_load_prompts prompts_file) as [prompts log1].
    split; [reflexivity |].
    unfold MExtension.m_msg_composer_extension_add_ui, MExtension.validate_configuration.
    cbn. destruct prompts as [p |]; [| reflexivity].
    destruct (json_array_get_length p =? 0); reflexivity.
  - intros Hnot.
    assert (Hp : fst (m_config_load_prompts prompts_file) = Some []).
    { destruct prompts_file as [message | [[] |]]; try reflexivity.
      destruct elements as [| p ps]; [reflexivity |].
      exfalso. exact (Hnot p ps eq_refl). }
    destruct (m_config_load_prompts prompts_file) as [prompts log1].
    cbn [fst] in Hp. subst prompts.
    destruct key as [k |]; [destruct (fetch (Some k)) as [models error] |];
      reflexivity.
  - intros p ps k -> Hk Hroom. cbn [fst] in Hk. subst key.
    cbn [m_config_load_prompts JSON_NODE_HOLDS_ARRAY json_node_get_array].
    destruct (fetch (Some k)) as [models error]. cbn [fst] in Hroom.
    unfold MExtension.m_msg_composer_extension_add_ui, MExtension.validate_configuration.
    cbn [MExtension.prompts MExtension.chatgpt_api_key MExtension.model
         MExtension.models].
    assert (Hn : (json_array_get_length (p :: ps) =? 0) = false).
    { unfold json_array_get_length.
      rewrite to_guint_small by (change guint_modulus with (2 ^ 32); lia).
      apply Z.eqb_neq. simpl List.length. lia. }
    rewrite Hn. cbn [negb].
    set (ctx := m_ui_action_context_new (Some (p :: ps)) (Some k)
                  (m_config_load_model config_file) models).
    assert (Hm : ctx_models ctx = models)
      by (unfold ctx, m_ui_action_context_new, g_strdup; cbn; apply map_id).
    assert (Hs := build_entries_shape (p :: ps) ctx ltac:(discriminate)
                    ltac:(rewrite Hm; exact Hroom)).
    unfold JsonArray in Hs. rewrite Hs.
    cbn [fst entries total_count]. eexists. split; [reflexivity |].
    assert (Hlen : List.length (map backfill (raw_entries (p :: ps) ctx))
                   = Z.to_nat (Z.of_nat (List.length (p :: ps)) + 3
                               + Z.of_nat (List.length (ctx_models ctx)))).
    { rewrite length_map, raw_entries_length. lia. }
    rewrite <- Hlen, firstn_all. split.
    + rewrite length_map, raw_entries_length, Hm. lia.
    + apply forallb_map_true. exact backfill_complete.
Qed.

Lemma extension_startup_registers_witness :
  exists registered,
    extension_startup fetch_fails (ParseOk (Some (JArray one_prompt)))
      (ReadOk sample_authinfo) (ParseError "No such file")
    = Some registered
    /\ List.length registered = 4%nat
    /\ forallb is_complete registered = true.
Proof.
  exact (proj2 (proj2
    (extension_startup_registers fetch_fails (ParseOk (Some (JArray one_prompt)))
       (ReadOk sample_authinfo) (ParseError "No such file")))
    _ _ "XYZ123" eq_refl eq_refl ltac:(vm_compute; reflexivity)).
Defined.

(* ===================================================================== *)
(** ** Further properties: the proofreading workflow *)
(* ===================================================================== *)

(** Clearing the wait indicator is complete and idempotent: after
    [proofreader_wait_indicator_clear], in whatever state it ran, the
    context holds neither a timer id nor a dialog, and a second clear
    changes nothing and does nothing. *)
Theorem wait_indicator_clear_idempotent (st : St) :
  let st' := snd (fst (proofreader_wait_indicator_clear st)) in
  wait_timeout_id (ctx st') = 0
  /\ wait_dialog (ctx st') = None
  /\ proofreader_wait_indicator_clear st' = (tt, st', []).
Proof.
  destruct st as [c tk tos t0 sid wins wid open_ms].
  destruct c as [ed pid prm key mdl comp dlg tid].
  run. destruct (tid =? 0) eqn:E; [apply Z.eqb_eq in E; subst tid |]; run;
    try destruct (source_attached tid tos); run;
    destruct dlg as [d |]; run; rewrite ?E; run;
    repeat split; reflexivity.
Qed.

(** The wait timer is armed at most once: one call of
    [proofreader_wait_indicator_schedule], in whatever state it runs,
    adds at most one timeout source; afterwards the context holds a
    timer id or a dialog, and a second call adds no timer and changes
    nothing. *)
Theorem wait_indicator_schedule_once (st : St) :
  let st' := snd (fst (proofreader_wait_indicator_schedule st)) in
  proofreader_wait_indicator_schedule st' = (tt, st', [])
  /\ (count is_timeout_add (events proofreader_wait_indicator_schedule st) <= 1)%nat
  /\ (wait_timeout_id (ctx st') <> 0 \/ wait_dialog (ctx st') <> None).
Proof.
  destruct st as [c tk tos t0 sid wins wid open_ms].
  destruct c as [ed pid prm key mdl comp dlg tid].
  unfold events, count.
  destruct (tid =? 0) eqn:E.
  - apply Z.eqb_eq in E. subst tid. destruct dlg as [d |].
    + run.
      split; [reflexivity |].
      split; [cbn [filter is_timeout_add List.length]; lia | right; discriminate].
    + run.
      split; [reflexivity |].
      split; [cbn [filter is_timeout_add List.length app]; lia | left; discriminate].
  - run. rewrite E. run. rewrite E. run.
    split; [reflexivity |].
    split; [cbn [filter is_timeout_add List.length]; lia |].
    left. apply Z.eqb_neq. exact E.
Qed.

(** When the content cannot be retrieved, the workflow ends quietly: on
    an error of the editor (even if a content hash comes with it) and on
    a missing content hash, the whole invocation is the content request,
    one logged warning and the release of the context; no timer is armed,
    no remote call is made and nothing is shown to the user. *)
Theorem content_failure_is_silent oracle (w : World) (args : StartArgs)
  (content : ContentResult) (request_ms : Z) :
  start_ok args = true ->
  cr_error content <> None \/ cr_hash content = None ->
  exists editor warning st,
    a_cnt_editor args = Some editor
    /\ invocation oracle w args content request_ms
       = ([EvGetContent editor; EvLog (LogWarning warning); EvContextFree],
          Some st)
    /\ task st = None
    /\ timeouts st = []
    /\ windows st = w_windows w.
Proof.
  destruct args as [[editor |] [pid |] [prm |] [key |] mdl comp];
    try discriminate.
  intros _ H. destruct w as [t0 sid wins wid open_ms].
  exists editor.
  destruct content as [[message |] hash].
  - eexists _, _. split; [reflexivity |].
    unfold invocation, m_proofreader_start. run. 
    split; [reflexivity |]. repeat split.
  - destruct hash as [content |].
    + destruct H as [H | H]; [contradiction H; reflexivity | discriminate H].
    + eexists _, _. split; [reflexivity |].
      unfold invocation, m_proofreader_start. run.
      split; [reflexivity |]. repeat split.
Qed.

Lemma content_failure_is_silent_witness :
  exists editor warning st,
    a_cnt_editor sample_args = Some editor
    /\ invocation remote_text sample_world sample_args
         {| cr_error := Some "editor is gone";
            cr_hash := Some (Some "Helo wrld") |} 100
       = ([EvGetContent editor; EvLog (LogWarning warning); EvContextFree],
          Some st)
    /\ task st = None
    /\ timeouts st = []
    /\ windows st = w_windows sample_world.
Proof.
  assert (H : cr_error {| cr_error := Some "editor is gone";
                          cr_hash := Some (Some "Helo wrld") |} <> None
              \/ cr_hash {| cr_error := Some "editor is gone";
                            cr_hash := Some (Some "Helo wrld") |} = None)
    by (left; discriminate).
  apply (content_failure_is_silent remote_text sample_world sample_args
           {| cr_error := Some "editor is gone";
              cr_hash := Some (Some "Helo wrld") |} 100 eq_refl H).
Defined.

Lemma drop_fresh (wins : list Widget) (wid : positive) :
  (forall x, In x wins -> (x < wid)%positive) ->
  filter (fun x => negb (Pos.eqb x wid)) wins = wins.
Proof.
  induction wins as [| x wins IH]; intros H; [reflexivity |].
  cbn [filter].
  assert (Hx : Pos.eqb x wid = false)
    by (apply Pos.eqb_neq; specialize (H x (or_introl eq_refl)); lia).
  rewrite Hx. cbn [negb]. rewrite IH; [reflexivity |].
  intros y Hy. apply H. right. exact Hy.
Qed.

Lemma drop_new (wins : list Widget) (wid : positive) :
  (forall x, In x wins -> (x < wid)%positive) ->
  filter (fun x => negb (Pos.eqb x wid)) (wid :: wins) = wins.
Proof.
  intros H. cbn [filter]. rewrite Pos.eqb_refl. cbn [negb].
  apply drop_fresh. exact H.
Qed.

Lemma fresh_succ (wins : list Widget) (wid : positive) :
  (forall x, In x wins -> (x < wid)%positive) ->
  forall x, In x wins -> (x < Pos.succ wid)%positive.
Proof. intros H x Hx. specialize (H x Hx). lia. Qed.

(** The final state of an invocation that dispatches: the windows of the
    world are the ones it started with. *)
Lemma invocation_dispatched_windows oracle (w : World) (args : StartArgs)
  (text : string) (request_ms : Z) :
  start_ok args = true ->
  windows_fresh w ->
  exists st,
    snd (invocation oracle w args (text_ready (Some text)) request_ms) = Some st
    /\ windows st = w_windows w.
Proof.
  destruct args as [[editor |] [pid |] [prm |] [key |] mdl comp];
    try discriminate.
  intros _. destruct w as [t0 sid wins wid open_ms].
  unfold windows_fresh. cbn [w_windows w_next_widget]. intros Hfresh.
  pose proof (fresh_succ wins wid Hfresh) as Hfresh'.
  unfold invocation, m_proofreader_start, text_ready, proofread_task_thread,
    m_proofreader_context_new, g_strdup.
  run. cbn [filter due]. rewrite due_by.
  match goal with
  | |- context [oracle ?a ?b ?c ?d ?e] =>
      destruct (oracle a b c d e) as [[proofread_text |] [message |]]
  end.
  all: destruct (timer_fires request_ms);
    cbn [dispatch_sources]; run; rewrite ?source_attached_head; run;
    [ destruct comp as [c |];
      [ unfold GTK_IS_WINDOW; cbn [windows];
        destruct (existsb (Pos.eqb c) wins) | ] | ];
    run; rewrite ?detach_only; run; rewrite ?source_attached_nil; run;
    eexists; (split; [reflexivity |]); cbn [windows];
    rewrite ?(drop_new wins wid Hfresh);
    rewrite ?(drop_new wins (Pos.succ wid) Hfresh');
    reflexivity.
Qed.

(** No window is left behind: in a world whose windows are older than
    the next widget, every invocation that passes the preconditions ends
    with exactly the windows it started with, whatever the content
    callback was handed, whatever the remote call answered and however
    long it took; the wait dialog and the notice it opened are gone. *)
Theorem invocation_leaves_no_window oracle (w : World) (args : StartArgs)
  (content : ContentResult) (request_ms : Z) :
  start_ok args = true ->
  windows_fresh w ->
  exists st,
    snd (invocation oracle w args content request_ms) = Some st
    /\ windows st = w_windows w.
Proof.
  intros Hok Hfresh.
  destruct content as [[message |] [[text |] |]].
  4: exact (invocation_dispatched_windows oracle w args text request_ms Hok Hfresh).
  all: destruct args as [[editor |] [pid |] [prm |] [key |] mdl comp];
    try discriminate Hok;
    destruct w as [t0 sid wins wid open_ms];
    unfold invocation, m_proofreader_start; run;
    eexists; split; reflexivity.
Qed.

Lemma invocation_leaves_no_window_witness :
  start_ok sample_args = true
  /\ exists st,
       snd (invocation remote_silent sample_world sample_args
              (text_ready (Some "Helo wrld")) 1000) = Some st
       /\ windows st = [7%positive].
Proof.
  split; [reflexivity |].
  assert (Hfresh : windows_fresh sample_world).
  { intros x [<- | []]. reflexivity. }
  exact (invocation_leaves_no_window remote_silent sample_world sample_args
           (text_ready (Some "Helo wrld")) 1000 eq_refl Hfresh).
Defined.

(** The context on a dispatched trace: freed last and once, after one
    content request. *)
Lemma dispatched_trace_life oracle (w : World) (args : StartArgs)
  (text : string) (request_ms : Z) :
  start_ok args = true ->
  let t := dispatched_trace oracle w args text request_ms in
  (exists before,
      t = (before ++ [EvContextFree])%list
      /\ count is_context_free before = 0%nat)
  /\ count is_get_content t = 1%nat.
Proof.
  intros Hok t. subst t. unfold start_ok in Hok.
  destruct (a_cnt_editor args) as [editor |] eqn:Hed; [| discriminate Hok].
  split.
  - exists (dispatch_events w args text ++ waiting_events w args request_ms
            ++ outcome_events w args request_ms (remote_result oracle args text))%list.
    split; [unfold dispatched_trace; rewrite <- !app_assoc; reflexivity |].
    unfold dispatch_events, waiting_events, outcome_events. rewrite Hed.
    destruct (timer_fires request_ms);
      destruct (composer_is_window w (a_composer args));
      destruct (remote_result oracle args text) as [? | [? |]]; reflexivity.
  - unfold dispatched_trace, dispatch_events, waiting_events, outcome_events.
    rewrite Hed.
    destruct (timer_fires request_ms);
      destruct (composer_is_window w (a_composer args));
      destruct (remote_result oracle args text) as [? | [? |]]; reflexivity.
Qed.

(** The life of a context: every invocation that passes the
    preconditions of [m_proofreader_start] requests the content once and
    frees its context exactly once, as the last thing it does, whatever
    the content callback is handed and whatever the remote call answers;
    it runs at most one task, reports exactly one outcome per task, and
    leaves no timeout source attached to the freed context. *)
Theorem invocation_frees_context_once oracle (w : World) (args : StartArgs)
  (content : ContentResult) (request_ms : Z) :
  start_ok args = true ->
  let t := fst (invocation oracle w args content request_ms) in
  (exists before,
      t = (before ++ [EvContextFree])%list
      /\ count is_context_free before = 0%nat)
  /\ count is_get_content t = 1%nat
  /\ (count is_task_run t <= 1)%nat
  /\ count is_outcome t = count is_task_run t
  /\ exists st,
       snd (invocation oracle w args content request_ms) = Some st
       /\ timeouts st = [].
Proof.
  intros Hok.
  destruct content as [[message |] [[text |] |]].
  4: { fold (text_ready (Some text)).
       destruct (invocation_dispatched oracle w args text request_ms Hok)
         as (st & Hrun & Hto & _).
       rewrite Hrun. cbn [fst snd].
       destruct (dispatched_trace_life oracle w args text request_ms Hok)
         as (Hlast & Hget).
       destruct (dispatched_trace_teardown oracle w args text request_ms)
         as (_ & _ & _ & _ & _ & Hout & _ & Htask & _).
       split; [exact Hlast |]. split; [exact Hget |].
       rewrite Hout, Htask. split; [lia |]. split; [reflexivity |].
       exists st. split; [reflexivity | exact Hto]. }
  all: destruct args as [[editor |] [pid |] [prm |] [key |] mdl comp];
    try discriminate Hok;
    destruct w as [t0 sid wins wid open_ms];
    unfold invocation, m_proofreader_start; run;
    (split; [eexists [_; _] + eexists [_]; split; reflexivity |]);
    (split; [reflexivity |]); (split; [unfold count; cbn [filter is_task_run List.length]; lia |]);
    (split; [reflexivity |]); eexists; split; reflexivity.
Qed.

Lemma invocation_frees_context_once_witness :
  start_ok sample_args = true
  /\ count is_context_free
       (fst (invocation remote_error sample_world sample_args
               (text_ready (Some "Helo wrld")) 1000)) = 1%nat.
Proof.
  split; [reflexivity |].
  destruct (invocation_frees_context_once remote_error sample_world sample_args
              (text_ready (Some "Helo wrld")) 1000 eq_refl)
    as ((before & Ht & Hb) & _).
  rewrite Ht. unfold count in *. rewrite filter_app, length_app, Hb. reflexivity.
Defined.

(** What is sent and what comes back: an invocation that retrieved [text]
    hands exactly [text] to the worker; the remote client is called with
    the prompt id, the prompts, the key and the model that
    [m_proofreader_start] was given; and its answer decides the one
    outcome: an error is submitted as an alert on the composer (also
    when a text came with it), a text is inserted into the editor the
    content was requested from, and no answer opens the notice. *)
Theorem outcome_delivered oracle (w : World) (args : StartArgs)
  (text : string) (request_ms : Z) :
  start_ok args = true ->
  let t := fst (invocation oracle w args (text_ready (Some text)) request_ms) in
  filter is_task_run t = [EvTaskRun text]
  /\ filter is_get_content t
     = match a_cnt_editor args with
       | Some editor => [EvGetContent editor]
       | None => []
       end
  /\ filter is_outcome t
     = match oracle text (a_prompt_id args) (a_prompts args) (a_api_key args)
               (a_model args) with
       | (_, Some message) =>
           [EvAlertSubmit (a_composer args) "ai:error-proofreading" message]
       | (Some proofread_text, None) =>
           [EvInsertContent (a_cnt_editor args) proofread_text]
       | (None, None) => [EvDialogRun (notice_dialog w args request_ms)]
       end.
Proof.
  intros Hok.
  destruct (invocation_dispatched oracle w args text request_ms Hok)
    as (st & Hrun & _).
  rewrite Hrun. cbn [fst].
  unfold dispatched_trace, dispatch_events, waiting_events, outcome_events,
    remote_result, proofread_task_thread, m_proofreader_context_new, g_strdup.
  cbn [prompt_id prompts api_key model].
  destruct (oracle text (a_prompt_id args) (a_prompts args) (a_api_key args)
              (a_model args)) as [[proofread_text |] [message |]];
    destruct (a_cnt_editor args);
    destruct (timer_fires request_ms);
    destruct (composer_is_window w (a_composer args));
    repeat split; reflexivity.
Qed.

Lemma outcome_delivered_witness :
  start_ok sample_args = true
  /\ filter is_outcome
       (fst (invocation remote_error sample_world sample_args
               (text_ready (Some "Helo wrld")) 1000))
     = [EvAlertSubmit (Some 7%positive) "ai:error-proofreading" "HTTP 401"].
Proof.
  split; [reflexivity |].
  exact (proj2 (proj2
    (outcome_delivered remote_error sample_world sample_args "Helo wrld" 1000
       eq_refl))).
Defined.

(* ===================================================================== *)
(** ** Further properties: the synchronous snapshot *)
(* ===================================================================== *)

(** The asynchronous workflow reports what the synchronous one did. For
    a remote client whose answer does not depend on the model, and for
    every result of the content request, the asynchronous invocation
    sends the same text to the remote client and produces, in the same
    order, the same warnings, the same outcome (alert, notice or
    insertion, on the same composer and editor) and the same release of
    the context as [m_proofreader_content_ready_cb] of the synchronous
    m-proofreader.c; the wait indicator is all it adds. *)
Theorem async_reports_like_sync
  (oracle : string -> option string -> option JsonArray -> option string ->
            option string * option string)
  (w : World) (args : StartArgs) (content : ContentResult) (request_ms : Z) :
  start_ok args = true ->
  let async := fst (invocation (with_model oracle) w args content request_ms) in
  let sync :=
    Legacy.sync_content_ready_cb oracle (sync_context_of args) content
      (notice_dialog w args request_ms) in
  filter is_report async = filter is_report (sync_ui_events sync)
  /\ task_texts async = sync_calls sync.
Proof.
  intros Hok.
  destruct content as [[message |] [[text |] |]].
  4: { fold (text_ready (Some text)).
       destruct (invocation_dispatched (with_model oracle) w args text request_ms Hok)
         as (st & Hrun & _).
       rewrite Hrun. cbn [fst].
       unfold dispatched_trace, dispatch_events, waiting_events, outcome_events,
         remote_result, proofread_task_thread, m_proofreader_context_new,
         with_model, g_strdup.
       unfold Legacy.sync_content_ready_cb, Legacy.process_proofread_result,
         sync_context_of, text_ready, g_strdup.
       cbn [prompt_id prompts api_key model cr_error cr_hash
            Legacy.s_prompt_id Legacy.s_prompts Legacy.s_api_key
            Legacy.s_composer Legacy.s_cnt_editor].
       destruct (oracle text (a_prompt_id args) (a_prompts args) (a_api_key args))
         as [[proofread_text |] [message |]];
         destruct (a_cnt_editor args);
         destruct (timer_fires request_ms);
         destruct (composer_is_window w (a_composer args));
         split; reflexivity. }
  all: destruct args as [[editor |] [pid |] [prm |] [key |] mdl comp];
    try discriminate Hok;
    destruct w as [t0 sid wins wid open_ms];
    unfold invocation, m_proofreader_start; run; split; reflexivity.
Qed.

Lemma async_reports_like_sync_witness :
  start_ok sample_args = true
  /\ filter is_report
       (fst (invocation (with_model (fun _ _ _ _ => (None, Some "HTTP 401")))
               sample_world sample_args (text_ready (Some "Helo wrld")) 1000))
     = [EvLog (LogWarning "ChatGPT API error: HTTP 401");
        EvAlertSubmit (Some 7%positive) "ai:error-proofreading" "HTTP 401";
        EvContextFree].
Proof.
  split; [reflexivity |].
  rewrite (proj1 (async_reports_like_sync (fun _ _ _ _ => (None, Some "HTTP 401"))
                    sample_world sample_args (text_ready (Some "Helo wrld")) 1000
                    eq_refl)).
  reflexivity.
Defined.

(* ===================================================================== *)
(** ** Further properties: the menu definition and the first loader *)
(* ===================================================================== *)

Lemma append_assoc (a b c : string) : ((a ++ b) ++ c = a ++ (b ++ c))%string.
Proof. induction a as [| x a IH]; cbn; [reflexivity | rewrite IH; reflexivity]. Qed.

Lemma append_nil_r (a : string) : (a ++ "" = a)%string.
Proof. induction a as [| x a IH]; cbn; [reflexivity | rewrite IH; reflexivity]. Qed.

(** The item loops of [build_eui_xml] append one item per element. *)
Lemma fold_items {A : Type} (action_name : A -> option string) (l : list A) :
  forall xml,
    fold_left (fun xml x => xml ++ "<item action='" ++ fmt_s (action_name x) ++ "'/>")
      l xml
    = (xml ++ eui_items (map action_name l))%string.
Proof.
  induction l as [| x l IH]; intros xml; cbn [fold_left map eui_items fold_right].
  - rewrite append_nil_r. reflexivity.
  - rewrite IH. rewrite append_assoc. reflexivity.
Qed.

(** [build_eui_xml] as the fixed parts around the two item lists. *)
Lemma build_eui_xml_items (prompts : JsonArray) (models : list (option string))
  (current_model : option string) :
  Z.of_nat (List.length prompts) < 2 ^ 32 ->
  build_eui_xml prompts models current_model
  = (eui_menu_open
     ++ eui_items (map (fun p => Some ("ai-proofread-" ++ prompt_key p)) prompts)
     ++ eui_model_menu_open
     ++ eui_items (map (fun m => Some ("ai-model-" ++ fmt_s m)) models)
     ++ eui_close)%string.
Proof.
  intros Hlen. unfold build_eui_xml, json_array_get_length, prompt_indices.
  rewrite to_guint_small by (change guint_modulus with (2 ^ 32); lia).
  rewrite Nat2Z.id. cbv zeta.
  rewrite (fold_items
             (fun i => Some ("ai-proofread-"
                             ++ fmt_s (json_object_get_string_member
                                         (json_array_get_object_element prompts i)
                                         "name")))).
  rewrite (map_indices
             (fun o => Some ("ai-proofread-"
                             ++ fmt_s (json_object_get_string_member o "name")))
             prompts).
  rewrite (fold_items (fun m => Some ("ai-model-" ++ fmt_s m))).
  unfold eui_menu_open, eui_model_menu_open, eui_close, prompt_key.
  rewrite !append_assoc. reflexivity.
Qed.

(** The menu definition and the entries agree. In a built entry set the
    EUI definition consists of fixed markup around two item lists: one
    item for the name of each prompt entry, in the order of the entries,
    inside the ai-menu submenu, and one item for the name of each model
    entry, in order, inside the ai-model-menu submenu; no item refers to
    an action that has no entry. *)
Theorem eui_xml_refers_to_entries (prompts : JsonArray)
  (action_context : MUIActionContext) :
  prompts <> [] ->
  Z.of_nat (List.length prompts) + 3
  + Z.of_nat (List.length (ctx_models action_context)) < 2 ^ 32 ->
  exists built,
    m_ui_build_action_entries (Some prompts) action_context = (Some built, [])
    /\ eui_xml built
       = Some (eui_menu_open
               ++ eui_items (map name (firstn (List.length prompts) (entries built)))
               ++ eui_model_menu_open
               ++ eui_items (map name (skipn (List.length prompts + 3)
                                         (entries built)))
               ++ eui_close)%string.
Proof.
  intros Hne Hroom.
  eexists. split; [apply build_entries_shape; assumption |].
  cbn [entries eui_xml].
  rewrite <- !firstn_map, <- !skipn_map, built_names.
  assert (Hn : List.length prompts
               = List.length (map (fun k => Some ("ai-proofread-" ++ k)%string)
                                (map prompt_key prompts)))
    by (rewrite !length_map; reflexivity).
  rewrite Hn at 1. rewrite firstn_app, Nat.sub_diag, firstn_all.
  cbn [firstn]. rewrite app_nil_r.
  replace (List.length prompts + 3)%nat
    with (List.length
            (map (fun k => Some ("ai-proofread-" ++ k)%string)
               (map prompt_key prompts)
             ++ [Some "ai-menu"; Some "ai-proofread-dropdown"; Some "ai-model-menu"])%list)
    by (rewrite length_app, !length_map; reflexivity).
  rewrite app_assoc, skipn_length_app. rewrite !map_map.
  f_equal. apply build_eui_xml_items. lia.
Qed.

Lemma eui_xml_refers_to_entries_witness :
  exists built,
    m_ui_build_action_entries (Some one_prompt) sample_context = (Some built, [])
    /\ eui_xml built
       = Some (eui_menu_open
               ++ eui_items (map name (firstn 1 (entries built)))
               ++ eui_model_menu_open
               ++ eui_items (map name (skipn 4 (entries built)))
               ++ eui_close)%string.
Proof.
  apply (eui_xml_refers_to_entries one_prompt sample_context).
  - discriminate.
  - vm_compute. reflexivity.
Defined.

(** The [load_prompts] of the first m-msg-composer-extension.c and
    [m_config_load_prompts], which replaced it, return the same array for
    every prompts file, and each logs one record exactly when the file
    did not give an array; for a root that is not an array the first
    version logs the critical of [json_array_get_length (NULL)] where
    the later one logs a warning. *)
Theorem legacy_load_prompts_agrees (file : ParseResult) :
  fst (Legacy.load_prompts_first file) = fst (m_config_load_prompts file)
  /\ List.length (snd (Legacy.load_prompts_first file))
     = List.length (snd (m_config_load_prompts file))
  /\ (forall message,
        file = ParseError message ->
        snd (Legacy.load_prompts_first file) = snd (m_config_load_prompts file))
  /\ (forall root,
        file = ParseOk root ->
        JSON_NODE_HOLDS_ARRAY root = false ->
        exists critical warning,
          snd (Legacy.load_prompts_first file) = [LogCritical critical]
          /\ snd (m_config_load_prompts file) = [LogWarning warning]).
Proof.
  destruct file as [message | [[] |]];
    (split; [try reflexivity | split; [try reflexivity | split]]);
    try (intros ? H; discriminate H);
    try (intros ? H; injection H as <-; intros Hh; try discriminate Hh;
         eexists _, _; split; reflexivity);
    try (intros ? _; reflexivity).
Qed.

Lemma legacy_load_prompts_agrees_witness :
  JSON_NODE_HOLDS_ARRAY (Some (JObject [])) = false
  /\ exists critical warning,
       snd (Legacy.load_prompts_first (ParseOk (Some (JObject []))))
       = [LogCritical critical]
       /\ snd (m_config_load_prompts (ParseOk (Some (JObject []))))
          = [LogWarning warning].
Proof.
  split; [reflexivity |].
  exact (proj2 (proj2 (proj2
    (legacy_load_prompts_agrees (ParseOk (Some (JObject []))))))
    (Some (JObject [])) eq_refl eq_refl).
Defined.
